(** * Appointment back end: lifecycle and reminder flags

    A shallow embedding of the two Express servers of the repository:
    - [Citas]      the full variant (src/server.js, table [citas]);
    - [Gratuitas]  the simplified variant (src/unnamed/part_000, table
                   [public.citas_gratuitas]).

    Request bodies are JavaScript values, tables are lists of rows, SQL
    predicates are three-valued, and a handler is a computation in a small
    monad that threads the table and the console and may throw.  The
    storage engine and the time zone of the server are not in the source:
    the input functions of the engine and the offsets of the zone are taken
    as given, and every statement holds whatever they are. *)

From Stdlib Require Import ZArith String Ascii List Lia Permutation Sorted.
From stdpp Require Import base tactics option list strings sorting numbers pretty.

Local Open Scope Z_scope.
Local Open Scope string_scope.

(* ===================================================================== *)
(** ** JavaScript values of a parsed JSON body *)
(* ===================================================================== *)

Module JS.

(** The scalars a field of a JSON body can hold, [Undefined] for a field
    that is absent.  Numbers are the integers; arrays and objects are left
    out. *)
Inductive valor : Type :=
| Undefined
| Null
| Booleano (b : bool)
| Numero (n : Z)
| Cadena (s : string).

#[global] Instance valor_eq_dec : EqDecision valor.
Proof. solve_decision. Defined.

(** ToBoolean: what [if (v)] and [!v] look at. *)
Definition truthy (v : valor) : bool :=
  match v with
  | Undefined | Null => false
  | Booleano b => b
  | Numero n => negb (n =? 0)%Z
  | Cadena s => negb (bool_decide (s = ""))
  end.

(** [!v] *)
Definition no (v : valor) : bool := negb (truthy v).

(** [a || b] *)
Definition o (a b : valor) : valor := if truthy a then a else b.

(** [a === "lit"] for a string literal. *)
Definition es_cadena (v : valor) (lit : string) : bool :=
  match v with
  | Cadena s => bool_decide (s = lit)
  | _ => false
  end.

(** An entry of [process.env]: a string or nothing. *)
Definition truthy_env (v : option string) : bool :=
  match v with
  | Some s => negb (bool_decide (s = ""))
  | None => false
  end.

(** *** Date arithmetic

    A [Date] is its time value, milliseconds since the epoch.  The zone of
    the server gives the offset of local time at an instant of universal
    time ([desfase_utc]) and at an instant of local time
    ([desfase_local]); the two differ around a change of offset. *)
Definition msPerHour : Z := 3600000.
Definition msPerDay : Z := 86400000.
Definition HoursPerDay : Z := 24.

Record zona : Type := Zona {
  desfase_utc : Z -> Z;
  desfase_local : Z -> Z
}.

Definition LocalTime (z : zona) (t : Z) : Z := t + desfase_utc z t.
Definition UTC (z : zona) (t : Z) : Z := t - desfase_local z t.
Definition Day (t : Z) : Z := t / msPerDay.
Definition HourFromTime (t : Z) : Z := (t / msPerHour) mod HoursPerDay.

(** [d.getHours()] *)
Definition getHours (z : zona) (t : Z) : Z := HourFromTime (LocalTime z t).

(** [d.setHours(h)]: the hour field of local time is replaced, the
    minutes, seconds and milliseconds are kept, an hour outside 0..23
    carries into the day, and the local time obtained is read back in the
    zone. *)
Definition setHours (z : zona) (t h : Z) : Z :=
  let lt := LocalTime z t in
  let time := h * msPerHour + lt mod msPerHour in
  UTC z (Day lt * msPerDay + time).

(** A zone that never changes its offset. *)
Definition zona_fija (c : Z) : zona := Zona (fun _ => c) (fun _ => c).

End JS.

(* ===================================================================== *)
(** ** Handlers: table state, console output, exceptions *)
(* ===================================================================== *)

Module Efecto.

Inductive resultado (A : Type) : Type :=
| Bien (a : A)
| Lanza (mensaje : string).
Arguments Bien {A} a.
Arguments Lanza {A} mensaje.

(** What is passed to [console.log] and [console.error]: texts, numbers,
    and caught errors (an error is its message). *)
Inductive arg : Type :=
| Texto (s : string)
| Num (n : Z)
| Excepcion (message : string).

Inductive flujo : Type := Log | Err.

Record linea : Type := Linea { flujo_de : flujo; args : list arg }.

Section Monada.
Context {T : Type}.

Record mundo : Type := Mundo { tabla : T; consola : list linea }.

Definition M (A : Type) : Type := mundo -> resultado A * mundo.

Definition ret {A} (a : A) : M A := fun w => (Bien a, w).

Definition ligar {A B} (m : M A) (k : A -> M B) : M B :=
  fun w =>
    match m w with
    | (Bien a, w') => k a w'
    | (Lanza e, w') => (Lanza e, w')
    end.

(** [throw] *)
Definition lanzar {A} (e : string) : M A := fun w => (Lanza e, w).

(** A result that is already known. *)
Definition elevar {A} (r : resultado A) : M A := fun w => (r, w).

(** [try { m } catch (error) { h error.message }]: what [m] did to the
    table and the console before it threw stays done. *)
Definition intentar {A} (m : M A) (h : string -> M A) : M A :=
  fun w =>
    match m w with
    | (Bien a, w') => (Bien a, w')
    | (Lanza e, w') => h e w'
    end.

Definition registrar (l : linea) : M unit :=
  fun w => (Bien tt, {| tabla := tabla w; consola := consola w ++ [l] |}).

(** [console.log(...)] *)
Definition console_log (a : list arg) : M unit := registrar (Linea Log a).

(** [console.error(...)] *)
Definition console_error (a : list arg) : M unit := registrar (Linea Err a).

Definition leer : M T := fun w => (Bien (tabla w), w).

Definition escribir (t : T) : M unit :=
  fun w => (Bien tt, {| tabla := t; consola := consola w |}).

End Monada.

Arguments mundo : clear implicits.
Arguments M : clear implicits.
Arguments Mundo {T} tabla consola.

End Efecto.

Import Efecto.

Notation "'sea' x ':=' m 'en' k" := (ligar m (fun x => k))
  (at level 10, x name, m at level 100, k at level 200).
Notation "m '>>' k" := (ligar m (fun _ => k))
  (at level 100, k at level 200, right associativity).

(* ===================================================================== *)
(** ** The storage engine as seen from the queries *)
(* ===================================================================== *)

Module Sql.

(** A text column: NULL or the text. *)
Definition texto : Type := option string.

(** How the driver sends a JavaScript value as a query parameter. *)
Definition parametro (v : JS.valor) : texto :=
  match v with
  | JS.Undefined | JS.Null => None
  | JS.Booleano b => Some (if b then "true" else "false")
  | JS.Numero n => Some (pretty n)
  | JS.Cadena s => Some s
  end.

(** The input functions of the engine, which turn the text of a parameter
    into the value of a column: of the integer key, of the date column
    [fecha] (the queries compare it with CURRENT_DATE) and of the time
    column [hora].  The engine is not in the source and these functions are
    taken as given: [Bien v] is the value the engine reads, [Lanza e] the
    error with which it rejects the text and the query throws.  A date and
    a time are held as integers that order as the dates and the times
    do. *)
Record motor : Type := Motor {
  entero_de_texto : string -> resultado Z;
  fecha_de_texto : string -> resultado Z;
  hora_de_texto : string -> resultado Z
}.

(** A parameter bound to a column that has an input function: NULL stays
    NULL, a text goes through the function. *)
Definition leer_columna (f : string -> resultado Z) (p : texto) : resultado (option Z) :=
  match p with
  | None => Bien None
  | Some s =>
      match f s with
      | Bien v => Bien (Some v)
      | Lanza e => Lanza e
      end
  end.

(** Three-valued comparison: NULL on either side gives NULL. *)
Definition eq {A} `{EqDecision A} (a b : option A) : option bool :=
  match a, b with
  | Some x, Some y => Some (bool_decide (x = y))
  | _, _ => None
  end.

Definition ne {A} `{EqDecision A} (a b : option A) : option bool := negb <$> eq a b.

(** [a >= b] *)
Definition ge (a b : option Z) : option bool :=
  match a, b with
  | Some x, Some y => Some (y <=? x)%Z
  | _, _ => None
  end.

Definition y_logico (p q : option bool) : option bool :=
  match p, q with
  | Some false, _ | _, Some false => Some false
  | Some true, Some true => Some true
  | _, _ => None
  end.

(** A WHERE clause keeps the rows on which the condition is true. *)
Definition donde (p : option bool) : bool :=
  match p with
  | Some true => true
  | _ => false
  end.

(** ORDER BY ... ASC: NULLs come last. *)
Definition asc (a b : option Z) : bool :=
  match a, b with
  | _, None => true
  | None, Some _ => false
  | Some x, Some y => (x <=? y)%Z
  end.

End Sql.

(** The text of a route parameter used as the integer key in a query: the
    query throws when the engine rejects the text. *)
Definition con_id {T A : Type} (m : Sql.motor) (idtxt : string) (k : Z -> M T A)
  : M T A :=
  match Sql.entero_de_texto m idtxt with
  | Bien n => k n
  | Lanza e => lanzar e
  end.

(** A value of the body bound to a date or time column. *)
Definition a_columna {T : Type} (f : string -> resultado Z) (v : JS.valor)
  : M T (option Z) :=
  elevar (Sql.leer_columna f (Sql.parametro v)).

(* ===================================================================== *)
(** ** Routing: the first registered route that matches serves the request *)
(* ===================================================================== *)

Module Ruteo.

Inductive metodo : Type := GET | POST | PUT | DELETE | PATCH.

#[global] Instance metodo_eq_dec : EqDecision metodo.
Proof. solve_decision. Defined.

(** A segment of a route path: a literal or a named parameter [:x]. *)
Inductive segmento : Type :=
| Lit (s : string)
| Par (nombre : string).

(** A request path is its list of segments; a parameter takes exactly one
    segment. *)
Fixpoint coincide (patron : list segmento) (ruta : list string)
  : option (list (string * string)) :=
  match patron, ruta with
  | [], [] => Some []
  | Lit s :: patron', x :: ruta' =>
      if bool_decide (s = x) then coincide patron' ruta' else None
  | Par n :: patron', x :: ruta' =>
      match coincide patron' ruta' with
      | Some ps => Some ((n, x) :: ps)
      | None => None
      end
  | _, _ => None
  end.

(** [req.params.x] *)
Fixpoint param (ps : list (string * string)) (n : string) : string :=
  match ps with
  | [] => ""
  | (k, v) :: ps' => if bool_decide (k = n) then v else param ps' n
  end.

Section Tabla_de_rutas.
Context {H : Type}.

(** Routes are tried in the order of their registration; the handlers
    of both servers answer without handing over to the next route. *)
Fixpoint resolver (rutas : list (metodo * list segmento * H))
    (m : metodo) (ruta : list string) : option (H * list (string * string)) :=
  match rutas with
  | [] => None
  | (m', patron, h) :: rutas' =>
      if bool_decide (m' = m) then
        match coincide patron ruta with
        | Some ps => Some (h, ps)
        | None => resolver rutas' m ruta
        end
      else resolver rutas' m ruta
  end.
End Tabla_de_rutas.

End Ruteo.

(* ===================================================================== *)
(** ** Full variant: src/server.js, table [citas] *)
(* ===================================================================== *)

Module Citas.

(** Modelled from the spec: the declaration of the table is not in the
    source.  The columns are those the queries name: an integer key, text
    columns, the date [fecha] and the time [hora], held as the values the
    engine read, and the timestamp [fecha_actualizacion].  The queries do
    not show which columns are declared NOT NULL; none but the key is taken
    to be, so a parameter that is null is stored as NULL. *)
Module Fila.
Record t : Type := Hacer {
  id : Z;
  nombre : Sql.texto;
  apellido : Sql.texto;
  email : Sql.texto;
  telefono : Sql.texto;
  fecha : option Z;
  hora : option Z;
  motivo : Sql.texto;
  notas : Sql.texto;
  estado : Sql.texto;
  fecha_actualizacion : option Z
}.

#[global] Instance eq_dec : EqDecision t.
Proof. solve_decision. Defined.
End Fila.

(** [req.body] as the handlers destructure it. *)
Module Cuerpo.
Record t : Type := Hacer {
  nombre : JS.valor;
  apellido : JS.valor;
  email : JS.valor;
  telefono : JS.valor;
  fecha : JS.valor;
  hora : JS.valor;
  motivo : JS.valor;
  notas : JS.valor;
  estado : JS.valor
}.
End Cuerpo.

(** Modelled from the spec: the declaration of the table is not in the
    source; the id is "assigned by the store on creation" and "never
    reused", a serial integer key, kept here as the next value of its
    sequence. *)
Record tabla : Type := Tabla { filas : list Fila.t; siguiente_id : Z }.

(** What a request finds around it: CURRENT_TIMESTAMP / [new Date()] in
    milliseconds, and CURRENT_DATE as a value of the date column. *)
Record entorno : Type := Entorno { ahora : Z; hoy : Z }.

Inductive json : Type :=
| Filas (rows : list Fila.t)
| UnaFila (row : Fila.t)
| Error (error : string)
| Mensaje (message : string) (cita : Fila.t)
| Salud (timestamp : Z)
| Pagina
| SinRuta.

Record respuesta : Type := Responder { status : Z; contenido : json }.

Definition cancelada : string := "cancelada".
Definition confirmada : string := "confirmada".

(** *** The queries *)

(** ORDER BY fecha, hora *)
Definition por_fecha_hora (a b : Fila.t) : Prop :=
  if decide (Fila.fecha a = Fila.fecha b)
  then Sql.asc (Fila.hora a) (Fila.hora b)
  else Sql.asc (Fila.fecha a) (Fila.fecha b).

(** ORDER BY hora *)
Definition por_hora (a b : Fila.t) : Prop := Sql.asc (Fila.hora a) (Fila.hora b).

#[global] Instance por_fecha_hora_dec : RelDecision por_fecha_hora.
Proof. intros a b. unfold por_fecha_hora. destruct (decide _); apply _. Defined.

#[global] Instance por_hora_dec : RelDecision por_hora.
Proof. intros a b. unfold por_hora. apply _. Defined.

(** WHERE id = $n *)
Definition con_clave (n : Z) (l : list Fila.t) : list Fila.t :=
  filter (fun r => Fila.id r = n) l.

(** SET ... WHERE id = $n: the rows of the key are rewritten in place. *)
Definition poner_en_clave (n : Z) (f : Fila.t -> Fila.t) (l : list Fila.t)
  : list Fila.t :=
  (fun r => if decide (Fila.id r = n) then f r else r) <$> l.

(** UPDATE citas SET ... WHERE id = $n RETURNING *, once the engine has
    read its parameters. *)
Definition actualizar_en_clave (n : Z) (f : Fila.t -> Fila.t)
  : M tabla (list Fila.t) :=
  sea t := leer en
  escribir {| filas := poner_en_clave n f (filas t);
              siguiente_id := siguiente_id t |} >>
  ret (f <$> con_clave n (filas t)).

(** SELECT * FROM citas ORDER BY fecha, hora *)
Definition consulta_todas : M tabla (list Fila.t) :=
  sea t := leer en ret (merge_sort por_fecha_hora (filas t)).

(** WHERE fecha = $1 AND hora = $2 AND estado != $3 *)
Definition ocupa (f h : option Z) (r : Fila.t) : bool :=
  Sql.donde
    (Sql.y_logico
       (Sql.y_logico (Sql.eq (Fila.fecha r) f) (Sql.eq (Fila.hora r) h))
       (Sql.ne (Fila.estado r) (Some cancelada))).

(** WHERE fecha >= CURRENT_DATE AND estado = 'confirmada' ORDER BY fecha, hora *)
Definition pendiente (e : entorno) (r : Fila.t) : bool :=
  Sql.donde
    (Sql.y_logico (Sql.ge (Fila.fecha r) (Some (hoy e)))
                  (Sql.eq (Fila.estado r) (Some confirmada))).

Definition consulta_pendientes (e : entorno) : M tabla (list Fila.t) :=
  sea t := leer en
  ret (merge_sort por_fecha_hora (filter (fun r => pendiente e r) (filas t))).

(** The SET clause of DELETE /api/citas/:id. *)
Definition cancelar (e : entorno) (r : Fila.t) : Fila.t :=
  {| Fila.id := Fila.id r;
     Fila.nombre := Fila.nombre r;
     Fila.apellido := Fila.apellido r;
     Fila.email := Fila.email r;
     Fila.telefono := Fila.telefono r;
     Fila.fecha := Fila.fecha r;
     Fila.hora := Fila.hora r;
     Fila.motivo := Fila.motivo r;
     Fila.notas := Fila.notas r;
     Fila.estado := Some cancelada;
     Fila.fecha_actualizacion := Some (ahora e) |}.

(** The SET clause of PUT /api/citas/:id, with the date and the time the
    engine read from the body. *)
Definition reemplazar (e : entorno) (b : Cuerpo.t) (fv hv : option Z) (r : Fila.t)
  : Fila.t :=
  {| Fila.id := Fila.id r;
     Fila.nombre := Sql.parametro (Cuerpo.nombre b);
     Fila.apellido := Sql.parametro (Cuerpo.apellido b);
     Fila.email := Sql.parametro (Cuerpo.email b);
     Fila.telefono := Sql.parametro (Cuerpo.telefono b);
     Fila.fecha := fv;
     Fila.hora := hv;
     Fila.motivo := Sql.parametro (Cuerpo.motivo b);
     Fila.notas := Sql.parametro (Cuerpo.notas b);
     Fila.estado := Sql.parametro (Cuerpo.estado b);
     Fila.fecha_actualizacion := Some (ahora e) |}.

(** The guard of POST /api/citas. *)
Definition faltan_campos (b : Cuerpo.t) : bool :=
  JS.no (Cuerpo.nombre b) || JS.no (Cuerpo.apellido b) || JS.no (Cuerpo.email b)
  || JS.no (Cuerpo.telefono b) || JS.no (Cuerpo.fecha b) || JS.no (Cuerpo.hora b)
  || JS.no (Cuerpo.motivo b).

Inductive manejador : Type :=
| HObtenerCitas | HObtenerCita | HCrearCita | HActualizarCita
| HCancelarCita | HCitasPorFecha | HCitasPendientes | HHealth | HRaiz.

(** The routes, in the order of their registration. *)
Definition rutas : list (Ruteo.metodo * list Ruteo.segmento * manejador) :=
  [ (Ruteo.GET, [Ruteo.Lit "api"; Ruteo.Lit "citas"], HObtenerCitas);
    (Ruteo.GET, [Ruteo.Lit "api"; Ruteo.Lit "citas"; Ruteo.Par "id"], HObtenerCita);
    (Ruteo.POST, [Ruteo.Lit "api"; Ruteo.Lit "citas"], HCrearCita);
    (Ruteo.PUT, [Ruteo.Lit "api"; Ruteo.Lit "citas"; Ruteo.Par "id"], HActualizarCita);
    (Ruteo.DELETE, [Ruteo.Lit "api"; Ruteo.Lit "citas"; Ruteo.Par "id"], HCancelarCita);
    (Ruteo.GET, [Ruteo.Lit "api"; Ruteo.Lit "citas"; Ruteo.Lit "fecha"; Ruteo.Par "fecha"],
      HCitasPorFecha);
    (Ruteo.GET, [Ruteo.Lit "api"; Ruteo.Lit "citas"; Ruteo.Lit "pendientes"],
      HCitasPendientes);
    (Ruteo.GET, [Ruteo.Lit "health"], HHealth);
    (Ruteo.GET, [], HRaiz) ].

Record peticion : Type := Peticion {
  metodo : Ruteo.metodo;
  ruta : list string;
  body : Cuerpo.t
}.

Definition sin_cuerpo : Cuerpo.t :=
  Cuerpo.Hacer JS.Undefined JS.Undefined JS.Undefined JS.Undefined JS.Undefined
               JS.Undefined JS.Undefined JS.Undefined JS.Undefined.

(** The requests of the API. *)
Definition POST_citas (b : Cuerpo.t) : peticion :=
  Peticion Ruteo.POST ["api"; "citas"] b.
Definition PUT_cita (id : string) (b : Cuerpo.t) : peticion :=
  Peticion Ruteo.PUT ["api"; "citas"; id] b.
Definition DELETE_cita (id : string) : peticion :=
  Peticion Ruteo.DELETE ["api"; "citas"; id] sin_cuerpo.
Definition GET_citas : peticion :=
  Peticion Ruteo.GET ["api"; "citas"] sin_cuerpo.
Definition GET_cita (id : string) : peticion :=
  Peticion Ruteo.GET ["api"; "citas"; id] sin_cuerpo.
Definition GET_fecha (f : string) : peticion :=
  Peticion Ruteo.GET ["api"; "citas"; "fecha"; f] sin_cuerpo.
Definition GET_pendientes : peticion :=
  Peticion Ruteo.GET ["api"; "citas"; "pendientes"] sin_cuerpo.

(** A handler of POST /api/citas that has given way at its first [await]:
    it has answered already, or the rows of its SELECT are on their way
    back. *)
Inductive en_espera : Type :=
| Respondida (r : respuesta)
| ConsultaHecha (existente : list Fila.t).

Section Esquema.
(** The engine that executes the queries. *)
Variable m : Sql.motor.

(** The default of the column [fecha_actualizacion], which the INSERT
    does not name: it comes with the declaration of the table, which is
    not in the source, and is taken as given (a function of the time of
    the insertion). *)
Variable actualizacion_inicial : Z -> option Z.

(** SELECT * FROM citas WHERE id = $1 *)
Definition consulta_por_id (idtxt : string) : M tabla (list Fila.t) :=
  con_id m idtxt (fun n => sea t := leer en ret (con_clave n (filas t))).

(** SELECT * FROM citas WHERE fecha = $1 AND hora = $2 AND estado != $3:
    the engine reads the date and the time, then looks for the rows. *)
Definition consulta_existente (f h : JS.valor) : M tabla (list Fila.t) :=
  sea fv := a_columna (Sql.fecha_de_texto m) f en
  sea hv := a_columna (Sql.hora_de_texto m) h en
  sea t := leer en
  ret (filter (fun r => ocupa fv hv r) (filas t)).

(** SELECT * FROM citas WHERE fecha = $1 ORDER BY hora *)
Definition consulta_por_fecha (f : string) : M tabla (list Fila.t) :=
  sea fv := a_columna (Sql.fecha_de_texto m) (JS.Cadena f) en
  sea t := leer en
  ret (merge_sort por_hora
         (filter (fun r => Sql.donde (Sql.eq (Fila.fecha r) fv)) (filas t))).

(** INSERT INTO citas (...) VALUES ($1, ..., $9) RETURNING *: the one
    row inserted, [result.rows[0]]. *)
Definition fila_nueva (e : entorno) (b : Cuerpo.t) (fv hv : option Z) (n : Z)
  : Fila.t :=
  {| Fila.id := n;
     Fila.nombre := Sql.parametro (Cuerpo.nombre b);
     Fila.apellido := Sql.parametro (Cuerpo.apellido b);
     Fila.email := Sql.parametro (Cuerpo.email b);
     Fila.telefono := Sql.parametro (Cuerpo.telefono b);
     Fila.fecha := fv;
     Fila.hora := hv;
     Fila.motivo := Sql.parametro (Cuerpo.motivo b);
     Fila.notas := Sql.parametro (JS.o (Cuerpo.notas b) JS.Null);
     Fila.estado := Some confirmada;
     Fila.fecha_actualizacion := actualizacion_inicial (ahora e) |}.

Definition insertar (e : entorno) (b : Cuerpo.t) : M tabla Fila.t :=
  sea fv := a_columna (Sql.fecha_de_texto m) (Cuerpo.fecha b) en
  sea hv := a_columna (Sql.hora_de_texto m) (Cuerpo.hora b) en
  sea t := leer en
  let fila := fila_nueva e b fv hv (siguiente_id t) in
  escribir {| filas := filas t ++ [fila]; siguiente_id := siguiente_id t + 1 |} >>
  ret fila.

(** UPDATE citas SET nombre = $1, ..., fecha = $5, hora = $6, ...,
    estado = $9, fecha_actualizacion = CURRENT_TIMESTAMP WHERE id = $10
    RETURNING * *)
Definition consulta_actualizar (e : entorno) (idtxt : string) (b : Cuerpo.t)
  : M tabla (list Fila.t) :=
  sea fv := a_columna (Sql.fecha_de_texto m) (Cuerpo.fecha b) en
  sea hv := a_columna (Sql.hora_de_texto m) (Cuerpo.hora b) en
  con_id m idtxt (fun n => actualizar_en_clave n (reemplazar e b fv hv)).

(** UPDATE citas SET estado = $1, fecha_actualizacion = CURRENT_TIMESTAMP
    WHERE id = $2 RETURNING * *)
Definition consulta_cancelar (e : entorno) (idtxt : string) : M tabla (list Fila.t) :=
  con_id m idtxt (fun n => actualizar_en_clave n (cancelar e)).

(** *** The handlers, in the order of the file *)

(** GET /api/citas *)
Definition obtener_citas : M tabla respuesta :=
  intentar
    (sea rows := consulta_todas en ret (Responder 200 (Filas rows)))
    (fun error =>
       console_error [Texto "Error al obtener citas:"; Excepcion error] >>
       ret (Responder 500 (Error "Error al obtener las citas"))).

(** GET /api/citas/:id *)
Definition obtener_cita (id : string) : M tabla respuesta :=
  intentar
    (sea rows := consulta_por_id id en
     match rows with
     | [] => ret (Responder 404 (Error "Cita no encontrada"))
     | row :: _ => ret (Responder 200 (UnaFila row))
     end)
    (fun error =>
       console_error [Texto "Error al obtener cita:"; Excepcion error] >>
       ret (Responder 500 (Error "Error al obtener la cita"))).

(** POST /api/citas *)
Definition crear_cita (e : entorno) (b : Cuerpo.t) : M tabla respuesta :=
  intentar
    (if faltan_campos b then
       ret (Responder 400 (Error "Faltan campos requeridos"))
     else
       sea existente := consulta_existente (Cuerpo.fecha b) (Cuerpo.hora b) en
       if bool_decide (0 < length existente)%nat then
         ret (Responder 409 (Error "Ya existe una cita en ese horario"))
       else
         sea row := insertar e b en
         ret (Responder 201 (UnaFila row)))
    (fun error =>
       console_error [Texto "Error al crear cita:"; Excepcion error] >>
       ret (Responder 500 (Error "Error al crear la cita"))).

(** PUT /api/citas/:id *)
Definition actualizar_cita (e : entorno) (id : string) (b : Cuerpo.t)
  : M tabla respuesta :=
  intentar
    (sea rows := consulta_actualizar e id b en
     match rows with
     | [] => ret (Responder 404 (Error "Cita no encontrada"))
     | row :: _ => ret (Responder 200 (UnaFila row))
     end)
    (fun error =>
       console_error [Texto "Error al actualizar cita:"; Excepcion error] >>
       ret (Responder 500 (Error "Error al actualizar la cita"))).

(** DELETE /api/citas/:id (soft delete) *)
Definition cancelar_cita (e : entorno) (id : string) : M tabla respuesta :=
  intentar
    (sea rows := consulta_cancelar e id en
     match rows with
     | [] => ret (Responder 404 (Error "Cita no encontrada"))
     | row :: _ => ret (Responder 200 (Mensaje "Cita cancelada exitosamente" row))
     end)
    (fun error =>
       console_error [Texto "Error al cancelar cita:"; Excepcion error] >>
       ret (Responder 500 (Error "Error al cancelar la cita"))).

(** GET /api/citas/fecha/:fecha *)
Definition citas_por_fecha (f : string) : M tabla respuesta :=
  intentar
    (sea rows := consulta_por_fecha f en ret (Responder 200 (Filas rows)))
    (fun error =>
       console_error [Texto "Error al obtener citas por fecha:"; Excepcion error] >>
       ret (Responder 500 (Error "Error al obtener las citas"))).

(** GET /api/citas/pendientes *)
Definition citas_pendientes (e : entorno) : M tabla respuesta :=
  intentar
    (sea rows := consulta_pendientes e en ret (Responder 200 (Filas rows)))
    (fun error =>
       console_error [Texto "Error al obtener citas pendientes:"; Excepcion error] >>
       ret (Responder 500 (Error "Error al obtener las citas pendientes"))).

(** *** The application *)

Definition manejar (e : entorno) (h : manejador) (ps : list (string * string))
    (b : Cuerpo.t) : M tabla respuesta :=
  match h with
  | HObtenerCitas => obtener_citas
  | HObtenerCita => obtener_cita (Ruteo.param ps "id")
  | HCrearCita => crear_cita e b
  | HActualizarCita => actualizar_cita e (Ruteo.param ps "id") b
  | HCancelarCita => cancelar_cita e (Ruteo.param ps "id")
  | HCitasPorFecha => citas_por_fecha (Ruteo.param ps "fecha")
  | HCitasPendientes => citas_pendientes e
  | HHealth => ret (Responder 200 (Salud (ahora e)))
  | HRaiz => ret (Responder 200 Pagina)
  end.

Definition servidor (e : entorno) (p : peticion) : M tabla respuesta :=
  match Ruteo.resolver rutas (metodo p) (ruta p) with
  | Some (h, ps) => manejar e h ps (body p)
  | None => ret (Responder 404 SinRuta)
  end.

(** One request served alone on a table: the response and the table
    after. *)
Definition servir (e : entorno) (p : peticion) (t : tabla) : respuesta * tabla :=
  match servidor e p (Mundo t []) with
  | (Bien r, w) => (r, Efecto.tabla w)
  | (Lanza _, w) => (Responder 500 (Error "Internal Server Error"), Efecto.tabla w)
  end.

(** A run of the API in which the requests are served one after the
    other. *)
Fixpoint correr (ps : list (entorno * peticion)) (t : tabla) : tabla :=
  match ps with
  | [] => t
  | (e, p) :: ps' => correr ps' (servir e p t).2
  end.

(** *** Two requests in flight

    The handlers are [async]: at each [await pool.query(...)] the handler
    gives way, and the queries of another request can run before it goes
    on.  POST /api/citas awaits its SELECT and then its INSERT, with no
    transaction around them. *)

(** POST /api/citas up to the [await] of its SELECT. *)
Definition hasta_la_consulta (b : Cuerpo.t) : M tabla en_espera :=
  intentar
    (if faltan_campos b then
       ret (Respondida (Responder 400 (Error "Faltan campos requeridos")))
     else
       sea existente := consulta_existente (Cuerpo.fecha b) (Cuerpo.hora b) en
       ret (ConsultaHecha existente))
    (fun error =>
       console_error [Texto "Error al crear cita:"; Excepcion error] >>
       ret (Respondida (Responder 500 (Error "Error al crear la cita")))).

(** ... and from there on. *)
Definition desde_la_consulta (e : entorno) (b : Cuerpo.t) (x : en_espera)
  : M tabla respuesta :=
  match x with
  | Respondida r => ret r
  | ConsultaHecha existente =>
      intentar
        (if bool_decide (0 < length existente)%nat then
           ret (Responder 409 (Error "Ya existe una cita en ese horario"))
         else
           sea row := insertar e b en
           ret (Responder 201 (UnaFila row)))
        (fun error =>
           console_error [Texto "Error al crear cita:"; Excepcion error] >>
           ret (Responder 500 (Error "Error al crear la cita")))
  end.

(** Two POST requests of which both SELECTs run before either INSERT. *)
Definition dos_a_la_vez (e1 : entorno) (b1 : Cuerpo.t) (e2 : entorno) (b2 : Cuerpo.t)
  : M tabla (respuesta * respuesta) :=
  sea x1 := hasta_la_consulta b1 en
  sea x2 := hasta_la_consulta b2 en
  sea r1 := desde_la_consulta e1 b1 x1 en
  sea r2 := desde_la_consulta e2 b2 x2 en
  ret (r1, r2).

End Esquema.

End Citas.

(* ===================================================================== *)
(** ** Simplified variant: src/unnamed/part_000, table [citas_gratuitas] *)
(* ===================================================================== *)

Module Gratuitas.

Module Fila.
(** Modelled from the spec: the declaration of the table is not in the
    source.  The columns are those the queries name, and
    [fecha_actualizacion], the [updatedAt] timestamp that the data model of
    the spec gives every appointment; no query of this server names such a
    column. *)
Record t : Type := Hacer {
  id : Z;
  nombre : Sql.texto;
  email : Sql.texto;
  telefono : Sql.texto;
  fecha_cita : Z;
  recordatorio_24h_enviado : bool;
  recordatorio_2h_enviado : bool;
  recordatorio_post_enviado : bool;
  fecha_actualizacion : option Z
}.

#[global] Instance eq_dec : EqDecision t.
Proof. solve_decision. Defined.
End Fila.

(** [req.body]: POST reads the first four fields, PATCH reads [tipo]. *)
Module Cuerpo.
Record t : Type := Hacer {
  nombre : JS.valor;
  email : JS.valor;
  telefono : JS.valor;
  tipoFecha : JS.valor;
  tipo : JS.valor
}.
End Cuerpo.

(** Modelled from the spec: as in the full variant, the id is a serial
    integer key assigned by the store and never reused. *)
Record tabla : Type := Tabla { filas : list Fila.t; siguiente_id : Z }.

(** How the outbound call ends: [fetch] rejects (network error), or it
    resolves to a response with its [ok], [status] and [statusText]. *)
Inductive llamada : Type :=
| Rechaza (message : string)
| Responde (ok : bool) (status : Z) (statusText : string).

(** What a request finds around it: the clock, the time zone of the
    server, [process.env.N8N_WEBHOOK_URL], and the fate of a webhook
    call. *)
Record entorno : Type := Entorno {
  ahora : Z;
  zona : JS.zona;
  N8N_WEBHOOK_URL : option string;
  red : llamada
}.

Inductive datos : Type :=
| SinDatos
| Dato (row : Fila.t)
| Datos (rows : list Fila.t).

(** The envelope [{success, message, data, error}]. *)
Record respuesta : Type := Responder {
  status : Z;
  success : bool;
  message : option string;
  data : datos;
  error : option string
}.

(** ORDER BY fecha_cita DESC *)
Definition por_fecha_desc (a b : Fila.t) : Prop :=
  (Fila.fecha_cita b <= Fila.fecha_cita a)%Z.

#[global] Instance por_fecha_desc_dec : RelDecision por_fecha_desc.
Proof. intros a b. unfold por_fecha_desc. apply _. Defined.

(** *** GET /api/citas *)
Definition obtener_citas : M tabla respuesta :=
  intentar
    (sea t := leer en
     ret (Responder 200 true None (Datos (merge_sort por_fecha_desc (filas t))) None))
    (fun err =>
       console_error [Texto "❌ Error al obtener citas:"; Excepcion err] >>
       ret (Responder 500 false (Some "Error al obtener las citas") SinDatos (Some err))).

(** *** enviarWebhookN8n *)

Definition fetch (e : entorno) : M tabla (bool * Z * string) :=
  match red e with
  | Rechaza msg => lanzar msg
  | Responde ok st txt => ret (ok, st, txt)
  end.

Definition enviarWebhookN8n (e : entorno) (evento : string) (datos : Fila.t)
  : M tabla unit :=
  if negb (JS.truthy_env (N8N_WEBHOOK_URL e)) then
    console_log [Texto "⚠️ N8N_WEBHOOK_URL no configurado, webhook no enviado"]
  else
    intentar
      (console_log [Texto ("📤 Enviando webhook a n8n: " ++ evento)] >>
       sea response := fetch e en
       let '(ok, st, txt) := response in
       if ok then console_log [Texto "✅ Webhook enviado exitosamente a n8n"]
       else console_error [Texto "❌ Error al enviar webhook:"; Num st; Texto txt])
      (fun err => console_error [Texto "❌ Error al enviar webhook a n8n:"; Texto err]).

(** *** POST /api/citas *)

(** [let fechaCita = new Date(); switch (tipoFecha) { ... }]: [None] is
    the [default] branch. *)
Definition calcular_fecha (e : entorno) (tipoFecha : JS.valor) : option Z :=
  let fechaCita := ahora e in
  if JS.es_cadena tipoFecha "24h" then
    Some (JS.setHours (zona e) fechaCita (JS.getHours (zona e) fechaCita + 24))
  else if JS.es_cadena tipoFecha "2h" then
    Some (JS.setHours (zona e) fechaCita (JS.getHours (zona e) fechaCita + 2))
  else if JS.es_cadena tipoFecha "1h_pasado" then
    Some (JS.setHours (zona e) fechaCita (JS.getHours (zona e) fechaCita - 1))
  else None.

Section Esquema.
(** The default of [fecha_actualizacion] at insertion, which belongs to
    the declaration of the table and is taken as given. *)
Variable actualizacion_inicial : Z -> option Z.

(** INSERT INTO public.citas_gratuitas (...) VALUES ($1, $2, $3, $4,
    false, false, false) RETURNING *: the one row inserted. *)
Definition fila_nueva (e : entorno) (b : Cuerpo.t) (fechaCita n : Z) : Fila.t :=
  {| Fila.id := n;
     Fila.nombre := Sql.parametro (Cuerpo.nombre b);
     Fila.email := Sql.parametro (Cuerpo.email b);
     Fila.telefono := Sql.parametro (Cuerpo.telefono b);
     Fila.fecha_cita := fechaCita;
     Fila.recordatorio_24h_enviado := false;
     Fila.recordatorio_2h_enviado := false;
     Fila.recordatorio_post_enviado := false;
     Fila.fecha_actualizacion := actualizacion_inicial (ahora e) |}.

Definition insertar (e : entorno) (b : Cuerpo.t) (fechaCita : Z) : M tabla Fila.t :=
  sea t := leer en
  let fila := fila_nueva e b fechaCita (siguiente_id t) in
  escribir {| filas := filas t ++ [fila]; siguiente_id := siguiente_id t + 1 |} >>
  ret fila.

Definition crear_cita (e : entorno) (b : Cuerpo.t) : M tabla respuesta :=
  if JS.no (Cuerpo.nombre b) || JS.no (Cuerpo.email b)
     || JS.no (Cuerpo.telefono b) || JS.no (Cuerpo.tipoFecha b) then
    ret (Responder 400 false (Some "Faltan campos requeridos") SinDatos None)
  else
    match calcular_fecha e (Cuerpo.tipoFecha b) with
    | None => ret (Responder 400 false (Some "Tipo de fecha inválido") SinDatos None)
    | Some fechaCita =>
        intentar
          (sea citaCreada := insertar e b fechaCita en
           enviarWebhookN8n e "cita_creada" citaCreada >>
           ret (Responder 201 true (Some "Cita creada exitosamente") (Dato citaCreada) None))
          (fun err =>
             console_error [Texto "❌ Error al crear cita:"; Excepcion err] >>
             ret (Responder 500 false (Some "Error al crear la cita") SinDatos (Some err)))
    end.
End Esquema.

(** *** DELETE /api/citas/:id *)

(** WHERE id = $1 *)
Definition con_clave (n : Z) (l : list Fila.t) : list Fila.t :=
  filter (fun r => Fila.id r = n) l.

(** SET ... WHERE id = $1: the rows of the key are rewritten in place. *)
Definition poner_en_clave (n : Z) (f : Fila.t -> Fila.t) (l : list Fila.t)
  : list Fila.t :=
  (fun r => if decide (Fila.id r = n) then f r else r) <$> l.

(** DELETE FROM public.citas_gratuitas WHERE id = $1 RETURNING * *)
Definition borrar_por_id (m : Sql.motor) (idtxt : string) : M tabla (list Fila.t) :=
  con_id m idtxt (fun n =>
    sea t := leer en
    escribir {| filas := filter (fun r => Fila.id r ≠ n) (filas t);
                siguiente_id := siguiente_id t |} >>
    ret (con_clave n (filas t))).

Definition eliminar_cita (m : Sql.motor) (e : entorno) (id : string)
  : M tabla respuesta :=
  intentar
    (sea rows := borrar_por_id m id en
     match rows with
     | [] => ret (Responder 404 false (Some "Cita no encontrada") SinDatos None)
     | citaEliminada :: _ =>
         enviarWebhookN8n e "cita_eliminada" citaEliminada >>
         ret (Responder 200 true (Some "Cita eliminada exitosamente") (Dato citaEliminada) None)
     end)
    (fun err =>
       console_error [Texto "❌ Error al eliminar cita:"; Excepcion err] >>
       ret (Responder 500 false (Some "Error al eliminar la cita") SinDatos (Some err))).

(** *** The reminder flags *)

(** UPDATE public.citas_gratuitas SET ... WHERE id = $1 RETURNING * *)
Definition actualizar_por_id (m : Sql.motor) (idtxt : string) (f : Fila.t -> Fila.t)
  : M tabla (list Fila.t) :=
  con_id m idtxt (fun n =>
    sea t := leer en
    escribir {| filas := poner_en_clave n f (filas t);
                siguiente_id := siguiente_id t |} >>
    ret (f <$> con_clave n (filas t))).

(** SET recordatorio_24h_enviado = false, recordatorio_2h_enviado = false,
    recordatorio_post_enviado = false *)
Definition sin_flags (r : Fila.t) : Fila.t :=
  {| Fila.id := Fila.id r;
     Fila.nombre := Fila.nombre r;
     Fila.email := Fila.email r;
     Fila.telefono := Fila.telefono r;
     Fila.fecha_cita := Fila.fecha_cita r;
     Fila.recordatorio_24h_enviado := false;
     Fila.recordatorio_2h_enviado := false;
     Fila.recordatorio_post_enviado := false;
     Fila.fecha_actualizacion := Fila.fecha_actualizacion r |}.

(** PATCH /api/citas/:id/reset-flags *)
Definition reset_flags (m : Sql.motor) (id : string) : M tabla respuesta :=
  intentar
    (sea rows := actualizar_por_id m id sin_flags en
     match rows with
     | [] => ret (Responder 404 false (Some "Cita no encontrada") SinDatos None)
     | row :: _ => ret (Responder 200 true (Some "Flags reseteados exitosamente") (Dato row) None)
     end)
    (fun err =>
       console_error [Texto "❌ Error al resetear flags:"; Excepcion err] >>
       ret (Responder 500 false (Some "Error al resetear los flags") SinDatos (Some err))).

(** The three reminder columns. *)
Inductive columna : Type := Col24h | Col2h | ColPost.

(** [['24h', '2h', 'post'].includes(tipo)] *)
Definition tipo_reconocido (tipo : JS.valor) : bool :=
  JS.es_cadena tipo "24h" || JS.es_cadena tipo "2h" || JS.es_cadena tipo "post".

(** [tipo === '24h' ? '24h' : tipo === '2h' ? '2h' : 'post'] *)
Definition columna_de (tipo : JS.valor) : columna :=
  if JS.es_cadena tipo "24h" then Col24h
  else if JS.es_cadena tipo "2h" then Col2h
  else ColPost.

(** SET recordatorio_<columna>_enviado = true *)
Definition marcar (c : columna) (r : Fila.t) : Fila.t :=
  {| Fila.id := Fila.id r;
     Fila.nombre := Fila.nombre r;
     Fila.email := Fila.email r;
     Fila.telefono := Fila.telefono r;
     Fila.fecha_cita := Fila.fecha_cita r;
     Fila.recordatorio_24h_enviado :=
       match c with Col24h => true | _ => Fila.recordatorio_24h_enviado r end;
     Fila.recordatorio_2h_enviado :=
       match c with Col2h => true | _ => Fila.recordatorio_2h_enviado r end;
     Fila.recordatorio_post_enviado :=
       match c with ColPost => true | _ => Fila.recordatorio_post_enviado r end;
     Fila.fecha_actualizacion := Fila.fecha_actualizacion r |}.

Definition texto_de (v : JS.valor) : string :=
  match Sql.parametro v with Some s => s | None => "" end.

(** PATCH /api/citas/:id/marcar-recordatorio *)
Definition marcar_recordatorio (m : Sql.motor) (id : string) (b : Cuerpo.t)
  : M tabla respuesta :=
  let tipo := Cuerpo.tipo b in
  if JS.no tipo || negb (tipo_reconocido tipo) then
    ret (Responder 400 false
           (Some "Tipo de recordatorio inválido. Debe ser: 24h, 2h o post") SinDatos None)
  else
    intentar
      (sea rows := actualizar_por_id m id (marcar (columna_de tipo)) en
       match rows with
       | [] => ret (Responder 404 false (Some "Cita no encontrada") SinDatos None)
       | row :: _ =>
           ret (Responder 200 true
                  (Some ("Recordatorio " ++ texto_de tipo ++ " marcado como enviado"))
                  (Dato row) None)
       end)
      (fun err =>
         console_error [Texto "❌ Error al marcar recordatorio:"; Excepcion err] >>
         ret (Responder 500 false (Some "Error al marcar el recordatorio") SinDatos (Some err))).

(** PATCH /api/citas/reset-flags/all: the UPDATE has no WHERE clause. *)
Definition reset_flags_all : M tabla respuesta :=
  intentar
    (sea t := leer en
     let rows := sin_flags <$> filas t in
     escribir {| filas := rows; siguiente_id := siguiente_id t |} >>
     ret (Responder 200 true
            (Some ("Flags reseteados para " ++ pretty (length rows) ++ " citas"))
            (Datos rows) None))
    (fun err =>
       console_error [Texto "❌ Error al resetear flags:"; Excepcion err] >>
       ret (Responder 500 false (Some "Error al resetear los flags") SinDatos (Some err))).

(** DELETE /api/citas *)
Definition eliminar_todas : M tabla respuesta :=
  intentar
    (sea t := leer en
     escribir {| filas := []; siguiente_id := siguiente_id t |} >>
     ret (Responder 200 true
            (Some (pretty (length (filas t)) ++ " citas eliminadas exitosamente"))
            SinDatos None))
    (fun err =>
       console_error [Texto "❌ Error al eliminar citas:"; Excepcion err] >>
       ret (Responder 500 false (Some "Error al eliminar las citas") SinDatos (Some err))).

(** *** The routes, in the order of their registration *)

Inductive manejador : Type :=
| HTestConnection | HDiagnostico | HObtenerCitas | HCrearCita | HEliminarCita
| HResetFlags | HMarcarRecordatorio | HResetFlagsAll | HEliminarTodas | HRaiz.

Definition rutas : list (Ruteo.metodo * list Ruteo.segmento * manejador) :=
  [ (Ruteo.GET, [Ruteo.Lit "api"; Ruteo.Lit "test-connection"], HTestConnection);
    (Ruteo.GET, [Ruteo.Lit "api"; Ruteo.Lit "diagnostico"], HDiagnostico);
    (Ruteo.GET, [Ruteo.Lit "api"; Ruteo.Lit "citas"], HObtenerCitas);
    (Ruteo.POST, [Ruteo.Lit "api"; Ruteo.Lit "citas"], HCrearCita);
    (Ruteo.DELETE, [Ruteo.Lit "api"; Ruteo.Lit "citas"; Ruteo.Par "id"], HEliminarCita);
    (Ruteo.PATCH,
      [Ruteo.Lit "api"; Ruteo.Lit "citas"; Ruteo.Par "id"; Ruteo.Lit "reset-flags"],
      HResetFlags);
    (Ruteo.PATCH,
      [Ruteo.Lit "api"; Ruteo.Lit "citas"; Ruteo.Par "id"; Ruteo.Lit "marcar-recordatorio"],
      HMarcarRecordatorio);
    (Ruteo.PATCH,
      [Ruteo.Lit "api"; Ruteo.Lit "citas"; Ruteo.Lit "reset-flags"; Ruteo.Lit "all"],
      HResetFlagsAll);
    (Ruteo.DELETE, [Ruteo.Lit "api"; Ruteo.Lit "citas"], HEliminarTodas);
    (Ruteo.GET, [], HRaiz) ].

(** One handler run on a table: the response and the table after. *)
Definition servir (h : M tabla respuesta) (t : tabla) : respuesta * tabla :=
  match h (Mundo t []) with
  | (Bien r, w) => (r, Efecto.tabla w)
  | (Lanza err, w) =>
      (Responder 500 false (Some "Internal Server Error") SinDatos (Some err), Efecto.tabla w)
  end.

End Gratuitas.

(* ===================================================================== *)
(** ** Vocabulary of the statements *)
(* ===================================================================== *)

Module Citas_voc.
Import Citas.

(** Every id in the table was drawn from the sequence. *)
Definition ids_de_la_secuencia (t : tabla) : Prop :=
  Forall (fun c => (Fila.id c < siguiente_id t)%Z) (filas t).

(** The appointment [n] is in the table and its status is cancelled. *)
Definition cancelada_en (n : Z) (t : tabla) : Prop :=
  (exists c, c ∈ filas t ∧ Fila.id c = n) ∧
  forall c, c ∈ filas t -> Fila.id c = n -> Fila.estado c = Some cancelada.

(** A request that the update handler serves, on a key that the engine
    reads as [n], with a status other than cancelled in its body. *)
Definition reabre (m : Sql.motor) (n : Z) (p : peticion) : Prop :=
  exists ps, Ruteo.resolver rutas (metodo p) (ruta p) = Some (HActualizarCita, ps) ∧
             Sql.entero_de_texto m (Ruteo.param ps "id") = Bien n ∧
             Sql.parametro (Cuerpo.estado (body p)) ≠ Some cancelada.

(** What a request can do to the table: nothing, one insertion, or the
    rewriting of the rows of one key by PUT or by DELETE. *)
Inductive efecto (m : Sql.motor) (di : Z -> option Z) (e : entorno) (p : peticion)
    (t : tabla) : tabla -> Prop :=
| ef_nada : efecto m di e p t t
| ef_insertar b fv hv :
    efecto m di e p t (Tabla (filas t ++ [fila_nueva di e b fv hv (siguiente_id t)])
                             (siguiente_id t + 1))
| ef_reemplazar ps n fv hv :
    Ruteo.resolver rutas (metodo p) (ruta p) = Some (HActualizarCita, ps) ->
    Sql.entero_de_texto m (Ruteo.param ps "id") = Bien n ->
    efecto m di e p t (Tabla (poner_en_clave n (reemplazar e (body p) fv hv) (filas t))
                             (siguiente_id t))
| ef_cancelar n :
    efecto m di e p t (Tabla (poner_en_clave n (cancelar e) (filas t)) (siguiente_id t)).

(** What the engine makes of the date and of the time of a body. *)
Definition fecha_leida (m : Sql.motor) (b : Cuerpo.t) : resultado (option Z) :=
  Sql.leer_columna (Sql.fecha_de_texto m) (Sql.parametro (Cuerpo.fecha b)).
Definition hora_leida (m : Sql.motor) (b : Cuerpo.t) : resultado (option Z) :=
  Sql.leer_columna (Sql.hora_de_texto m) (Sql.parametro (Cuerpo.hora b)).

(** The engine reads the date and the time of a body as [fv] and [hv]. *)
Definition lee_ranura (m : Sql.motor) (b : Cuerpo.t) (fv hv : Z) : Prop :=
  fecha_leida m b = Bien (Some fv) ∧ hora_leida m b = Bien (Some hv).

(** The engine rejects the date or the time of a body. *)
Definition rechaza_ranura (m : Sql.motor) (b : Cuerpo.t) : Prop :=
  (exists msg, fecha_leida m b = Lanza msg) ∨ (exists msg, hora_leida m b = Lanza msg).

(** A row of the slot [(fv, hv)] whose status is set and is not
    cancelled. *)
Definition ocupada (fv hv : Z) (t : tabla) : Prop :=
  exists c s, c ∈ filas t ∧ Fila.fecha c = Some fv ∧ Fila.hora c = Some hv ∧
              Fila.estado c = Some s ∧ s ≠ cancelada.



(** The seven fields the guard of POST looks at. *)
Definition falta_alguno (b : Cuerpo.t) : Prop :=
  JS.truthy (Cuerpo.nombre b) = false ∨ JS.truthy (Cuerpo.apellido b) = false ∨
  JS.truthy (Cuerpo.email b) = false ∨ JS.truthy (Cuerpo.telefono b) = false ∨
  JS.truthy (Cuerpo.fecha b) = false ∨ JS.truthy (Cuerpo.hora b) = false ∨
  JS.truthy (Cuerpo.motivo b) = false.

End Citas_voc.

Module Gratuitas_voc.
Import Gratuitas.

(** Two rows agree on every column that is not a reminder flag. *)
Definition mismos_datos (r r' : Fila.t) : Prop :=
  Fila.id r' = Fila.id r ∧ Fila.nombre r' = Fila.nombre r ∧
  Fila.email r' = Fila.email r ∧ Fila.telefono r' = Fila.telefono r ∧
  Fila.fecha_cita r' = Fila.fecha_cita r ∧
  Fila.fecha_actualizacion r' = Fila.fecha_actualizacion r.

(** The three reminder flags of a row, in the order 24h, 2h, post. *)
Definition flags (r : Fila.t) : bool * bool * bool :=
  (Fila.recordatorio_24h_enviado r, Fila.recordatorio_2h_enviado r,
   Fila.recordatorio_post_enviado r).

(** The offset of the zone is the same at the instant [t] and at the
    wall-clock time that lies [k] hours ahead of it. *)
Definition sin_cambio_de_hora (z : JS.zona) (t k : Z) : Prop :=
  JS.desfase_local z (JS.LocalTime z t + k * JS.msPerHour) = JS.desfase_utc z t.

(** A request changed nothing but reminder flags: the rows are as many,
    each in its place, with every other column as it was, and the id
    sequence is where it was. *)
Definition solo_flags (t t' : tabla) : Prop :=
  siguiente_id t' = siguiente_id t
  ∧ length (filas t') = length (filas t)
  ∧ forall i r, filas t !! i = Some r ->
      exists r', filas t' !! i = Some r' ∧ mismos_datos r r'.

End Gratuitas_voc.

(** ** Example data *)

Module Ejemplos.
Local Open Scope Z_scope.

(** *** An engine

    Integers: a decimal numeral with an optional sign, blanks allowed
    around it, in the range of a four-byte integer.  Dates: year, month and
    day separated by hyphens, read as 10000 y + 100 m + d.  Times: hours
    and minutes, and optionally seconds, separated by colons, read as
    seconds since midnight. *)

Definition digito (a : ascii) : option Z :=
  let n := Z.of_nat (nat_of_ascii a) in
  if (48 <=? n) && (n <=? 57) then Some (n - 48) else None.

Fixpoint solo_blancos (s : string) : bool :=
  match s with
  | EmptyString => true
  | String a s' => if bool_decide (a = " "%char) then solo_blancos s' else false
  end.

Fixpoint digitos (s : string) (acc : Z) : option Z :=
  match s with
  | EmptyString => Some acc
  | String a s' =>
      match digito a with
      | Some d => digitos s' (10 * acc + d)
      | None => if solo_blancos s then Some acc else None
      end
  end.

Definition natural (s : string) : option Z :=
  match s with
  | EmptyString => None
  | String a _ => match digito a with Some _ => digitos s 0 | None => None end
  end.

Fixpoint sin_blancos (s : string) : string :=
  match s with
  | EmptyString => EmptyString
  | String a s' => if bool_decide (a = " "%char) then sin_blancos s' else s
  end.

Definition numeral (s : string) : option Z :=
  match sin_blancos s with
  | String "-" s' => Z.opp <$> natural s'
  | String "+" s' => natural s'
  | s' => natural s'
  end.

Definition entero (s : string) : resultado Z :=
  match numeral s with
  | Some n =>
      if (-2147483648 <=? n) && (n <=? 2147483647) then Bien n
      else Lanza "value out of range for type integer"
  | None => Lanza "invalid input syntax for type integer"
  end.

(** The pieces of a text between the occurrences of a separator. *)
Fixpoint partir (sep : ascii) (s : string) : list string :=
  match s with
  | EmptyString => [EmptyString]
  | String a s' =>
      if bool_decide (a = sep) then EmptyString :: partir sep s'
      else match partir sep s' with
           | [] => [String a EmptyString]
           | x :: xs => String a x :: xs
           end
  end.

Definition fecha (s : string) : resultado Z :=
  match natural <$> partir "-" s with
  | [Some y; Some mo; Some d] =>
      if (1 <=? mo) && (mo <=? 12) && (1 <=? d) && (d <=? 31)
      then Bien (10000 * y + 100 * mo + d)
      else Lanza "date/time field value out of range"
  | _ => Lanza "invalid input syntax for type date"
  end.

Definition hora (s : string) : resultado Z :=
  let leida h mi sg :=
    if (h <=? 23) && (mi <=? 59) && (sg <=? 59)
    then Bien (3600 * h + 60 * mi + sg)
    else Lanza "date/time field value out of range" in
  match natural <$> partir ":" s with
  | [Some h; Some mi] => leida h mi 0
  | [Some h; Some mi; Some sg] => leida h mi sg
  | _ => Lanza "invalid input syntax for type time"
  end.

Definition motor : Sql.motor := Sql.Motor entero fecha hora.

(** A table declared with DEFAULT CURRENT_TIMESTAMP on [fecha_actualizacion]. *)
Definition por_defecto : Z -> option Z := Some.

(** *** The full variant *)

Definition manana : Citas.entorno := Citas.Entorno 1000 20250520.
Definition tarde : Citas.entorno := Citas.Entorno 2000 20250520.
Definition noche : Citas.entorno := Citas.Entorno 3000 20250520.

Definition ana : Citas.Cuerpo.t :=
  Citas.Cuerpo.Hacer (JS.Cadena "Ana") (JS.Cadena "Paz") (JS.Cadena "ana@example.org")
    (JS.Cadena "555-0100") (JS.Cadena "2025-06-01") (JS.Cadena "10:00:00")
    (JS.Cadena "consulta") JS.Undefined JS.Undefined.

(** Luis asks for Ana's slot, and spells it in another way. *)
Definition luis : Citas.Cuerpo.t :=
  Citas.Cuerpo.Hacer (JS.Cadena "Luis") (JS.Cadena "Rey") (JS.Cadena "luis@example.org")
    (JS.Cadena "555-0101") (JS.Cadena "2025-6-1") (JS.Cadena "10:00")
    (JS.Cadena "seguimiento") (JS.Cadena "primera vez") JS.Undefined.

(** Ana's request without the reason. *)
Definition ana_sin_motivo : Citas.Cuerpo.t :=
  Citas.Cuerpo.Hacer (JS.Cadena "Ana") (JS.Cadena "Paz") (JS.Cadena "ana@example.org")
    (JS.Cadena "555-0100") (JS.Cadena "2025-06-01") (JS.Cadena "10:00:00")
    JS.Undefined JS.Undefined JS.Undefined.

(** Ana's request with a date that is none. *)
Definition ana_sin_fecha : Citas.Cuerpo.t :=
  Citas.Cuerpo.Hacer (JS.Cadena "Ana") (JS.Cadena "Paz") (JS.Cadena "ana@example.org")
    (JS.Cadena "555-0100") (JS.Cadena "manana") (JS.Cadena "10:00:00")
    (JS.Cadena "consulta") JS.Undefined JS.Undefined.

(** Ana's record sent back by PUT with the status confirmed. *)
Definition ana_confirmada : Citas.Cuerpo.t :=
  Citas.Cuerpo.Hacer (JS.Cadena "Ana") (JS.Cadena "Paz") (JS.Cadena "ana@example.org")
    (JS.Cadena "555-0100") (JS.Cadena "2025-06-01") (JS.Cadena "10:00:00")
    (JS.Cadena "consulta") JS.Null (JS.Cadena "confirmada").

Definition vacia : Citas.tabla := Citas.Tabla [] 1.

(** The table after Ana's appointment was created. *)
Definition con_ana : Citas.tabla :=
  (Citas.servir motor por_defecto manana (Citas.POST_citas ana) vacia).2.

(** ... and then cancelled. *)
Definition con_ana_cancelada : Citas.tabla :=
  (Citas.servir motor por_defecto tarde (Citas.DELETE_cita "1") con_ana).2.


(** *** The simplified variant *)

(** A zone one hour east of UTC that keeps no summer time. *)
Definition una_hora_al_este : JS.zona := JS.zona_fija 3600000.

(** A zone one hour east of UTC in winter and two in summer, which changes
    on 2025-03-30 at 01:00 UTC: local time 02:00 becomes 03:00. *)
Definition cambio_de_hora : Z := 1743296400000.
Definition madrid : JS.zona :=
  JS.Zona (fun t => if t <? cambio_de_hora then 3600000 else 7200000)
          (fun tl => if tl <? cambio_de_hora + 7200000 then 3600000 else 7200000).

(** A server with and without a webhook that works. *)
Definition con_webhook : Gratuitas.entorno :=
  Gratuitas.Entorno 1750000000000 una_hora_al_este (Some "http://n8n.local/webhook/citas")
    (Gratuitas.Responde true 200 "OK").
Definition sin_red : Gratuitas.entorno :=
  Gratuitas.Entorno 1750000000000 una_hora_al_este (Some "http://n8n.local/webhook/citas")
    (Gratuitas.Rechaza "fetch failed").

(** A server in Madrid on 2025-03-29 at noon, the day before the clocks
    go forward. *)
Definition vispera : Gratuitas.entorno :=
  Gratuitas.Entorno 1743246000000 madrid None (Gratuitas.Responde true 200 "OK").

Definition eva (tipoFecha : string) : Gratuitas.Cuerpo.t :=
  Gratuitas.Cuerpo.Hacer (JS.Cadena "Eva") (JS.Cadena "eva@example.org")
    (JS.Cadena "555-0102") (JS.Cadena tipoFecha) JS.Undefined.

Definition marca (tipo : string) : Gratuitas.Cuerpo.t :=
  Gratuitas.Cuerpo.Hacer JS.Undefined JS.Undefined JS.Undefined JS.Undefined
    (JS.Cadena tipo).

(** Two appointments last written at time 1000, with mixed flags. *)
Definition dos_citas : Gratuitas.tabla :=
  Gratuitas.Tabla
    [ Gratuitas.Fila.Hacer 1 (Some "Eva") (Some "eva@example.org") (Some "555-0102")
        1750086400000 false false false (Some 1000);
      Gratuitas.Fila.Hacer 2 (Some "Leo") (Some "leo@example.org") (Some "555-0103")
        1750007200000 true false true (Some 1000) ]
    3.

End Ejemplos.

(** ** Vocabulary of the further properties *)

Module Citas_inv.
Import Citas.

(** The slot a row holds: its date and time, when both are set and its
    status is set and is not cancelled (the rows the conflict query of POST
    can find). *)
Definition ranura (r : Fila.t) : option (Z * Z) :=
  match Fila.fecha r, Fila.hora r, Fila.estado r with
  | Some f, Some h, Some s => if decide (s = cancelada) then None else Some (f, h)
  | _, _, _ => None
  end.

(** No two rows of the table hold the same slot. *)
Definition sin_doble_reserva (t : tabla) : Prop :=
  forall i j r1 r2 x,
    i ≠ j -> filas t !! i = Some r1 -> filas t !! j = Some r2 ->
    ranura r1 = Some x -> ranura r2 ≠ Some x.

(** The ids of the rows, in the order of the table. *)
Definition ids (t : tabla) : list Z := Fila.id <$> filas t.

(** The row PUT writes for the key [n], with the date and the time the
    engine read. *)
Definition fila_de_cuerpo (e : entorno) (b : Cuerpo.t) (fv hv : option Z) (n : Z)
  : Fila.t :=
  {| Fila.id := n;
     Fila.nombre := Sql.parametro (Cuerpo.nombre b);
     Fila.apellido := Sql.parametro (Cuerpo.apellido b);
     Fila.email := Sql.parametro (Cuerpo.email b);
     Fila.telefono := Sql.parametro (Cuerpo.telefono b);
     Fila.fecha := fv;
     Fila.hora := hv;
     Fila.motivo := Sql.parametro (Cuerpo.motivo b);
     Fila.notas := Sql.parametro (Cuerpo.notas b);
     Fila.estado := Sql.parametro (Cuerpo.estado b);
     Fila.fecha_actualizacion := Some (ahora e) |}.

(** The engine reads the date and the time of a body, NULL where the body
    has none. *)
Definition lee_columnas (m : Sql.motor) (b : Cuerpo.t) (fv hv : option Z) : Prop :=
  Citas_voc.fecha_leida m b = Bien fv ∧ Citas_voc.hora_leida m b = Bien hv.

End Citas_inv.

Module Gratuitas_inv.
Import Gratuitas.

(** A request of the reminder API, as the scheduler sends them. *)
Inductive operacion : Type :=
| Marcar (id : string) (b : Cuerpo.t)
| Resetear (id : string)
| ResetearTodas.

Definition manejador_de (m : Sql.motor) (o : operacion) : M tabla respuesta :=
  match o with
  | Marcar id b => marcar_recordatorio m id b
  | Resetear id => reset_flags m id
  | ResetearTodas => reset_flags_all
  end.

(** Requests served one after the other. *)
Fixpoint correr (m : Sql.motor) (os : list operacion) (t : tabla) : tabla :=
  match os with
  | [] => t
  | o :: os' => correr m os' (servir (manejador_de m o) t).2
  end.

(** Every id in the table was drawn from the sequence. *)
Definition ids_de_la_secuencia (t : tabla) : Prop :=
  Forall (fun c => (Fila.id c < siguiente_id t)%Z) (filas t).

(** The webhook is configured and its call fails: [fetch] rejects, or
    the response is not [ok]. *)
Definition entrega_fallida (e : entorno) : Prop :=
  JS.truthy_env (N8N_WEBHOOK_URL e) = true ∧
  match red e with
  | Rechaza _ => True
  | Responde ok _ _ => ok = false
  end.

(** The requests that set a flag. *)
Definition solo_marcar (o : operacion) : Prop :=
  match o with
  | Marcar _ _ => True
  | _ => False
  end.

(** Flag by flag, [a] has every reminder that [b] has. *)
Definition flags_incluidos (b a : Fila.t) : Prop :=
  (Fila.recordatorio_24h_enviado b = true -> Fila.recordatorio_24h_enviado a = true)
  ∧ (Fila.recordatorio_2h_enviado b = true -> Fila.recordatorio_2h_enviado a = true)
  ∧ (Fila.recordatorio_post_enviado b = true -> Fila.recordatorio_post_enviado a = true).

End Gratuitas_inv.

(* ===================================================================== *)
(** * Properties *)
(* ===================================================================== *)

(** ** The order of ORDER BY *)

Section Orden.

Lemma asc_refl a : Sql.asc a a.
Proof. destruct a as [x|]; simpl; [|done]. apply Is_true_true, Z.leb_le. lia. Qed.

Lemma asc_trans a b c : Sql.asc a b → Sql.asc b c → Sql.asc a c.
Proof.
  destruct a as [x|], b as [y|], c as [z|]; simpl; try done.
  rewrite !Is_true_true, !Z.leb_le. lia.
Qed.

Lemma asc_total a b : Sql.asc a b ∨ Sql.asc b a.
Proof.
  destruct a as [x|], b as [y|]; simpl; auto.
  rewrite !Is_true_true, !Z.leb_le. lia.
Qed.

Lemma asc_antisym a b : Sql.asc a b → Sql.asc b a → a = b.
Proof.
  destruct a as [x|], b as [y|]; simpl; try done.
  rewrite !Is_true_true, !Z.leb_le. intros ??. f_equal. lia.
Qed.

#[global] Instance por_hora_total : Total Citas.por_hora.
Proof. intros a b. apply asc_total. Qed.

#[global] Instance por_hora_trans : Transitive Citas.por_hora.
Proof. intros a b c. apply asc_trans. Qed.

#[global] Instance por_fecha_hora_total : Total Citas.por_fecha_hora.
Proof.
  intros a b. unfold Citas.por_fecha_hora.
  destruct (decide (Citas.Fila.fecha a = Citas.Fila.fecha b)) as [E|N].
  - rewrite decide_True by done. apply asc_total.
  - rewrite decide_False by congruence. apply asc_total.
Qed.

#[global] Instance por_fecha_hora_trans : Transitive Citas.por_fecha_hora.
Proof.
  intros a b c. unfold Citas.por_fecha_hora.
  destruct (decide (Citas.Fila.fecha a = Citas.Fila.fecha b)) as [E1|N1];
    destruct (decide (Citas.Fila.fecha b = Citas.Fila.fecha c)) as [E2|N2];
    destruct (decide (Citas.Fila.fecha a = Citas.Fila.fecha c)) as [E3|N3];
    intros H1 H2; try congruence; try (by eapply asc_trans).
  exfalso. apply N1. apply asc_antisym; [done|]. by rewrite E3.
Qed.

#[global] Instance por_fecha_desc_total : Total Gratuitas.por_fecha_desc.
Proof. intros a b. unfold Gratuitas.por_fecha_desc. lia. Qed.

#[global] Instance por_fecha_desc_trans : Transitive Gratuitas.por_fecha_desc.
Proof. intros a b c. unfold Gratuitas.por_fecha_desc. lia. Qed.

End Orden.

(** ** Full variant: what each request does to the table *)

Section Citas_ecuaciones.
Import Citas Citas_voc.
Variable m : Sql.motor.
Variable di : Z → option Z.

Lemma servir_POST e b t :
  servir m di e (POST_citas b) t =
    if faltan_campos b then
      (Responder 400 (Error "Faltan campos requeridos"), t)
    else
      match fecha_leida m b, hora_leida m b with
      | Bien fv, Bien hv =>
          if bool_decide (0 < length (filter (λ r, ocupa fv hv r) (filas t)))%nat then
            (Responder 409 (Error "Ya existe una cita en ese horario"), t)
          else
            let c := fila_nueva di e b fv hv (siguiente_id t) in
            (Responder 201 (UnaFila c), Tabla (filas t ++ [c]) (siguiente_id t + 1))
      | _, _ => (Responder 500 (Error "Error al crear la cita"), t)
      end.
Proof.
  destruct t as [l n]. unfold servir, servidor, POST_citas. simpl.
  unfold crear_cita, consulta_existente, insertar, a_columna, elevar,
    intentar, ligar, ret, fecha_leida, hora_leida. simpl.
  destruct (faltan_campos b); [done|]. simpl.
  destruct (Sql.leer_columna (Sql.fecha_de_texto m) _) as [fv|]; simpl; [|done].
  destruct (Sql.leer_columna (Sql.hora_de_texto m) _) as [hv|]; simpl; [|done].
  destruct (bool_decide _); done.
Qed.

Lemma servir_PUT e id b t :
  servir m di e (PUT_cita id b) t =
    match fecha_leida m b, hora_leida m b, Sql.entero_de_texto m id with
    | Bien fv, Bien hv, Bien n =>
        (match con_clave n (filas t) with
         | [] => Responder 404 (Error "Cita no encontrada")
         | r :: _ => Responder 200 (UnaFila (reemplazar e b fv hv r))
         end,
         Tabla (poner_en_clave n (reemplazar e b fv hv) (filas t)) (siguiente_id t))
    | _, _, _ => (Responder 500 (Error "Error al actualizar la cita"), t)
    end.
Proof.
  destruct t as [l k]. unfold servir, servidor, PUT_cita. simpl.
  unfold actualizar_cita, consulta_actualizar, actualizar_en_clave, con_id, a_columna,
    elevar, intentar, ligar, ret, lanzar, fecha_leida, hora_leida. simpl.
  destruct (Sql.leer_columna (Sql.fecha_de_texto m) _) as [fv|]; simpl; [|done].
  destruct (Sql.leer_columna (Sql.hora_de_texto m) _) as [hv|]; simpl; [|done].
  destruct (Sql.entero_de_texto m id); simpl; [|done].
  by destruct (con_clave _ l).
Qed.

Lemma servir_DELETE e id t :
  servir m di e (DELETE_cita id) t =
    match Sql.entero_de_texto m id with
    | Lanza _ => (Responder 500 (Error "Error al cancelar la cita"), t)
    | Bien n =>
        (match con_clave n (filas t) with
         | [] => Responder 404 (Error "Cita no encontrada")
         | r :: _ => Responder 200 (Mensaje "Cita cancelada exitosamente" (cancelar e r))
         end,
         Tabla (poner_en_clave n (cancelar e) (filas t)) (siguiente_id t))
    end.
Proof.
  destruct t as [l k]. unfold servir, servidor, DELETE_cita. simpl.
  unfold cancelar_cita, consulta_cancelar, actualizar_en_clave, con_id,
    intentar, ligar, ret, lanzar.
  simpl. destruct (Sql.entero_de_texto m id); simpl; [|done].
  by destruct (con_clave _ l).
Qed.

Lemma servir_GET_fecha e f t :
  servir m di e (GET_fecha f) t =
    match Sql.fecha_de_texto m f with
    | Bien v =>
        (Responder 200
           (Filas (merge_sort por_hora
                     (filter (λ r, Sql.donde (Sql.eq (Fila.fecha r) (Some v))) (filas t)))),
         t)
    | Lanza _ => (Responder 500 (Error "Error al obtener las citas"), t)
    end.
Proof.
  destruct t as [l k]. unfold servir, servidor, GET_fecha. simpl.
  unfold citas_por_fecha, consulta_por_fecha, a_columna, elevar, intentar, ligar, ret.
  simpl. by destruct (Sql.fecha_de_texto m f).
Qed.

Lemma servir_GET_cita e id t :
  servir m di e (GET_cita id) t =
    match Sql.entero_de_texto m id with
    | Lanza _ => (Responder 500 (Error "Error al obtener la cita"), t)
    | Bien n =>
        (match con_clave n (filas t) with
         | [] => Responder 404 (Error "Cita no encontrada")
         | r :: _ => Responder 200 (UnaFila r)
         end, t)
    end.
Proof.
  destruct t as [l k]. unfold servir, servidor, GET_cita. simpl.
  unfold obtener_cita, consulta_por_id, con_id, intentar, ligar, ret, lanzar.
  simpl. destruct (Sql.entero_de_texto m id); simpl; [|done].
  by destruct (con_clave _ l).
Qed.

End Citas_ecuaciones.

(** ** Full variant: the table along a run *)

Section Citas_pasos.
Import Citas Citas_voc.
Variable m : Sql.motor.
Variable di : Z → option Z.

Lemma resolver_actualizar mt r ps :
  Ruteo.resolver rutas mt r = Some (HActualizarCita, ps) →
  mt = Ruteo.PUT ∧ ∃ id, r = ["api"; "citas"; id] ∧ ps = [("id", id)].
Proof.
  unfold rutas. destruct mt; simpl; intros H;
    repeat (case_match; try discriminate); try done.
  repeat match goal with
         | E : bool_decide _ = true |- _ => apply bool_decide_eq_true_1 in E
         | E : Some _ = Some _ |- _ => injection E as E
         | E : (_, _) = (_, _) |- _ => injection E as E
         end.
  subst. eauto.
Qed.

Lemma elem_of_poner_en_clave n f (l : list Fila.t) c :
  c ∈ poner_en_clave n f l ↔
  ∃ r, r ∈ l ∧ c = (if decide (Fila.id r = n) then f r else r).
Proof.
  unfold poner_en_clave. rewrite list_elem_of_fmap.
  split; intros (r & H1 & H2); exists r; done.
Qed.

Lemma servir_efecto e p t : efecto m di e p t (servir m di e p t).2.
Proof.
  destruct p as [mt r b], t as [l k]. unfold servir, servidor.
  cbn [metodo ruta body].
  destruct (Ruteo.resolver rutas mt r) as [[h ps]|] eqn:R; [|apply ef_nada].
  destruct h; simpl; try apply ef_nada.
  - unfold obtener_cita, consulta_por_id, con_id, intentar, ligar, ret, lanzar.
    destruct (Sql.entero_de_texto _ _); simpl; [|apply ef_nada].
    destruct (con_clave _ _); apply ef_nada.
  - unfold crear_cita, consulta_existente, insertar, a_columna, elevar,
      intentar, ligar, ret. simpl.
    destruct (faltan_campos b); [apply ef_nada|]. simpl.
    destruct (Sql.leer_columna (Sql.fecha_de_texto m) _) as [fv|]; simpl; [|apply ef_nada].
    destruct (Sql.leer_columna (Sql.hora_de_texto m) _) as [hv|]; simpl; [|apply ef_nada].
    destruct (bool_decide _); [apply ef_nada|]. apply ef_insertar.
  - unfold actualizar_cita, consulta_actualizar, actualizar_en_clave, con_id, a_columna,
      elevar, intentar, ligar, ret, lanzar. simpl.
    destruct (Sql.leer_columna (Sql.fecha_de_texto m) _) as [fv|]; simpl; [|apply ef_nada].
    destruct (Sql.leer_columna (Sql.hora_de_texto m) _) as [hv|]; simpl; [|apply ef_nada].
    destruct (Sql.entero_de_texto m _) as [n|] eqn:E; simpl; [|apply ef_nada].
    destruct (con_clave _ _); simpl;
      exact (ef_reemplazar m di e (Peticion mt r b) (Tabla l k) ps n fv hv R E).
  - unfold cancelar_cita, consulta_cancelar, actualizar_en_clave, con_id,
      intentar, ligar, ret, lanzar.
    destruct (Sql.entero_de_texto _ _) as [n|]; simpl; [|apply ef_nada].
    destruct (con_clave _ _); simpl;
      exact (ef_cancelar m di e (Peticion mt r b) (Tabla l k) n).
  - unfold citas_por_fecha, consulta_por_fecha, a_columna, elevar, intentar, ligar, ret.
    simpl. destruct (Sql.fecha_de_texto m _); apply ef_nada.
Qed.

Lemma ids_de_la_secuencia_servir e p t :
  ids_de_la_secuencia t → ids_de_la_secuencia (servir m di e p t).2.
Proof.
  intros Ht. destruct (servir_efecto e p t) as [|b fv hv|ps n fv hv _ _|n];
    unfold ids_de_la_secuencia in *; simpl; [done|..].
  - apply Forall_app. split.
    + eapply Forall_impl; [exact Ht|]. simpl. intros; lia.
    + apply Forall_singleton. simpl. lia.
  - apply Forall_forall. intros c [r [Hr ->]]%elem_of_poner_en_clave.
    rewrite Forall_forall in Ht. specialize (Ht r Hr).
    by destruct (decide _).
  - apply Forall_forall. intros c [r [Hr ->]]%elem_of_poner_en_clave.
    rewrite Forall_forall in Ht. specialize (Ht r Hr).
    by destruct (decide _).
Qed.

Lemma cancelada_en_servir e p t n :
  ids_de_la_secuencia t → ¬ reabre m n p → cancelada_en n t →
  cancelada_en n (servir m di e p t).2.
Proof.
  intros Hids Hno [[c0 [Hc0 Hn0]] Hall].
  destruct (servir_efecto e p t) as [|b fv hv|ps k fv hv Hr Hk|k]; simpl.
  - by split; eauto.
  - split.
    + exists c0. split; [|done]. apply elem_of_app. by left.
    + intros c [Hc|Hc%list_elem_of_singleton]%elem_of_app Hid; [by apply Hall|].
      subst c. simpl in Hid. unfold ids_de_la_secuencia in Hids.
      rewrite Forall_forall in Hids. specialize (Hids c0 Hc0). lia.
  - assert (k = n → Sql.parametro (Cuerpo.estado (body p)) = Some cancelada) as Hest.
    { intros ->. destruct (decide (Sql.parametro (Cuerpo.estado (body p)) = Some cancelada))
        as [|Hne]; [done|]. exfalso. apply Hno. by exists ps. }
    split.
    + exists (if decide (Fila.id c0 = k) then reemplazar e (body p) fv hv c0 else c0).
      split; [apply elem_of_poner_en_clave; eauto|]. by destruct (decide _).
    + intros c [r [Hr' ->]]%elem_of_poner_en_clave Hid.
      destruct (decide (Fila.id r = k)) as [Hrk|Hrk]; [|by apply Hall].
      simpl in *. apply Hest. congruence.
  - split.
    + exists (if decide (Fila.id c0 = k) then cancelar e c0 else c0).
      split; [apply elem_of_poner_en_clave; eauto|]. by destruct (decide _).
    + intros c [r [Hr' ->]]%elem_of_poner_en_clave Hid.
      destruct (decide (Fila.id r = k)); [done|by apply Hall].
Qed.

Lemma ids_de_la_secuencia_correr ps t :
  ids_de_la_secuencia t → ids_de_la_secuencia (correr m di ps t).
Proof.
  revert t. induction ps as [|[e p] ps IH]; intros t Ht; [done|].
  simpl. by apply IH, ids_de_la_secuencia_servir.
Qed.

(** GET /api/citas: every row, by date and then time. *)
Lemma servir_GET_citas e t :
  ∃ rows,
    servir m di e GET_citas t = (Responder 200 (Filas rows), t)
    ∧ rows ≡ₚ filas t
    ∧ StronglySorted por_fecha_hora rows.
Proof.
  eexists. split; [by destruct t|].
  split; [apply merge_sort_Permutation|apply (StronglySorted_merge_sort _)].
Qed.

End Citas_pasos.

(** ** Full variant: the guard and the conflict check of POST *)

Section Citas_crear.
Import Citas Citas_voc.
Variable m : Sql.motor.
Variable di : Z → option Z.

Lemma truthy_parametro v : JS.truthy v = true → ∃ s, Sql.parametro v = Some s.
Proof. destruct v; simpl; intros; try discriminate; eauto. Qed.

Lemma faltan_campos_true b : faltan_campos b = true ↔ falta_alguno b.
Proof.
  unfold faltan_campos, falta_alguno, JS.no.
  rewrite !orb_true_iff, !negb_true_iff. tauto.
Qed.

Lemma faltan_campos_false b : faltan_campos b = false ↔ ¬ falta_alguno b.
Proof.
  rewrite <- faltan_campos_true. destruct (faltan_campos b); split; congruence.
Qed.

(** A column read from a text is not NULL. *)
Lemma leer_columna_texto f s : Sql.leer_columna f (Some s) ≠ Bien None.
Proof. unfold Sql.leer_columna. by destruct (f s). Qed.

(** On a request that passes the guard, the engine reads a date and a
    time or rejects one of them. *)
Lemma ranura_leida_o_rechazada b :
  faltan_campos b = false →
  (∃ fv hv, lee_ranura m b fv hv) ∨ rechaza_ranura m b.
Proof.
  intros Hb%faltan_campos_false. unfold lee_ranura, rechaza_ranura, fecha_leida, hora_leida.
  destruct (truthy_parametro (Cuerpo.fecha b)) as [sf ->].
  { destruct (JS.truthy (Cuerpo.fecha b)) eqn:E; [done|].
    exfalso. apply Hb. unfold falta_alguno. tauto. }
  destruct (truthy_parametro (Cuerpo.hora b)) as [sh ->].
  { destruct (JS.truthy (Cuerpo.hora b)) eqn:E; [done|].
    exfalso. apply Hb. unfold falta_alguno. tauto. }
  simpl. destruct (Sql.fecha_de_texto m sf) as [fv|msg]; [|right; left; eauto].
  destruct (Sql.hora_de_texto m sh) as [hv|msg]; [|right; right; eauto].
  left. by exists fv, hv.
Qed.

Lemma ocupa_true f h r :
  ocupa (Some f) (Some h) r = true ↔
  Fila.fecha r = Some f ∧ Fila.hora r = Some h ∧
  ∃ s, Fila.estado r = Some s ∧ s ≠ cancelada.
Proof.
  unfold ocupa, Sql.ne, Sql.eq.
  destruct (Fila.fecha r) as [f'|], (Fila.hora r) as [h'|], (Fila.estado r) as [s|];
    simpl; repeat case_bool_decide; simpl; split;
    try discriminate; try (intros (? & ? & ? & ? & ?); congruence);
    try (intros _; repeat split; try congruence; eexists; split; [done|congruence]).
Qed.

Lemma hay_existente f h t :
  bool_decide (0 < length (filter (λ r, ocupa (Some f) (Some h) r) (filas t)))%nat = true
  ↔ ocupada f h t.
Proof.
  unfold ocupada. rewrite bool_decide_eq_true. split.
  - intros Hlen.
    destruct (filter _ (filas t)) as [|c l] eqn:E; [simpl in Hlen; lia|].
    assert (c ∈ filter (λ r, ocupa (Some f) (Some h) r) (filas t)) as Hc
        by (rewrite E; apply list_elem_of_here).
    apply list_elem_of_filter in Hc as [Hoc Hin].
    apply Is_true_true, ocupa_true in Hoc as (? & ? & s & ? & ?).
    by exists c, s.
  - intros (c & s & Hin & Hf & Hh & Hs & Hne).
    assert (c ∈ filter (λ r, ocupa (Some f) (Some h) r) (filas t)) as Hc.
    { apply list_elem_of_filter. split; [|done].
      apply Is_true_true, ocupa_true. eauto. }
    destruct (filter _ (filas t)); [by apply not_elem_of_nil in Hc|simpl; lia].
Qed.

(** The outcomes of POST on a complete request whose date and time the
    engine reads. *)
Lemma servir_POST_completa e b t fv hv :
  faltan_campos b = false →
  lee_ranura m b fv hv →
  (ocupada fv hv t ∧
   servir m di e (POST_citas b) t =
     (Responder 409 (Error "Ya existe una cita en ese horario"), t))
  ∨ (¬ ocupada fv hv t ∧
     servir m di e (POST_citas b) t =
       (Responder 201 (UnaFila (fila_nueva di e b (Some fv) (Some hv) (siguiente_id t))),
        Tabla (filas t ++ [fila_nueva di e b (Some fv) (Some hv) (siguiente_id t)])
              (siguiente_id t + 1))).
Proof.
  intros Hb [Hf Hh]. rewrite servir_POST, Hb, Hf, Hh.
  destruct (bool_decide _) eqn:E.
  - left. split; [|done]. by apply hay_existente.
  - right. split; [|done]. intros Hoc%hay_existente. congruence.
Qed.

(** ... and when the engine rejects one of them. *)
Lemma servir_POST_rechazada e b t :
  faltan_campos b = false →
  rechaza_ranura m b →
  servir m di e (POST_citas b) t = (Responder 500 (Error "Error al crear la cita"), t).
Proof.
  intros Hb Hr. rewrite servir_POST, Hb.
  destruct Hr as [[msg ->]|[msg ->]]; [done|].
  by destruct (fecha_leida m b).
Qed.


End Citas_crear.

(** ** C1: double booking is refused, a cancelled slot is free again *)




(** ** C3: the status along a run of the API *)

(** C3, as the code has it.  DELETE /api/citas/:id leaves the appointment
    cancelled, and a cancelled appointment stays in the table and stays
    cancelled along every run of requests in which no PUT on that
    appointment supplies a status other than cancelled: creations,
    cancellations, reads and PUTs on other appointments never change it.
    (PUT itself writes the status of its body, whatever it is; a PUT is on
    the appointment when the engine reads its key as the appointment's
    id.) *)
Theorem C3_cancelada_terminal_salvo_PUT
    (m : Sql.motor) (di : Z → option Z) (n : Z) (t : Citas.tabla) :
  Citas_voc.ids_de_la_secuencia t →
  (∃ c, c ∈ Citas.filas t ∧ Citas.Fila.id c = n) →
  (∀ e id, Sql.entero_de_texto m id = Bien n →
      Citas_voc.cancelada_en n (Citas.servir m di e (Citas.DELETE_cita id) t).2)
  ∧ (Citas_voc.cancelada_en n t →
     ∀ ps, Forall (λ ep, ¬ Citas_voc.reabre m n ep.2) ps →
           Citas_voc.cancelada_en n (Citas.correr m di ps t)).
Proof.
  intros Hids [c0 [Hc0 Hn0]]. split.
  - intros e id Hid. rewrite servir_DELETE, Hid. cbn [snd].
    split; cbn [Citas.filas].
    + exists (Citas.cancelar e c0). split; [|done].
      apply elem_of_poner_en_clave. exists c0. by rewrite decide_True.
    + intros c (r & Hr & ->)%elem_of_poner_en_clave Hc.
      destruct (decide (Citas.Fila.id r = n)); [done|]. congruence.
  - intros Hcan ps. clear c0 Hc0 Hn0. revert t Hids Hcan.
    induction ps as [|[e p] ps IH]; intros t Hids Hcan Hps; [done|].
    apply Forall_cons in Hps as [Hp Hps]. simpl.
    apply IH; [by apply ids_de_la_secuencia_servir| |done].
    by apply cancelada_en_servir.
Qed.

Lemma C3_cancelada_terminal_salvo_PUT_witness :
  Citas_voc.cancelada_en 1
    (Citas.correr Ejemplos.motor Ejemplos.por_defecto
       [(Ejemplos.tarde, Citas.POST_citas Ejemplos.luis);
        (Ejemplos.noche, Citas.DELETE_cita "2");
        (Ejemplos.noche, Citas.PUT_cita "2" Ejemplos.ana_confirmada);
        (Ejemplos.noche, Citas.GET_citas)]
       (Citas.servir Ejemplos.motor Ejemplos.por_defecto Ejemplos.tarde
          (Citas.DELETE_cita " 1") Ejemplos.con_ana).2).
Proof.
  assert (Citas_voc.ids_de_la_secuencia Ejemplos.con_ana) as Hids.
  { repeat constructor. }
  assert (∃ c, c ∈ Citas.filas Ejemplos.con_ana ∧ Citas.Fila.id c = 1) as Hin.
  { eexists. split; [apply list_elem_of_here|reflexivity]. }
  destruct (C3_cancelada_terminal_salvo_PUT Ejemplos.motor Ejemplos.por_defecto 1
              Ejemplos.con_ana Hids Hin) as [Hcancel _].
  specialize (Hcancel Ejemplos.tarde " 1" eq_refl).
  assert (Citas_voc.ids_de_la_secuencia
            (Citas.servir Ejemplos.motor Ejemplos.por_defecto Ejemplos.tarde
               (Citas.DELETE_cita " 1") Ejemplos.con_ana).2) as Hids'.
  { repeat constructor. }
  destruct (C3_cancelada_terminal_salvo_PUT Ejemplos.motor Ejemplos.por_defecto 1 _
              Hids' (proj1 Hcancel)) as [_ Hrun].
  apply (Hrun Hcancel).
  repeat constructor; intros (ps & Hr & Hn & _); vm_compute in Hr;
    try discriminate Hr.
  injection Hr as <-. vm_compute in Hn. discriminate Hn.
Defined.

(** C3 as stated fails: Ana's appointment is cancelled, and a PUT that
    sends her record back with the status confirmed is answered 200 and
    leaves the appointment confirmed. *)
Lemma C3_counterexample :
  Citas_voc.cancelada_en 1 Ejemplos.con_ana_cancelada
  ∧ Citas.status
      (Citas.servir Ejemplos.motor Ejemplos.por_defecto Ejemplos.noche
         (Citas.PUT_cita "1" Ejemplos.ana_confirmada) Ejemplos.con_ana_cancelada).1 = 200
  ∧ (λ c, (Citas.Fila.id c, Citas.Fila.estado c)) <$>
      Citas.filas
        (Citas.servir Ejemplos.motor Ejemplos.por_defecto Ejemplos.noche
           (Citas.PUT_cita "1" Ejemplos.ana_confirmada) Ejemplos.con_ana_cancelada).2
    = [(1, Some "confirmada")]
  ∧ ¬ Citas_voc.cancelada_en 1
        (Citas.servir Ejemplos.motor Ejemplos.por_defecto Ejemplos.noche
           (Citas.PUT_cita "1" Ejemplos.ana_confirmada) Ejemplos.con_ana_cancelada).2.
Proof.
  split; [|split; [reflexivity|split; [reflexivity|]]].
  - split.
    + eexists. split; [apply list_elem_of_here|reflexivity].
    + intros c Hc _. vm_compute in Hc.
      apply list_elem_of_singleton in Hc. by subst c.
  - intros [_ Hall].
    specialize (Hall _ (list_elem_of_here _ _) eq_refl). discriminate Hall.
Qed.

(** ** C7: the fields POST requires *)

(** C7, as the code has it.  POST /api/citas answers 400 exactly when one
    of nombre, apellido, email, telefono, fecha, hora, motivo is missing
    (or otherwise falsy): the reason is required, only the notes are
    optional.  A request with the seven fields, whose date and time the
    engine reads and whose slot is free, is answered 201 also when the notes
    are absent, and the row is stored with NULL notes; a request with the
    seven fields whose date or time the engine rejects is answered 500 and
    nothing is inserted. *)
Theorem C7_motivo_requerido_notas_opcionales
    (m : Sql.motor) (di : Z → option Z) (e : Citas.entorno) (b : Citas.Cuerpo.t)
    (t : Citas.tabla) :
  (Citas.status (Citas.servir m di e (Citas.POST_citas b) t).1 = 400
     ↔ Citas_voc.falta_alguno b)
  ∧ (¬ Citas_voc.falta_alguno b →
     ∀ fv hv, Citas_voc.lee_ranura m b fv hv →
     ¬ Citas_voc.ocupada fv hv t →
     JS.truthy (Citas.Cuerpo.notas b) = false →
     ∃ c, Citas.servir m di e (Citas.POST_citas b) t
            = (Citas.Responder 201 (Citas.UnaFila c),
               Citas.Tabla (Citas.filas t ++ [c]) (Citas.siguiente_id t + 1))
          ∧ Citas.Fila.notas c = None
          ∧ Citas.Fila.motivo c = Sql.parametro (Citas.Cuerpo.motivo b)
          ∧ Citas.Fila.fecha c = Some fv ∧ Citas.Fila.hora c = Some hv
          ∧ Citas.Fila.estado c = Some Citas.confirmada)
  ∧ (¬ Citas_voc.falta_alguno b →
     Citas_voc.rechaza_ranura m b →
     Citas.servir m di e (Citas.POST_citas b) t
       = (Citas.Responder 500 (Citas.Error "Error al crear la cita"), t)).
Proof.
  split; [|split].
  - rewrite <- faltan_campos_true.
    destruct (Citas.faltan_campos b) eqn:Hb.
    + by rewrite servir_POST, Hb.
    + destruct (ranura_leida_o_rechazada m b Hb) as [(fv & hv & Hl)|Hr].
      * destruct (servir_POST_completa m di e b t fv hv Hb Hl) as [[_ ->]|[_ ->]];
          simpl; split; discriminate.
      * rewrite (servir_POST_rechazada m di e b t Hb Hr). simpl. split; discriminate.
  - intros Hb%faltan_campos_false fv hv Hl Hlibre Hnotas.
    destruct (servir_POST_completa m di e b t fv hv Hb Hl) as [[Hoc _]|[_ ->]]; [done|].
    eexists. split; [reflexivity|]. simpl. unfold JS.o. by rewrite Hnotas.
  - intros Hb%faltan_campos_false Hr. by apply servir_POST_rechazada.
Qed.

Lemma C7_motivo_requerido_notas_opcionales_witness :
  ∃ c, Citas.servir Ejemplos.motor Ejemplos.por_defecto Ejemplos.manana
         (Citas.POST_citas Ejemplos.ana) Ejemplos.vacia
       = (Citas.Responder 201 (Citas.UnaFila c), Citas.Tabla [c] 2)
       ∧ Citas.Fila.notas c = None
       ∧ Citas.Fila.motivo c = Some "consulta"
       ∧ Citas.Fila.fecha c = Some 20250601 ∧ Citas.Fila.hora c = Some 36000
       ∧ Citas.Fila.estado c = Some Citas.confirmada.
Proof.
  apply (proj1 (proj2 (C7_motivo_requerido_notas_opcionales Ejemplos.motor
                  Ejemplos.por_defecto Ejemplos.manana Ejemplos.ana Ejemplos.vacia))).
  - apply faltan_campos_false. reflexivity.
  - split; reflexivity.
  - intros (c & s & Hc & _). by apply not_elem_of_nil in Hc.
  - reflexivity.
Defined.

(** C7 as stated fails: the request names Ana with her email, phone, date
    and time, the table is empty, and without the reason it is answered
    400 and nothing is inserted. *)
Lemma C7_counterexample :
  JS.truthy (Citas.Cuerpo.nombre Ejemplos.ana_sin_motivo) = true
  ∧ JS.truthy (Citas.Cuerpo.apellido Ejemplos.ana_sin_motivo) = true
  ∧ JS.truthy (Citas.Cuerpo.email Ejemplos.ana_sin_motivo) = true
  ∧ JS.truthy (Citas.Cuerpo.telefono Ejemplos.ana_sin_motivo) = true
  ∧ JS.truthy (Citas.Cuerpo.fecha Ejemplos.ana_sin_motivo) = true
  ∧ JS.truthy (Citas.Cuerpo.hora Ejemplos.ana_sin_motivo) = true
  ∧ Citas.servir Ejemplos.motor Ejemplos.por_defecto Ejemplos.manana
      (Citas.POST_citas Ejemplos.ana_sin_motivo) Ejemplos.vacia
    = (Citas.Responder 400 (Citas.Error "Faltan campos requeridos"), Ejemplos.vacia).
Proof. repeat split. Qed.

(** ** C10: the listing of a date *)

Lemma donde_fecha_igual (v : Z) (c : Citas.Fila.t) :
  Sql.donde (Sql.eq (Citas.Fila.fecha c) (Some v)) ↔ Citas.Fila.fecha c = Some v.
Proof.
  unfold Sql.eq. destruct (Citas.Fila.fecha c) as [x|]; simpl; [|done].
  case_bool_decide; simpl; split; congruence || done.
Qed.

(** C10.  For every text that the engine reads as a date, GET
    /api/citas/fecha/:fecha answers 200 with the rows of exactly that date,
    whatever their status, cancelled ones included, in the order of their
    time (NULL times last); the table is left as it was. *)
Theorem C10_por_fecha_sin_filtro_de_estado
    (m : Sql.motor) (di : Z → option Z) (e : Citas.entorno) (f : string) (v : Z)
    (t : Citas.tabla) :
  Sql.fecha_de_texto m f = Bien v →
  ∃ rows,
    Citas.servir m di e (Citas.GET_fecha f) t
      = (Citas.Responder 200 (Citas.Filas rows), t)
    ∧ rows ≡ₚ filter (λ c, Citas.Fila.fecha c = Some v) (Citas.filas t)
    ∧ StronglySorted Citas.por_hora rows
    ∧ (∀ c, c ∈ Citas.filas t → Citas.Fila.fecha c = Some v →
            Citas.Fila.estado c = Some Citas.cancelada → c ∈ rows)
    ∧ (∀ c, c ∈ rows ↔ c ∈ Citas.filas t ∧ Citas.Fila.fecha c = Some v).
Proof.
  intros Hv. eexists. split; [by rewrite servir_GET_fecha, Hv|].
  assert (merge_sort Citas.por_hora
            (filter (λ r, Sql.donde (Sql.eq (Citas.Fila.fecha r) (Some v))) (Citas.filas t))
          ≡ₚ filter (λ c, Citas.Fila.fecha c = Some v) (Citas.filas t)) as Hperm.
  { rewrite merge_sort_Permutation.
    rewrite (list_filter_iff _ (λ c, Citas.Fila.fecha c = Some v)); [done|].
    intros c. apply donde_fecha_igual. }
  assert (∀ c, c ∈ merge_sort Citas.por_hora
                     (filter (λ r, Sql.donde (Sql.eq (Citas.Fila.fecha r) (Some v)))
                        (Citas.filas t))
               ↔ c ∈ Citas.filas t ∧ Citas.Fila.fecha c = Some v) as Hin.
  { intros c. rewrite Hperm, list_elem_of_filter. tauto. }
  split; [done|]. split; [apply (StronglySorted_merge_sort _)|].
  split; [|done]. intros c Hc Hf _. by apply Hin.
Qed.

Lemma C10_por_fecha_sin_filtro_de_estado_witness :
  ∃ rows,
    Citas.servir Ejemplos.motor Ejemplos.por_defecto Ejemplos.noche
      (Citas.GET_fecha "2025-6-1") Ejemplos.con_ana_cancelada
      = (Citas.Responder 200 (Citas.Filas rows), Ejemplos.con_ana_cancelada)
    ∧ ∀ c, c ∈ rows ↔
           c ∈ Citas.filas Ejemplos.con_ana_cancelada
           ∧ Citas.Fila.fecha c = Some 20250601.
Proof.
  destruct (C10_por_fecha_sin_filtro_de_estado Ejemplos.motor Ejemplos.por_defecto
              Ejemplos.noche "2025-6-1" 20250601 Ejemplos.con_ana_cancelada eq_refl)
    as (rows & E & _ & _ & _ & Hin).
  exists rows. split; [exact E|exact Hin].
Defined.

(** ** C2: the listing of pending appointments *)

Lemma pendiente_true (e : Citas.entorno) (c : Citas.Fila.t) :
  Citas.pendiente e c ↔
  Citas.Fila.estado c = Some Citas.confirmada
  ∧ ∃ f, Citas.Fila.fecha c = Some f ∧ (Citas.hoy e ≤ f)%Z.
Proof.
  unfold Citas.pendiente, Sql.ge, Sql.eq.
  destruct (Citas.Fila.fecha c) as [f|], (Citas.Fila.estado c) as [s|]; simpl.
  - case_bool_decide; destruct (Z.leb_spec (Citas.hoy e) f); simpl; split;
      try done; try (intros [? (? & ? & ?)]; simplify_eq; lia).
    intros _. split; [congruence|]. by exists f.
  - destruct (Citas.hoy e <=? f)%Z; simpl; split; try done; by intros [? _].
  - case_bool_decide; simpl; split; try done; by intros [_ (? & ? & _)].
  - split; [done|]. by intros [? _].
Qed.

(** The handler registered for GET /api/citas/pendientes, run on its own,
    does what its comment says: the confirmed rows dated today or later,
    by date and then time. *)
Lemma citas_pendientes_correcta (e : Citas.entorno) (t : Citas.tabla) :
  ∃ rows,
    Citas.citas_pendientes e (Mundo t []) = (Bien (Citas.Responder 200 (Citas.Filas rows)), Mundo t [])
    ∧ rows ≡ₚ filter (λ c, Citas.pendiente e c) (Citas.filas t)
    ∧ StronglySorted Citas.por_fecha_hora rows
    ∧ ∀ c, c ∈ rows ↔
           c ∈ Citas.filas t
           ∧ Citas.Fila.estado c = Some Citas.confirmada
           ∧ ∃ f, Citas.Fila.fecha c = Some f ∧ (Citas.hoy e ≤ f)%Z.
Proof.
  eexists. split; [reflexivity|].
  split; [apply merge_sort_Permutation|].
  split; [apply (StronglySorted_merge_sort _)|].
  intros c. rewrite merge_sort_Permutation, list_elem_of_filter, pendiente_true. tauto.
Qed.

(** C2, on the code.  The route /api/citas/:id is registered before
    /api/citas/pendientes, so GET /api/citas/pendientes is served by the
    handler of a single appointment with id = "pendientes": whatever the
    engine, the answer is the answer to GET /api/citas/:id on that key and
    never the list; when the engine rejects the key, as an integer key
    does, the query throws and the answer is 500.  With Ana's confirmed
    appointment of 2025-06-01 in the table and today 2025-05-20, the answer
    is 500, where the handler of the pending list would answer 200 with her
    row. *)
Theorem C2_pendientes_tapada_por_id
    (m : Sql.motor) (di : Z → option Z) (e : Citas.entorno) (t : Citas.tabla) :
  Ruteo.resolver Citas.rutas Ruteo.GET ["api"; "citas"; "pendientes"]
    = Some (Citas.HObtenerCita, [("id", "pendientes")])
  ∧ Citas.servir m di e Citas.GET_pendientes t
    = Citas.servir m di e (Citas.GET_cita "pendientes") t
  ∧ (∀ rows, Citas.contenido (Citas.servir m di e Citas.GET_pendientes t).1
             ≠ Citas.Filas rows)
  ∧ (∀ msg, Sql.entero_de_texto m "pendientes" = Lanza msg →
       Citas.servir m di e Citas.GET_pendientes t
       = (Citas.Responder 500 (Citas.Error "Error al obtener la cita"), t))
  ∧ Citas.servir Ejemplos.motor Ejemplos.por_defecto Ejemplos.manana Citas.GET_pendientes
      Ejemplos.con_ana
    = (Citas.Responder 500 (Citas.Error "Error al obtener la cita"), Ejemplos.con_ana)
  ∧ Citas.citas_pendientes Ejemplos.manana (Mundo Ejemplos.con_ana [])
    = (Bien (Citas.Responder 200 (Citas.Filas (Citas.filas Ejemplos.con_ana))),
       Mundo Ejemplos.con_ana []).
Proof.
  split; [reflexivity|]. split; [reflexivity|].
  change (Citas.servir m di e Citas.GET_pendientes t)
    with (Citas.servir m di e (Citas.GET_cita "pendientes") t).
  rewrite servir_GET_cita.
  split; [|split; [|split; reflexivity]].
  - intros rows. destruct (Sql.entero_de_texto m "pendientes"); [|done].
    simpl. by destruct (Citas.con_clave _ _).
  - by intros msg ->.
Qed.

(** ** Simplified variant: what each request does to the table *)

Section Gratuitas_ecuaciones.
Import Gratuitas.

(** Moving the hour field of local time by [k] moves local time by [k]
    hours. *)
Lemma hora_local_mas lt k :
  (JS.Day lt * JS.msPerDay + ((JS.HourFromTime lt + k) * JS.msPerHour + lt mod JS.msPerHour)
   = lt + k * JS.msPerHour)%Z.
Proof.
  unfold JS.HourFromTime, JS.Day, JS.msPerDay, JS.msPerHour, JS.HoursPerDay.
  assert (lt / 86400000 = lt / 3600000 / 24)%Z as Hdia
      by (rewrite Zdiv.Zdiv_Zdiv by lia; reflexivity).
  pose proof (Z.div_mod lt 3600000 ltac:(lia)) as Hhora.
  pose proof (Z.div_mod (lt / 3600000) 24 ltac:(lia)) as Hcampo.
  rewrite Hdia.
  generalize dependent (lt mod 3600000)%Z.
  generalize dependent ((lt / 3600000) mod 24)%Z.
  generalize dependent (lt / 3600000 / 24)%Z.
  generalize dependent (lt / 3600000)%Z.
  intros. lia.
Qed.

(** [d.setHours(d.getHours() + k)] is the instant at which the wall clock
    shows [k] hours more than it shows at [d]. *)
Lemma setHours_getHours z t k :
  JS.setHours z t (JS.getHours z t + k) = JS.UTC z (JS.LocalTime z t + k * JS.msPerHour).
Proof. unfold JS.setHours, JS.getHours. cbv zeta. by rewrite hora_local_mas. Qed.

(** When the offset of the zone is the same at both ends, these are [k]
    hours of time. *)
Lemma setHours_sin_cambio z t k :
  Gratuitas_voc.sin_cambio_de_hora z t k →
  JS.setHours z t (JS.getHours z t + k) = (t + k * JS.msPerHour)%Z.
Proof.
  unfold Gratuitas_voc.sin_cambio_de_hora. intros H.
  rewrite setHours_getHours. unfold JS.UTC. rewrite H. unfold JS.LocalTime. lia.
Qed.

(** The webhook helper never throws and never touches the table: it only
    writes to the console. *)
Lemma enviarWebhookN8n_solo_consola e evento d (w : mundo tabla) :
  ∃ lineas,
    enviarWebhookN8n e evento d w
      = (Bien tt, Mundo (Efecto.tabla w) (consola w ++ lineas)).
Proof.
  unfold enviarWebhookN8n.
  destruct (JS.truthy_env (N8N_WEBHOOK_URL e)); simpl.
  - unfold intentar, ligar, console_log, console_error, registrar, fetch, ret, lanzar.
    simpl.
    destruct (red e) as [msg|[] st txt]; simpl;
      rewrite <- app_assoc; eexists; reflexivity.
  - unfold console_log, registrar. eexists; reflexivity.
Qed.

Lemma servir_crear di e b t :
  servir (crear_cita di e b) t =
    if JS.no (Cuerpo.nombre b) || JS.no (Cuerpo.email b)
       || JS.no (Cuerpo.telefono b) || JS.no (Cuerpo.tipoFecha b) then
      (Responder 400 false (Some "Faltan campos requeridos") SinDatos None, t)
    else
      match calcular_fecha e (Cuerpo.tipoFecha b) with
      | None => (Responder 400 false (Some "Tipo de fecha inválido") SinDatos None, t)
      | Some fechaCita =>
          let c := fila_nueva di e b fechaCita (siguiente_id t) in
          (Responder 201 true (Some "Cita creada exitosamente") (Dato c) None,
           Tabla (filas t ++ [c]) (siguiente_id t + 1))
      end.
Proof.
  destruct t as [l k]. unfold servir, crear_cita.
  destruct (_ || _); [done|].
  destruct (calcular_fecha e _) as [fc|]; [|done].
  unfold intentar, ligar, insertar, leer, escribir, ret. simpl.
  destruct (enviarWebhookN8n_solo_consola e "cita_creada"
              (fila_nueva di e b fc k)
              (Mundo (Tabla (l ++ [fila_nueva di e b fc k]) (k + 1)) []))
    as [lineas ->].
  done.
Qed.

Lemma servir_eliminar m e id t :
  servir (eliminar_cita m e id) t =
    match Sql.entero_de_texto m id with
    | Lanza msg =>
        (Responder 500 false (Some "Error al eliminar la cita") SinDatos (Some msg), t)
    | Bien n =>
        (match con_clave n (filas t) with
         | [] => Responder 404 false (Some "Cita no encontrada") SinDatos None
         | c :: _ => Responder 200 true (Some "Cita eliminada exitosamente") (Dato c) None
         end,
         Tabla (filter (λ r, Fila.id r ≠ n) (filas t)) (siguiente_id t))
    end.
Proof.
  destruct t as [l k]. unfold servir, eliminar_cita, borrar_por_id, con_id.
  unfold intentar, ligar, leer, escribir, ret, lanzar, console_error, registrar. simpl.
  destruct (Sql.entero_de_texto m id) as [n|]; simpl; [|done].
  destruct (con_clave n l) as [|c l']; [done|].
  destruct (enviarWebhookN8n_solo_consola e "cita_eliminada" c
              (Mundo (Tabla (filter (λ r, Fila.id r ≠ n) l) k) []))
    as [lineas ->].
  done.
Qed.

Lemma servir_actualizar_flags m id f t (ok : Fila.t → respuesta)
    (ko : string → respuesta) mensaje :
  servir
    (intentar
       (sea rows := actualizar_por_id m id f en
        match rows with
        | [] => ret (Responder 404 false (Some "Cita no encontrada") SinDatos None)
        | row :: _ => ret (ok row)
        end)
       (fun err =>
          console_error [Texto mensaje; Excepcion err] >> ret (ko err))) t
  = match Sql.entero_de_texto m id with
    | Lanza msg => (ko msg, t)
    | Bien n =>
        (match con_clave n (filas t) with
         | [] => Responder 404 false (Some "Cita no encontrada") SinDatos None
         | r :: _ => ok (f r)
         end,
         Tabla (poner_en_clave n f (filas t)) (siguiente_id t))
    end.
Proof.
  destruct t as [l k]. unfold servir, actualizar_por_id, con_id.
  unfold intentar, ligar, leer, escribir, ret, lanzar, console_error, registrar. simpl.
  destruct (Sql.entero_de_texto m id) as [n|]; simpl; [|done].
  by destruct (con_clave n l).
Qed.

(** No route of the simplified server hides another: each request of the
    appointment API reaches the handler written for it. *)
Lemma rutas_alcanzables (id : string) :
  Ruteo.resolver rutas Ruteo.POST ["api"; "citas"] = Some (HCrearCita, [])
  ∧ Ruteo.resolver rutas Ruteo.DELETE ["api"; "citas"; id]
    = Some (HEliminarCita, [("id", id)])
  ∧ Ruteo.resolver rutas Ruteo.PATCH ["api"; "citas"; id; "reset-flags"]
    = Some (HResetFlags, [("id", id)])
  ∧ Ruteo.resolver rutas Ruteo.PATCH ["api"; "citas"; id; "marcar-recordatorio"]
    = Some (HMarcarRecordatorio, [("id", id)])
  ∧ Ruteo.resolver rutas Ruteo.PATCH ["api"; "citas"; "reset-flags"; "all"]
    = Some (HResetFlagsAll, [])
  ∧ Ruteo.resolver rutas Ruteo.DELETE ["api"; "citas"] = Some (HEliminarTodas, []).
Proof. repeat split. Qed.

(** GET /api/citas: every row, latest appointment first. *)
Lemma servir_obtener_citas t :
  ∃ rows,
    servir obtener_citas t = (Responder 200 true None (Datos rows) None, t)
    ∧ rows ≡ₚ filas t
    ∧ StronglySorted por_fecha_desc rows.
Proof.
  eexists. split; [by destruct t|].
  split; [apply merge_sort_Permutation|apply (StronglySorted_merge_sort _)].
Qed.

(** A delivery that fails shows on the console and nowhere else. *)
Lemma crear_cita_con_la_red_caida :
  ∃ c t',
    crear_cita Ejemplos.por_defecto Ejemplos.sin_red (Ejemplos.eva "24h")
      (Mundo Ejemplos.dos_citas [])
    = (Bien (Responder 201 true (Some "Cita creada exitosamente") (Dato c) None),
       Mundo t' [Linea Log [Texto "📤 Enviando webhook a n8n: cita_creada"];
                 Linea Err [Texto "❌ Error al enviar webhook a n8n:";
                            Texto "fetch failed"]])
    ∧ crear_cita Ejemplos.por_defecto Ejemplos.con_webhook (Ejemplos.eva "24h")
        (Mundo Ejemplos.dos_citas [])
      = (Bien (Responder 201 true (Some "Cita creada exitosamente") (Dato c) None),
         Mundo t' [Linea Log [Texto "📤 Enviando webhook a n8n: cita_creada"];
                   Linea Log [Texto "✅ Webhook enviado exitosamente a n8n"]]).
Proof. do 2 eexists. split; reflexivity. Qed.

End Gratuitas_ecuaciones.

Section Gratuitas_flags.
Import Gratuitas Gratuitas_voc.

Lemma servir_marcar_recordatorio m id b t :
  tipo_reconocido (Cuerpo.tipo b) = true →
  servir (marcar_recordatorio m id b) t =
    match Sql.entero_de_texto m id with
    | Lanza msg =>
        (Responder 500 false (Some "Error al marcar el recordatorio") SinDatos (Some msg), t)
    | Bien n =>
        (match con_clave n (filas t) with
         | [] => Responder 404 false (Some "Cita no encontrada") SinDatos None
         | r :: _ =>
             Responder 200 true
               (Some ("Recordatorio " ++ texto_de (Cuerpo.tipo b) ++ " marcado como enviado"))
               (Dato (marcar (columna_de (Cuerpo.tipo b)) r)) None
         end,
         Tabla (poner_en_clave n (marcar (columna_de (Cuerpo.tipo b))) (filas t))
               (siguiente_id t))
    end.
Proof.
  intros Htipo. unfold marcar_recordatorio.
  assert (JS.no (Cuerpo.tipo b) = false) as ->.
  { unfold JS.no, tipo_reconocido, JS.es_cadena in *.
    destruct (Cuerpo.tipo b) as [| | | |s]; try discriminate. simpl.
    repeat case_bool_decide; subst; try done. }
  rewrite Htipo. simpl.
  apply (servir_actualizar_flags m id _ t
           (λ row, Responder 200 true _ (Dato row) None)
           (λ err, Responder 500 false _ SinDatos (Some err))).
Qed.

Lemma servir_reset_flags m id t :
  servir (reset_flags m id) t =
    match Sql.entero_de_texto m id with
    | Lanza msg =>
        (Responder 500 false (Some "Error al resetear los flags") SinDatos (Some msg), t)
    | Bien n =>
        (match con_clave n (filas t) with
         | [] => Responder 404 false (Some "Cita no encontrada") SinDatos None
         | r :: _ =>
             Responder 200 true (Some "Flags reseteados exitosamente")
               (Dato (sin_flags r)) None
         end,
         Tabla (poner_en_clave n sin_flags (filas t)) (siguiente_id t))
    end.
Proof.
  apply (servir_actualizar_flags m id _ t
           (λ row, Responder 200 true _ (Dato row) None)
           (λ err, Responder 500 false _ SinDatos (Some err))).
Qed.

Lemma servir_reset_flags_all t :
  servir reset_flags_all t =
    (Responder 200 true
       (Some ("Flags reseteados para " ++ pretty (length (filas t)) ++ " citas"))
       (Datos (sin_flags <$> filas t)) None,
     Tabla (sin_flags <$> filas t) (siguiente_id t)).
Proof.
  destruct t as [l k]. unfold servir, reset_flags_all.
  unfold intentar, ligar, leer, escribir, ret. simpl. by rewrite length_fmap.
Qed.

Lemma lookup_poner_en_clave n f (l : list Fila.t) i :
  poner_en_clave n f l !! i
  = (λ r, if decide (Fila.id r = n) then f r else r) <$> l !! i.
Proof. apply list_lookup_fmap. Qed.

Lemma con_clave_no_vacia n (l : list Fila.t) :
  (∃ r, r ∈ l ∧ Fila.id r = n) → ∃ r l', con_clave n l = r :: l' ∧ r ∈ l ∧ Fila.id r = n.
Proof.
  intros (r & Hr & Hn).
  assert (r ∈ con_clave n l) as Hin by (by apply list_elem_of_filter).
  destruct (con_clave n l) as [|r' l'] eqn:E; [by apply not_elem_of_nil in Hin|].
  assert (r' ∈ con_clave n l) as Hin' by (rewrite E; apply list_elem_of_here).
  apply list_elem_of_filter in Hin' as [? ?]. eauto.
Qed.

Lemma mismos_datos_refl r : mismos_datos r r.
Proof. by repeat split. Qed.

Lemma solo_flags_refl t : solo_flags t t.
Proof.
  split; [done|]. split; [done|]. intros i r Hi. exists r. split; [done|].
  apply mismos_datos_refl.
Qed.

(** Rewriting the rows of a key with a function that keeps the other
    columns changes nothing but flags. *)
Lemma solo_flags_poner_en_clave n f l k :
  (∀ r, mismos_datos r (f r)) →
  solo_flags (Tabla l k) (Tabla (poner_en_clave n f l) k).
Proof.
  intros Hf. split; [done|]. split; [apply length_fmap|].
  cbn [filas]. intros i r Hi. rewrite lookup_poner_en_clave, Hi. simpl.
  eexists. split; [reflexivity|].
  destruct (decide _); [apply Hf|apply mismos_datos_refl].
Qed.

Lemma solo_flags_fmap f l k :
  (∀ r, mismos_datos r (f r)) →
  solo_flags (Tabla l k) (Tabla (f <$> l) k).
Proof.
  intros Hf. split; [done|]. split; [apply length_fmap|].
  cbn [filas]. intros i r Hi. rewrite list_lookup_fmap, Hi. simpl.
  eexists. split; [reflexivity|apply Hf].
Qed.

Lemma mismos_datos_marcar c r : mismos_datos r (marcar c r).
Proof. by repeat split. Qed.

Lemma mismos_datos_sin_flags r : mismos_datos r (sin_flags r).
Proof. by repeat split. Qed.

(** The three flag requests change nothing but flags, whatever they
    answer. *)
Lemma solo_flags_marcar_recordatorio m id b t :
  solo_flags t (servir (marcar_recordatorio m id b) t).2.
Proof.
  destruct (tipo_reconocido (Cuerpo.tipo b)) eqn:Hrec.
  - rewrite (servir_marcar_recordatorio m id b t Hrec).
    destruct (Sql.entero_de_texto m id); [|apply solo_flags_refl].
    destruct t as [l k]. apply solo_flags_poner_en_clave, mismos_datos_marcar.
  - unfold marcar_recordatorio. rewrite Hrec, orb_true_r.
    destruct t. apply solo_flags_refl.
Qed.

Lemma solo_flags_reset_flags m id t :
  solo_flags t (servir (reset_flags m id) t).2.
Proof.
  rewrite servir_reset_flags.
  destruct (Sql.entero_de_texto m id); [|apply solo_flags_refl].
  destruct t as [l k]. apply solo_flags_poner_en_clave, mismos_datos_sin_flags.
Qed.

Lemma solo_flags_reset_flags_all t :
  solo_flags t (servir reset_flags_all t).2.
Proof.
  rewrite servir_reset_flags_all. destruct t as [l k].
  apply solo_flags_fmap, mismos_datos_sin_flags.
Qed.

End Gratuitas_flags.

(** ** C4: setting one reminder flag *)

(** C4.  PATCH /api/citas/:id/marcar-recordatorio on an existing id with
    tipo 24h, 2h or post answers 200; every row of that id has the flag of
    that name true afterwards and its two other flags and all its other
    columns as before; every other row, the number of rows and the id
    sequence are unchanged; the row returned is one of the rewritten rows. *)
Theorem C4_marcar_solo_el_flag_pedido
    (m : Sql.motor) (id : string) (n : Z) (b : Gratuitas.Cuerpo.t) (t : Gratuitas.tabla) :
  Sql.entero_de_texto m id = Bien n →
  (∃ r, r ∈ Gratuitas.filas t ∧ Gratuitas.Fila.id r = n) →
  (Gratuitas.Cuerpo.tipo b = JS.Cadena "24h"
   ∨ Gratuitas.Cuerpo.tipo b = JS.Cadena "2h"
   ∨ Gratuitas.Cuerpo.tipo b = JS.Cadena "post") →
  let res := Gratuitas.servir (Gratuitas.marcar_recordatorio m id b) t in
  Gratuitas.status res.1 = 200
  ∧ Gratuitas.siguiente_id res.2 = Gratuitas.siguiente_id t
  ∧ length (Gratuitas.filas res.2) = length (Gratuitas.filas t)
  ∧ (∃ r', Gratuitas.data res.1 = Gratuitas.Dato r'
           ∧ r' ∈ Gratuitas.filas res.2 ∧ Gratuitas.Fila.id r' = n)
  ∧ ∀ i r, Gratuitas.filas t !! i = Some r →
      ∃ r', Gratuitas.filas res.2 !! i = Some r'
        ∧ (Gratuitas.Fila.id r ≠ n → r' = r)
        ∧ (Gratuitas.Fila.id r = n →
           Gratuitas_voc.mismos_datos r r'
           ∧ (Gratuitas.Cuerpo.tipo b = JS.Cadena "24h" →
              Gratuitas_voc.flags r'
              = (true, Gratuitas.Fila.recordatorio_2h_enviado r,
                 Gratuitas.Fila.recordatorio_post_enviado r))
           ∧ (Gratuitas.Cuerpo.tipo b = JS.Cadena "2h" →
              Gratuitas_voc.flags r'
              = (Gratuitas.Fila.recordatorio_24h_enviado r, true,
                 Gratuitas.Fila.recordatorio_post_enviado r))
           ∧ (Gratuitas.Cuerpo.tipo b = JS.Cadena "post" →
              Gratuitas_voc.flags r'
              = (Gratuitas.Fila.recordatorio_24h_enviado r,
                 Gratuitas.Fila.recordatorio_2h_enviado r, true))).
Proof.
  intros Hid Hex Htipo res.
  assert (Gratuitas.tipo_reconocido (Gratuitas.Cuerpo.tipo b) = true) as Hrec.
  { destruct Htipo as [->|[->| ->]]; reflexivity. }
  subst res. rewrite (servir_marcar_recordatorio m id b t Hrec), Hid.
  destruct (con_clave_no_vacia n _ Hex) as (r0 & l' & -> & Hr0 & Hn0).
  cbn [fst snd Gratuitas.status Gratuitas.data Gratuitas.filas Gratuitas.siguiente_id].
  split; [done|]. split; [done|].
  split; [apply length_fmap|]. split.
  - eexists. split; [reflexivity|]. split; [|done].
    apply list_elem_of_fmap. exists r0. by rewrite decide_True.
  - intros i r Hi. rewrite lookup_poner_en_clave, Hi. simpl.
    eexists. split; [reflexivity|].
    destruct (decide (Gratuitas.Fila.id r = n)) as [Hr|Hr]; split; try done.
    intros _. split; [by repeat split|].
    repeat split; intros E; rewrite E; reflexivity.
Qed.

Lemma C4_marcar_solo_el_flag_pedido_witness :
  Gratuitas_voc.flags <$>
    Gratuitas.filas
      (Gratuitas.servir
         (Gratuitas.marcar_recordatorio Ejemplos.motor "1" (Ejemplos.marca "2h"))
         Ejemplos.dos_citas).2
  = [(false, true, false); (true, false, true)]
  ∧ Gratuitas.status
      (Gratuitas.servir
         (Gratuitas.marcar_recordatorio Ejemplos.motor "1" (Ejemplos.marca "2h"))
         Ejemplos.dos_citas).1 = 200.
Proof.
  assert (∃ r, r ∈ Gratuitas.filas Ejemplos.dos_citas ∧ Gratuitas.Fila.id r = 1) as Hex.
  { eexists. split; [apply list_elem_of_here|reflexivity]. }
  destruct (C4_marcar_solo_el_flag_pedido Ejemplos.motor "1" 1 (Ejemplos.marca "2h")
              Ejemplos.dos_citas eq_refl Hex (or_intror (or_introl eq_refl))) as (Hst & _).
  split; [reflexivity|exact Hst].
Defined.

(** ** C5: the bulk reset *)

(** C5.  PATCH /api/citas/reset-flags/all on a table of N rows answers 200
    with N rows, which are the rows of the table afterwards; each has its
    three flags false and its other columns as before. *)
Theorem C5_reset_de_todos_los_flags (t : Gratuitas.tabla) :
  let res := Gratuitas.servir Gratuitas.reset_flags_all t in
  Gratuitas.status res.1 = 200
  ∧ Gratuitas.data res.1 = Gratuitas.Datos (Gratuitas.filas res.2)
  ∧ length (Gratuitas.filas res.2) = length (Gratuitas.filas t)
  ∧ Forall (λ c, Gratuitas_voc.flags c = (false, false, false)) (Gratuitas.filas res.2)
  ∧ ∀ i r, Gratuitas.filas t !! i = Some r →
      ∃ r', Gratuitas.filas res.2 !! i = Some r' ∧ Gratuitas_voc.mismos_datos r r'.
Proof.
  intros res. subst res. rewrite servir_reset_flags_all.
  cbn [fst snd Gratuitas.status Gratuitas.data Gratuitas.filas].
  split; [done|]. split; [done|]. split; [apply length_fmap|]. split.
  - apply Forall_fmap, Forall_forall. by intros c _.
  - intros i r Hi. rewrite list_lookup_fmap, Hi. simpl.
    eexists. split; [reflexivity|]. by repeat split.
Qed.

(** ** C6: the webhook and the answer to the caller *)

(** C6.  Whatever N8N_WEBHOOK_URL holds and however the outbound call ends
    (not configured, rejected, answered with or without [ok]), creation and
    deletion give the caller the same response and leave the same table as
    with any other outcome, a successful delivery included. *)
Theorem C6_webhook_no_cambia_la_respuesta
    (m : Sql.motor) (di : Z → option Z) (ahora : Z) (zona : JS.zona)
    (url url' : option string) (red red' : Gratuitas.llamada)
    (b : Gratuitas.Cuerpo.t) (id : string) (t : Gratuitas.tabla) :
  Gratuitas.servir (Gratuitas.crear_cita di (Gratuitas.Entorno ahora zona url red) b) t
  = Gratuitas.servir (Gratuitas.crear_cita di (Gratuitas.Entorno ahora zona url' red') b) t
  ∧ Gratuitas.servir (Gratuitas.eliminar_cita m (Gratuitas.Entorno ahora zona url red) id) t
    = Gratuitas.servir
        (Gratuitas.eliminar_cita m (Gratuitas.Entorno ahora zona url' red') id) t.
Proof.
  split.
  - by rewrite !servir_crear.
  - by rewrite !servir_eliminar.
Qed.

(** ** C8: the appointment time of the simplified POST *)

Lemma calcular_fecha_otro (e : Gratuitas.entorno) (v : JS.valor) :
  v ≠ JS.Cadena "24h" → v ≠ JS.Cadena "2h" → v ≠ JS.Cadena "1h_pasado" →
  Gratuitas.calcular_fecha e v = None.
Proof.
  intros H1 H2 H3. unfold Gratuitas.calcular_fecha, JS.es_cadena.
  destruct v as [| | | |s]; try done.
  repeat case_bool_decide; subst; done.
Qed.

(** What the switch computes: the instant at which the wall clock of the
    server shows 24 or 2 hours more, or 1 hour less, than it shows now. *)
Lemma calcular_fecha_codigos (e : Gratuitas.entorno) :
  let reloj k :=
    JS.UTC (Gratuitas.zona e)
      (JS.LocalTime (Gratuitas.zona e) (Gratuitas.ahora e) + k * JS.msPerHour) in
  Gratuitas.calcular_fecha e (JS.Cadena "24h") = Some (reloj 24)
  ∧ Gratuitas.calcular_fecha e (JS.Cadena "2h") = Some (reloj 2)
  ∧ Gratuitas.calcular_fecha e (JS.Cadena "1h_pasado") = Some (reloj (-1)).
Proof.
  unfold Gratuitas.calcular_fecha, JS.es_cadena.
  rewrite !(bool_decide_eq_true_2 (_ = _) eq_refl).
  rewrite !bool_decide_eq_false_2 by discriminate.
  replace (JS.getHours (Gratuitas.zona e) (Gratuitas.ahora e) - 1)%Z
    with (JS.getHours (Gratuitas.zona e) (Gratuitas.ahora e) + -1)%Z by lia.
  by rewrite !setHours_getHours.
Qed.

(** C8, on the code.  With nombre, email and telefono present, POST
    /api/citas of the simplified server answers 201 and stores, with the
    three flags false, the instant at which the wall clock of the server
    shows 24 hours more (code 24h), 2 hours more (2h) or 1 hour less
    (1h_pasado) than it shows now.  That instant is now + 24 hours, now + 2
    hours or now - 1 hour when the offset of the zone is the same at both
    ends, and not otherwise: in Madrid at noon of 2025-03-29, the day before
    the clocks go forward, the code 24h stores now + 23 hours.  For every
    other value of tipoFecha the answer is 400 and the table is
    unchanged. *)
Theorem C8_fecha_segun_tipoFecha
    (di : Z → option Z) (e : Gratuitas.entorno) (b : Gratuitas.Cuerpo.t)
    (t : Gratuitas.tabla) :
  JS.truthy (Gratuitas.Cuerpo.nombre b) = true →
  JS.truthy (Gratuitas.Cuerpo.email b) = true →
  JS.truthy (Gratuitas.Cuerpo.telefono b) = true →
  let reloj (horas : Z) :=
    JS.UTC (Gratuitas.zona e)
      (JS.LocalTime (Gratuitas.zona e) (Gratuitas.ahora e) + horas * JS.msPerHour) in
  let creada (horas : Z) :=
    let c := Gratuitas.fila_nueva di e b (reloj horas) (Gratuitas.siguiente_id t) in
    Gratuitas.servir (Gratuitas.crear_cita di e b) t
    = (Gratuitas.Responder 201 true (Some "Cita creada exitosamente")
         (Gratuitas.Dato c) None,
       Gratuitas.Tabla (Gratuitas.filas t ++ [c]) (Gratuitas.siguiente_id t + 1))
    ∧ Gratuitas.Fila.fecha_cita c = reloj horas
    ∧ Gratuitas_voc.flags c = (false, false, false) in
  (Gratuitas.Cuerpo.tipoFecha b = JS.Cadena "24h" → creada 24)
  ∧ (Gratuitas.Cuerpo.tipoFecha b = JS.Cadena "2h" → creada 2)
  ∧ (Gratuitas.Cuerpo.tipoFecha b = JS.Cadena "1h_pasado" → creada (-1))
  ∧ (∀ horas, Gratuitas_voc.sin_cambio_de_hora (Gratuitas.zona e) (Gratuitas.ahora e) horas
              ↔ reloj horas = (Gratuitas.ahora e + horas * 3600000)%Z)
  ∧ (Gratuitas.Cuerpo.tipoFecha b ≠ JS.Cadena "24h" →
     Gratuitas.Cuerpo.tipoFecha b ≠ JS.Cadena "2h" →
     Gratuitas.Cuerpo.tipoFecha b ≠ JS.Cadena "1h_pasado" →
     Gratuitas.status (Gratuitas.servir (Gratuitas.crear_cita di e b) t).1 = 400
     ∧ (Gratuitas.servir (Gratuitas.crear_cita di e b) t).2 = t)
  ∧ Gratuitas.Fila.fecha_cita <$>
      Gratuitas.filas
        (Gratuitas.servir
           (Gratuitas.crear_cita Ejemplos.por_defecto Ejemplos.vispera (Ejemplos.eva "24h"))
           (Gratuitas.Tabla [] 1)).2
    = [(Gratuitas.ahora Ejemplos.vispera + 23 * 3600000)%Z].
Proof.
  intros Hn He Ht reloj creada. subst creada reloj. cbv beta zeta.
  rewrite servir_crear. unfold JS.no. rewrite Hn, He, Ht. simpl.
  split; [|split; [|split; [|split; [|split]]]].
  - intros E. rewrite E. cbn [JS.truthy bool_decide negb].
    by rewrite (proj1 (calcular_fecha_codigos e)).
  - intros E. rewrite E. cbn [JS.truthy negb].
    by rewrite (proj1 (proj2 (calcular_fecha_codigos e))).
  - intros E. rewrite E. cbn [JS.truthy negb].
    by rewrite (proj2 (proj2 (calcular_fecha_codigos e))).
  - intros horas. unfold Gratuitas_voc.sin_cambio_de_hora, JS.UTC, JS.LocalTime, JS.msPerHour.
    lia.
  - intros H1 H2 H3. rewrite (calcular_fecha_otro e _ H1 H2 H3).
    by destruct (negb _).
  - reflexivity.
Qed.

Lemma C8_fecha_segun_tipoFecha_witness :
  Gratuitas.Fila.fecha_cita <$>
    Gratuitas.filas
      (Gratuitas.servir
         (Gratuitas.crear_cita Ejemplos.por_defecto Ejemplos.sin_red (Ejemplos.eva "2h"))
         Ejemplos.dos_citas).2
  = [1750086400000; 1750007200000; 1750007200000]%Z.
Proof.
  destruct (C8_fecha_segun_tipoFecha Ejemplos.por_defecto Ejemplos.sin_red
              (Ejemplos.eva "2h") Ejemplos.dos_citas eq_refl eq_refl eq_refl)
    as (_ & H2h & _).
  destruct (H2h eq_refl) as (E & _).
  rewrite E. reflexivity.
Defined.

(** ** C9: the update timestamp *)

Lemma fecha_actualizacion_solo_flags (t t' : Gratuitas.tabla) :
  Gratuitas_voc.solo_flags t t' →
  Gratuitas.Fila.fecha_actualizacion <$> Gratuitas.filas t'
  = Gratuitas.Fila.fecha_actualizacion <$> Gratuitas.filas t.
Proof.
  intros (_ & Hlen & Hpos). apply list_eq. intros i.
  rewrite !list_lookup_fmap.
  destruct (Gratuitas.filas t !! i) as [r|] eqn:E.
  - destruct (Hpos i r E) as (r' & -> & Hd). simpl. f_equal. apply Hd.
  - apply lookup_ge_None in E. rewrite <- Hlen in E. apply lookup_ge_None in E.
    by rewrite E.
Qed.

(** C9, as the code has it.  In the full variant a PUT answered 200 and a
    DELETE on an appointment set its [fecha_actualizacion] to the current
    timestamp; a PUT answered 500 changes nothing.  In the simplified
    variant, where the reminder flags live, setting a flag, resetting the
    flags of one appointment and resetting the flags of all change nothing
    but the three reminder flags: the rows stay as many and in their
    places, every other column of every row is as it was, and
    [fecha_actualizacion] among them. *)
Theorem C9_actualizacion_solo_en_PUT_y_DELETE
    (m : Sql.motor) (di : Z → option Z) (e : Citas.entorno) (id : string) (n : Z)
    (b : Citas.Cuerpo.t) (t : Citas.tabla) :
  Sql.entero_de_texto m id = Bien n →
  (Citas.status (Citas.servir m di e (Citas.PUT_cita id b) t).1 = 200 →
   ∀ c, c ∈ Citas.filas (Citas.servir m di e (Citas.PUT_cita id b) t).2 →
        Citas.Fila.id c = n →
        Citas.Fila.fecha_actualizacion c = Some (Citas.ahora e))
  ∧ (Citas.status (Citas.servir m di e (Citas.PUT_cita id b) t).1 = 500 →
     (Citas.servir m di e (Citas.PUT_cita id b) t).2 = t)
  ∧ (∀ c, c ∈ Citas.filas (Citas.servir m di e (Citas.DELETE_cita id) t).2 →
          Citas.Fila.id c = n →
          Citas.Fila.fecha_actualizacion c = Some (Citas.ahora e))
  ∧ (∀ gid gb gt,
       Gratuitas_voc.solo_flags gt
         (Gratuitas.servir (Gratuitas.marcar_recordatorio m gid gb) gt).2
       ∧ Gratuitas.Fila.fecha_actualizacion <$>
           Gratuitas.filas (Gratuitas.servir (Gratuitas.marcar_recordatorio m gid gb) gt).2
         = Gratuitas.Fila.fecha_actualizacion <$> Gratuitas.filas gt)
  ∧ (∀ gid gt,
       Gratuitas_voc.solo_flags gt (Gratuitas.servir (Gratuitas.reset_flags m gid) gt).2
       ∧ Gratuitas.Fila.fecha_actualizacion <$>
           Gratuitas.filas (Gratuitas.servir (Gratuitas.reset_flags m gid) gt).2
         = Gratuitas.Fila.fecha_actualizacion <$> Gratuitas.filas gt)
  ∧ (∀ gt,
       Gratuitas_voc.solo_flags gt (Gratuitas.servir Gratuitas.reset_flags_all gt).2
       ∧ Gratuitas.Fila.fecha_actualizacion <$>
           Gratuitas.filas (Gratuitas.servir Gratuitas.reset_flags_all gt).2
         = Gratuitas.Fila.fecha_actualizacion <$> Gratuitas.filas gt).
Proof.
  intros Hid. split; [|split; [|split; [|split; [|split]]]].
  - rewrite servir_PUT, Hid.
    destruct (Citas_voc.fecha_leida m b) as [fv|]; [|discriminate].
    destruct (Citas_voc.hora_leida m b) as [hv|]; [|discriminate].
    cbn [fst snd Citas.filas]. intros _.
    intros c (r & Hr & ->)%elem_of_poner_en_clave Hc.
    destruct (decide (Citas.Fila.id r = n)); [done|congruence].
  - rewrite servir_PUT, Hid.
    destruct (Citas_voc.fecha_leida m b) as [fv|]; [|done].
    destruct (Citas_voc.hora_leida m b) as [hv|]; [|done].
    cbn [fst snd]. by destruct (Citas.con_clave _ _).
  - rewrite servir_DELETE, Hid. cbn [snd Citas.filas].
    intros c (r & Hr & ->)%elem_of_poner_en_clave Hc.
    destruct (decide (Citas.Fila.id r = n)); [done|congruence].
  - intros gid gb gt. split; [apply solo_flags_marcar_recordatorio|].
    apply fecha_actualizacion_solo_flags, solo_flags_marcar_recordatorio.
  - intros gid gt. split; [apply solo_flags_reset_flags|].
    apply fecha_actualizacion_solo_flags, solo_flags_reset_flags.
  - intros gt. split; [apply solo_flags_reset_flags_all|].
    apply fecha_actualizacion_solo_flags, solo_flags_reset_flags_all.
Qed.

Lemma C9_actualizacion_solo_en_PUT_y_DELETE_witness :
  Citas.Fila.fecha_actualizacion <$> Citas.filas Ejemplos.con_ana_cancelada = [Some 2000%Z]
  ∧ ∀ c, c ∈ Citas.filas Ejemplos.con_ana_cancelada → Citas.Fila.id c = 1 →
         Citas.Fila.fecha_actualizacion c = Some (Citas.ahora Ejemplos.tarde).
Proof.
  split; [reflexivity|].
  exact (proj1 (proj2 (proj2 (C9_actualizacion_solo_en_PUT_y_DELETE Ejemplos.motor
                         Ejemplos.por_defecto Ejemplos.tarde "1" 1 Citas.sin_cuerpo
                         Ejemplos.con_ana eq_refl)))).
Defined.

(** C9 as stated fails: both appointments were last written at time 1000;
    marking the 2h reminder of the first, resetting the flags of the second
    and resetting the flags of all are answered 200 and change the flags,
    and afterwards [fecha_actualizacion] still holds 1000 in both rows, at
    whatever time the requests are served. *)
Lemma C9_counterexample :
  let marcada :=
    Gratuitas.servir (Gratuitas.marcar_recordatorio Ejemplos.motor "1" (Ejemplos.marca "2h"))
      Ejemplos.dos_citas in
  let reseteada :=
    Gratuitas.servir (Gratuitas.reset_flags Ejemplos.motor "2") Ejemplos.dos_citas in
  let todas := Gratuitas.servir Gratuitas.reset_flags_all Ejemplos.dos_citas in
  Gratuitas.status marcada.1 = 200
  ∧ Gratuitas_voc.flags <$> Gratuitas.filas marcada.2
    = [(false, true, false); (true, false, true)]
  ∧ Gratuitas.Fila.fecha_actualizacion <$> Gratuitas.filas marcada.2
    = [Some 1000; Some 1000]%Z
  ∧ Gratuitas.status reseteada.1 = 200
  ∧ Gratuitas_voc.flags <$> Gratuitas.filas reseteada.2
    = [(false, false, false); (false, false, false)]
  ∧ Gratuitas.Fila.fecha_actualizacion <$> Gratuitas.filas reseteada.2
    = [Some 1000; Some 1000]%Z
  ∧ Gratuitas.status todas.1 = 200
  ∧ Gratuitas.Fila.fecha_actualizacion <$> Gratuitas.filas todas.2
    = [Some 1000; Some 1000]%Z.
Proof. repeat split. Qed.

(* ===================================================================== *)
(** * Further properties of the two servers *)
(* ===================================================================== *)

(** ** Full variant: rows of a key *)

Section Citas_claves.
Import Citas Citas_voc Citas_inv.

Lemma con_clave_ausente n (l : list Fila.t) :
  (∀ c, c ∈ l → Fila.id c ≠ n) → con_clave n l = [].
Proof.
  intros H. induction l as [|c l IH]; [done|].
  unfold con_clave in *. rewrite filter_cons.
  destruct (decide (Fila.id c = n)) as [E|_].
  - exfalso. by apply (H c); [apply list_elem_of_here|].
  - apply IH. intros c' Hc'. apply H. by apply list_elem_of_further.
Qed.

Lemma poner_en_clave_ausente n f (l : list Fila.t) :
  (∀ c, c ∈ l → Fila.id c ≠ n) → poner_en_clave n f l = l.
Proof.
  intros H. induction l as [|c l IH]; [done|].
  unfold poner_en_clave in *. rewrite fmap_cons.
  rewrite IH by (intros c' Hc'; apply H; by apply list_elem_of_further).
  rewrite decide_False; [done|]. apply H, list_elem_of_here.
Qed.

Lemma con_clave_poner_en_clave n f (l : list Fila.t) :
  (∀ r, Fila.id (f r) = Fila.id r) →
  con_clave n (poner_en_clave n f l) = f <$> con_clave n l.
Proof.
  intros Hf. induction l as [|c l IH]; [done|].
  unfold con_clave, poner_en_clave in *. rewrite fmap_cons, !filter_cons.
  destruct (decide (Fila.id c = n)) as [E|E].
  - rewrite decide_True by (by rewrite Hf). by rewrite fmap_cons, IH.
  - by rewrite decide_False.
Qed.

Lemma poner_en_clave_dos n f g (l : list Fila.t) :
  (∀ r, Fila.id (f r) = Fila.id r) →
  poner_en_clave n g (poner_en_clave n f l) = poner_en_clave n (g ∘ f) l.
Proof.
  intros Hf. unfold poner_en_clave. rewrite <- list_fmap_compose.
  apply list_fmap_ext. intros i r _. simpl.
  destruct (decide (Fila.id r = n)) as [E|E].
  - by rewrite decide_True by (by rewrite Hf).
  - by rewrite decide_False.
Qed.

Lemma ids_poner_en_clave n f (l : list Fila.t) :
  (∀ r, Fila.id (f r) = Fila.id r) →
  Fila.id <$> poner_en_clave n f l = Fila.id <$> l.
Proof.
  intros Hf. unfold poner_en_clave. rewrite <- list_fmap_compose.
  apply list_fmap_ext. intros i r _. simpl. by destruct (decide _).
Qed.

End Citas_claves.

(** ** X1: the listing of all appointments *)

(** X1.  GET /api/citas answers 200 with every row of the table, each as
    often as it is there, ordered by date and then by time (NULLs last),
    and leaves the table as it was. *)
Theorem X1_listado_completo_y_ordenado
    (m : Sql.motor) (di : Z → option Z) (e : Citas.entorno) (t : Citas.tabla) :
  ∃ rows,
    Citas.servir m di e Citas.GET_citas t = (Citas.Responder 200 (Citas.Filas rows), t)
    ∧ rows ≡ₚ Citas.filas t
    ∧ length rows = length (Citas.filas t)
    ∧ StronglySorted Citas.por_fecha_hora rows
    ∧ ∀ rows1 a b rows2, rows = (rows1 ++ a :: b :: rows2)%list →
        Sql.asc (Citas.Fila.fecha a) (Citas.Fila.fecha b)
        ∧ (Citas.Fila.fecha a = Citas.Fila.fecha b →
           Sql.asc (Citas.Fila.hora a) (Citas.Fila.hora b)).
Proof.
  destruct (servir_GET_citas m di e t) as (rows & E & Hp & Hs).
  exists rows. split; [done|]. split; [done|].
  split; [by rewrite Hp|]. split; [done|].
  intros rows1 a b rows2 ->.
  apply StronglySorted_app in Hs as (_ & _ & Hs).
  apply StronglySorted_inv in Hs as [_ Hab].
  apply Forall_cons in Hab as [Hab _].
  unfold Citas.por_fecha_hora in Hab.
  destruct (decide (Citas.Fila.fecha a = Citas.Fila.fecha b)) as [Eq|Ne].
  - split; [rewrite Eq; apply asc_refl|done].
  - split; [done|]. by intros ?.
Qed.

(** ** X2: an appointment just created is found by its id *)

(** X2.  On a table whose ids were drawn from the sequence, when
    POST /api/citas answers 201 with a row, GET /api/citas/:id with the id
    of that row answers 200 with exactly that row. *)
Theorem X2_creada_y_encontrada
    (m : Sql.motor) (di : Z → option Z) (e1 e2 : Citas.entorno) (b : Citas.Cuerpo.t)
    (t t1 : Citas.tabla) (c : Citas.Fila.t) (id : string) :
  Citas_voc.ids_de_la_secuencia t →
  Citas.servir m di e1 (Citas.POST_citas b) t
    = (Citas.Responder 201 (Citas.UnaFila c), t1) →
  Sql.entero_de_texto m id = Bien (Citas.Fila.id c) →
  Citas.servir m di e2 (Citas.GET_cita id) t1
    = (Citas.Responder 200 (Citas.UnaFila c), t1).
Proof.
  intros Hids H Hid. rewrite servir_POST in H.
  destruct (Citas.faltan_campos b); [discriminate|].
  destruct (Citas_voc.fecha_leida m b) as [fv|]; [|discriminate].
  destruct (Citas_voc.hora_leida m b) as [hv|]; [|discriminate].
  destruct (bool_decide _); [discriminate|].
  cbv zeta in H. injection H as <- <-.
  rewrite servir_GET_cita, Hid. cbn [Citas.filas Citas.fila_nueva Citas.Fila.id].
  unfold Citas.con_clave. rewrite filter_app.
  fold (Citas.con_clave (Citas.siguiente_id t) (Citas.filas t)).
  rewrite con_clave_ausente.
  - rewrite filter_cons, decide_True by done. done.
  - intros c' Hc'. unfold Citas_voc.ids_de_la_secuencia in Hids.
    rewrite Forall_forall in Hids. specialize (Hids c' Hc'). lia.
Qed.

Lemma X2_creada_y_encontrada_witness :
  ∃ c, Citas.servir Ejemplos.motor Ejemplos.por_defecto Ejemplos.tarde (Citas.GET_cita "1")
         Ejemplos.con_ana
       = (Citas.Responder 200 (Citas.UnaFila c), Ejemplos.con_ana)
       ∧ Citas.Fila.nombre c = Some "Ana".
Proof.
  eexists. split.
  - apply (X2_creada_y_encontrada Ejemplos.motor Ejemplos.por_defecto Ejemplos.manana
             Ejemplos.tarde Ejemplos.ana Ejemplos.vacia Ejemplos.con_ana _ "1").
    + constructor.
    + reflexivity.
    + reflexivity.
  - reflexivity.
Defined.

(** ** X3: a key that is not there, a key that the engine rejects *)

(** X3.  For the three routes of the full variant that take an id (GET, PUT
    and DELETE on /api/citas/:id): when the engine reads the id as a key
    that no row has, GET and DELETE answer 404 "Cita no encontrada", and so
    does PUT when the engine reads the date and the time of its body; when
    the engine rejects the id, the query throws and the three answer 500;
    PUT also answers 500 when the engine rejects the date or the time of its
    body.  In all these cases the table is left exactly as it was. *)
Theorem X3_id_ausente_o_invalido
    (m : Sql.motor) (di : Z → option Z) (e : Citas.entorno) (id : string)
    (b : Citas.Cuerpo.t) (t : Citas.tabla) :
  (∀ n, Sql.entero_de_texto m id = Bien n →
        (∀ c, c ∈ Citas.filas t → Citas.Fila.id c ≠ n) →
        Citas.servir m di e (Citas.GET_cita id) t
          = (Citas.Responder 404 (Citas.Error "Cita no encontrada"), t)
        ∧ (∀ fv hv, Citas_inv.lee_columnas m b fv hv →
             Citas.servir m di e (Citas.PUT_cita id b) t
             = (Citas.Responder 404 (Citas.Error "Cita no encontrada"), t))
        ∧ Citas.servir m di e (Citas.DELETE_cita id) t
          = (Citas.Responder 404 (Citas.Error "Cita no encontrada"), t))
  ∧ (∀ msg, Sql.entero_de_texto m id = Lanza msg →
     Citas.servir m di e (Citas.GET_cita id) t
       = (Citas.Responder 500 (Citas.Error "Error al obtener la cita"), t)
     ∧ Citas.servir m di e (Citas.PUT_cita id b) t
       = (Citas.Responder 500 (Citas.Error "Error al actualizar la cita"), t)
     ∧ Citas.servir m di e (Citas.DELETE_cita id) t
       = (Citas.Responder 500 (Citas.Error "Error al cancelar la cita"), t))
  ∧ (Citas_voc.rechaza_ranura m b →
     Citas.servir m di e (Citas.PUT_cita id b) t
       = (Citas.Responder 500 (Citas.Error "Error al actualizar la cita"), t)).
Proof.
  split; [|split].
  - intros n Hid Hno.
    rewrite servir_GET_cita, servir_DELETE, Hid.
    rewrite (con_clave_ausente n _ Hno), !(poner_en_clave_ausente n _ _ Hno).
    split; [by destruct t|]. split; [|by destruct t].
    intros fv hv [Hf Hh]. rewrite servir_PUT, Hf, Hh, Hid.
    rewrite (con_clave_ausente n _ Hno), !(poner_en_clave_ausente n _ _ Hno).
    by destruct t.
  - intros msg Hid. rewrite servir_GET_cita, servir_PUT, servir_DELETE, Hid.
    split; [done|]. split; [|done].
    by destruct (Citas_voc.fecha_leida m b), (Citas_voc.hora_leida m b).
  - intros [[msg Hr]|[msg Hr]]; rewrite servir_PUT, Hr; [done|].
    by destruct (Citas_voc.fecha_leida m b).
Qed.

Lemma X3_id_ausente_o_invalido_witness :
  Citas.servir Ejemplos.motor Ejemplos.por_defecto Ejemplos.tarde (Citas.DELETE_cita "7")
    Ejemplos.con_ana
  = (Citas.Responder 404 (Citas.Error "Cita no encontrada"), Ejemplos.con_ana)
  ∧ Citas.servir Ejemplos.motor Ejemplos.por_defecto Ejemplos.tarde
      (Citas.GET_cita "99999999999999999999") Ejemplos.con_ana
    = (Citas.Responder 500 (Citas.Error "Error al obtener la cita"), Ejemplos.con_ana)
  ∧ Citas.servir Ejemplos.motor Ejemplos.por_defecto Ejemplos.tarde
      (Citas.PUT_cita "1" Ejemplos.ana_sin_fecha) Ejemplos.con_ana
    = (Citas.Responder 500 (Citas.Error "Error al actualizar la cita"), Ejemplos.con_ana).
Proof.
  destruct (X3_id_ausente_o_invalido Ejemplos.motor Ejemplos.por_defecto Ejemplos.tarde "7"
              Ejemplos.ana_confirmada Ejemplos.con_ana) as (H404 & _ & _).
  destruct (X3_id_ausente_o_invalido Ejemplos.motor Ejemplos.por_defecto Ejemplos.tarde
              "99999999999999999999" Ejemplos.ana_confirmada Ejemplos.con_ana)
    as (_ & H500 & _).
  destruct (X3_id_ausente_o_invalido Ejemplos.motor Ejemplos.por_defecto Ejemplos.tarde "1"
              Ejemplos.ana_sin_fecha Ejemplos.con_ana) as (_ & _ & Hfecha).
  split; [|split].
  - apply (H404 7 eq_refl).
    intros c Hc. vm_compute in Hc. apply list_elem_of_singleton in Hc. by subst c.
  - apply (H500 _ eq_refl).
  - apply Hfecha. left. eexists. reflexivity.
Defined.

(** ** X4: requests that change nothing *)

Section Citas_rutas.
Import Citas.

Lemma resolver_GET r h ps :
  Ruteo.resolver rutas Ruteo.GET r = Some (h, ps) →
  h ≠ HCrearCita ∧ h ≠ HActualizarCita ∧ h ≠ HCancelarCita.
Proof.
  unfold rutas. simpl. intros H.
  repeat (case_match; try discriminate);
    injection H as <- <-; repeat split; discriminate.
Qed.

Lemma resolver_PATCH r : Ruteo.resolver rutas Ruteo.PATCH r = None.
Proof. reflexivity. Qed.

Lemma resolver_pendientes mt r ps :
  Ruteo.resolver rutas mt r ≠ Some (HCitasPendientes, ps).
Proof.
  unfold rutas. destruct mt; simpl; intros H;
    repeat (case_match; try discriminate).
  repeat match goal with
         | E : bool_decide _ = true |- _ => apply bool_decide_eq_true_1 in E
         | E : bool_decide _ = false |- _ => apply bool_decide_eq_false_1 in E
         | E : Some _ = Some _ |- _ => injection E as E
         end.
  subst. simpl in *. congruence.
Qed.

End Citas_rutas.

(** X4.  In the full variant a GET request, whatever its path, leaves the
    table exactly as it was; and a PATCH request, which no route takes, is
    answered 404 and changes nothing. *)
Theorem X4_GET_no_escribe
    (m : Sql.motor) (di : Z → option Z) (e : Citas.entorno) (p : Citas.peticion)
    (t : Citas.tabla) :
  (Citas.metodo p = Ruteo.GET → (Citas.servir m di e p t).2 = t)
  ∧ (Citas.metodo p = Ruteo.PATCH →
     Citas.servir m di e p t = (Citas.Responder 404 Citas.SinRuta, t)).
Proof.
  destruct p as [mt r b], t as [l k]. cbn [Citas.metodo]. split; intros ->.
  - unfold Citas.servir, Citas.servidor. cbn [Citas.metodo Citas.ruta Citas.body].
    destruct (Ruteo.resolver Citas.rutas Ruteo.GET r) as [[h ps]|] eqn:R; [|done].
    apply resolver_GET in R as (H1 & H2 & H3).
    destruct h; try done; simpl.
    + unfold Citas.obtener_cita, Citas.consulta_por_id, con_id, intentar, ligar, ret, lanzar.
      destruct (Sql.entero_de_texto _ _); simpl; [|done].
      by destruct (Citas.con_clave _ _).
    + unfold Citas.citas_por_fecha, Citas.consulta_por_fecha, a_columna, elevar,
        intentar, ligar, ret. simpl.
      by destruct (Sql.fecha_de_texto m _).
  - unfold Citas.servir, Citas.servidor. cbn [Citas.metodo Citas.ruta Citas.body].
    by rewrite resolver_PATCH.
Qed.

Lemma X4_GET_no_escribe_witness :
  (Citas.servir Ejemplos.motor Ejemplos.por_defecto Ejemplos.tarde
     (Citas.Peticion Ruteo.GET ["api"; "citas"; "fecha"; "2025-06-01"] Ejemplos.luis)
     Ejemplos.con_ana).2 = Ejemplos.con_ana
  ∧ Citas.servir Ejemplos.motor Ejemplos.por_defecto Ejemplos.tarde
      (Citas.Peticion Ruteo.PATCH ["api"; "citas"; "1"] Ejemplos.luis) Ejemplos.con_ana
    = (Citas.Responder 404 Citas.SinRuta, Ejemplos.con_ana).
Proof.
  split.
  - apply (proj1 (X4_GET_no_escribe Ejemplos.motor Ejemplos.por_defecto Ejemplos.tarde
                    (Citas.Peticion Ruteo.GET ["api"; "citas"; "fecha"; "2025-06-01"]
                       Ejemplos.luis) Ejemplos.con_ana)).
    reflexivity.
  - apply (proj2 (X4_GET_no_escribe Ejemplos.motor Ejemplos.por_defecto Ejemplos.tarde
                    (Citas.Peticion Ruteo.PATCH ["api"; "citas"; "1"] Ejemplos.luis)
                    Ejemplos.con_ana)).
    reflexivity.
Defined.

(** ** X5: what the route table of the full variant can reach *)

(** X5.  Every GET /api/citas/<x> with a single segment <x> is served by
    the handler of one appointment with id = <x>; and no request, of any
    method and path, is served by the handler of the pending list. *)
Theorem X5_manejador_de_pendientes_inalcanzable :
  (∀ x, Ruteo.resolver Citas.rutas Ruteo.GET ["api"; "citas"; x]
        = Some (Citas.HObtenerCita, [("id", x)]))
  ∧ ∀ m r ps, Ruteo.resolver Citas.rutas m r ≠ Some (Citas.HCitasPendientes, ps).
Proof.
  split; [reflexivity|]. apply resolver_pendientes.
Qed.

(** ** X6: rows are never removed *)

(** X6.  In the full variant no request removes a row or changes an id:
    after any run of requests the table holds the ids it held, in the same
    order, followed by those of the rows created since; one request adds
    at most one row. *)
Theorem X6_las_filas_no_se_borran
    (m : Sql.motor) (di : Z → option Z) (ps : list (Citas.entorno * Citas.peticion))
    (t : Citas.tabla) :
  (∃ nuevos, Citas_inv.ids (Citas.correr m di ps t) = (Citas_inv.ids t ++ nuevos)%list)
  ∧ (length (Citas.filas t) ≤ length (Citas.filas (Citas.correr m di ps t))
     ≤ length (Citas.filas t) + length ps)%nat.
Proof.
  revert t. induction ps as [|[e p] ps IH]; intros t.
  { split; [exists []; by rewrite app_nil_r|simpl; lia]. }
  simpl. destruct (IH (Citas.servir m di e p t).2) as [[nuevos Hn] Hl].
  assert (∃ uno, Citas_inv.ids (Citas.servir m di e p t).2 = (Citas_inv.ids t ++ uno)%list
                 ∧ (length uno ≤ 1)%nat) as (uno & Huno & Hlen).
  { unfold Citas_inv.ids.
    destruct (servir_efecto m di e p t) as [|b fv hv|ps' n fv hv _ _|n]; cbn [Citas.filas].
    - exists []. rewrite app_nil_r. split; [done|simpl; lia].
    - eexists [_]. rewrite fmap_app. split; [done|simpl; lia].
    - exists []. rewrite app_nil_r, ids_poner_en_clave by done.
      split; [done|simpl; lia].
    - exists []. rewrite app_nil_r, ids_poner_en_clave by done.
      split; [done|simpl; lia]. }
  split.
  - exists (uno ++ nuevos)%list. by rewrite Hn, Huno, app_assoc.
  - assert (length (Citas.filas (Citas.servir m di e p t).2)
            = length (Citas.filas t) + length uno)%nat as Hstep.
    { rewrite <- (length_fmap Citas.Fila.id (Citas.filas (Citas.servir m di e p t).2)).
      fold (Citas_inv.ids (Citas.servir m di e p t).2).
      rewrite Huno, length_app. unfold Citas_inv.ids. by rewrite length_fmap. }
    lia.
Qed.

(** ** X7: one appointment per slot, as long as requests do not overlap *)

Section Citas_ranuras.
Import Citas Citas_voc Citas_inv.
Variable m : Sql.motor.
Variable di : Z → option Z.

Lemma ranura_Some r f h :
  ranura r = Some (f, h) ↔
  Fila.fecha r = Some f ∧ Fila.hora r = Some h
  ∧ ∃ s, Fila.estado r = Some s ∧ s ≠ cancelada.
Proof.
  unfold ranura.
  destruct (Fila.fecha r) as [f'|], (Fila.hora r) as [h'|], (Fila.estado r) as [s|].
  all: try (split; [discriminate|intros (Hf & Hh & s' & Hs & _); congruence]).
  destruct (decide (s = cancelada)) as [E|E]; split.
  - discriminate.
  - intros (_ & _ & s' & Hs & Hne). congruence.
  - intros H. injection H as -> ->. split; [done|]. split; [done|]. by exists s.
  - intros (Hf & Hh & _). congruence.
Qed.

Lemma ranura_cancelar e r : ranura (cancelar e r) = None.
Proof.
  unfold ranura. cbn [cancelar Fila.fecha Fila.hora Fila.estado].
  by destruct (Fila.fecha r), (Fila.hora r).
Qed.

Lemma resolver_crear mt r ps :
  Ruteo.resolver rutas mt r = Some (HCrearCita, ps) →
  mt = Ruteo.POST ∧ r = ["api"; "citas"].
Proof.
  unfold rutas. destruct mt; simpl; intros H;
    repeat (case_match; try discriminate); try done.
  repeat match goal with
         | E : bool_decide _ = true |- _ => apply bool_decide_eq_true_1 in E
         end.
  by subst.
Qed.

(** What a request other than PUT can do to the table when it is served
    alone; an insertion happens only into a free slot. *)
Lemma servir_sin_PUT e p t :
  metodo p ≠ Ruteo.PUT →
  (servir m di e p t).2 = t
  ∨ (∃ b f h,
       ¬ ocupada f h t
       ∧ (servir m di e p t).2
         = Tabla (filas t ++ [fila_nueva di e b (Some f) (Some h) (siguiente_id t)])
                 (siguiente_id t + 1))
  ∨ (∃ n, (servir m di e p t).2
          = Tabla (poner_en_clave n (cancelar e) (filas t)) (siguiente_id t)).
Proof.
  intros Hm. destruct p as [mt r b]. cbn [metodo] in Hm.
  destruct (Ruteo.resolver rutas mt r) as [[h ps]|] eqn:R.
  2:{ left. unfold servir, servidor. cbn [metodo ruta body]. rewrite R. by destruct t. }
  destruct h.
  - left. unfold servir, servidor. cbn [metodo ruta body]. rewrite R. by destruct t.
  - left. unfold servir, servidor. cbn [metodo ruta body]. rewrite R. simpl.
    unfold obtener_cita, consulta_por_id, con_id, intentar, ligar, ret, lanzar.
    destruct t as [l k]. destruct (Sql.entero_de_texto _ _); simpl; [|done].
    by destruct (con_clave _ _).
  - apply resolver_crear in R as [-> ->]. fold (POST_citas b).
    destruct (faltan_campos b) eqn:Hb.
    + left. by rewrite servir_POST, Hb.
    + destruct (ranura_leida_o_rechazada m b Hb) as [(fv & hv & Hl)|Hr].
      * destruct (servir_POST_completa m di e b t fv hv Hb Hl) as [[_ ->]|[Hlibre ->]];
          [by left|].
        right. left. by exists b, fv, hv.
      * left. by rewrite (servir_POST_rechazada m di e b t Hb Hr).
  - by apply resolver_actualizar in R as [-> _].
  - unfold servir, servidor. cbn [metodo ruta body]. rewrite R. simpl.
    unfold cancelar_cita, consulta_cancelar, actualizar_en_clave, con_id,
      intentar, ligar, ret, lanzar.
    destruct t as [l k].
    destruct (Sql.entero_de_texto _ _) as [n|] eqn:E; simpl.
    + right. right. exists n. by destruct (con_clave _ _).
    + by left.
  - left. unfold servir, servidor. cbn [metodo ruta body]. rewrite R. simpl.
    unfold citas_por_fecha, consulta_por_fecha, a_columna, elevar, intentar, ligar, ret.
    destruct t as [l k]. simpl. by destruct (Sql.fecha_de_texto m _).
  - left. unfold servir, servidor. cbn [metodo ruta body]. rewrite R. by destruct t.
  - left. unfold servir, servidor. cbn [metodo ruta body]. rewrite R. by destruct t.
  - left. unfold servir, servidor. cbn [metodo ruta body]. rewrite R. by destruct t.
Qed.

Lemma sin_doble_reserva_servir e p t :
  metodo p ≠ Ruteo.PUT → sin_doble_reserva t → sin_doble_reserva (servir m di e p t).2.
Proof.
  intros Hm Ht.
  destruct (servir_sin_PUT e p t Hm) as [->|[(b & f & h & Hlibre & ->)|[n ->]]];
    [done|..]; unfold sin_doble_reserva in *; cbn [filas].
  - set (c := fila_nueva di e b (Some f) (Some h) (siguiente_id t)).
    assert (ranura c = Some (f, h)) as Hc.
    { apply ranura_Some. subst c. simpl.
      split; [done|]. split; [done|]. by exists confirmada. }
    assert (∀ i r x, filas t !! i = Some r → ranura r = Some x → x ≠ (f, h)) as Hviejo.
    { intros i r x Hi Hr ->. apply Hlibre.
      apply ranura_Some in Hr as (? & ? & s & ? & ?).
      exists r, s. split; [|done]. by eapply list_elem_of_lookup_2. }
    intros i j r1 r2 x Hij H1 H2 Hx1 Hx2.
    apply lookup_app_Some in H1 as [H1|[Hi H1]];
      apply lookup_app_Some in H2 as [H2|[Hj H2]].
    + by eapply (Ht i j).
    + apply list_lookup_singleton_Some in H2 as [_ <-].
      apply (Hviejo i r1 x H1 Hx1). congruence.
    + apply list_lookup_singleton_Some in H1 as [_ <-].
      apply (Hviejo j r2 x H2 Hx2). congruence.
    + apply list_lookup_singleton_Some in H1 as [Hi' _].
      apply list_lookup_singleton_Some in H2 as [Hj' _]. lia.
  - intros i j r1 r2 x Hij H1 H2 Hx1 Hx2.
    unfold poner_en_clave in H1, H2. rewrite list_lookup_fmap in H1, H2.
    destruct (filas t !! i) as [r1'|] eqn:E1; [|done].
    destruct (filas t !! j) as [r2'|] eqn:E2; [|done].
    simpl in H1, H2. injection H1 as <-. injection H2 as <-.
    destruct (decide (Fila.id r1' = n)); [by rewrite ranura_cancelar in Hx1|].
    destruct (decide (Fila.id r2' = n)); [by rewrite ranura_cancelar in Hx2|].
    by eapply (Ht i j).
Qed.

Lemma sin_doble_reserva_correr ps t :
  sin_doble_reserva t → Forall (λ ep, metodo ep.2 ≠ Ruteo.PUT) ps →
  sin_doble_reserva (correr m di ps t).
Proof.
  revert t. induction ps as [|[e p] ps IH]; intros t Ht Hps; [done|].
  apply Forall_cons in Hps as [Hp Hps]. simpl.
  apply IH; [|done]. by apply sin_doble_reserva_servir.
Qed.

(** The handler of POST is its part up to the SELECT followed by its part
    from there on. *)
Lemma crear_cita_en_dos_tiempos e b w :
  crear_cita m di e b w
  = (sea x := hasta_la_consulta m b en desde_la_consulta m di e b x) w.
Proof.
  unfold crear_cita, hasta_la_consulta, desde_la_consulta, intentar, ligar, ret.
  destruct (faltan_campos b); [done|].
  unfold consulta_existente, a_columna, elevar, ligar, ret, leer.
  destruct (Sql.leer_columna (Sql.fecha_de_texto m) _) as [fv|]; simpl; [|done].
  destruct (Sql.leer_columna (Sql.hora_de_texto m) _) as [hv|]; simpl; [|done].
  done.
Qed.

(** Two requests for one free slot, both SELECTs before either INSERT:
    both are answered 201 and both rows are in the table. *)
Lemma dos_a_la_vez_en_ranura_libre e1 b1 e2 b2 fv hv t :
  faltan_campos b1 = false → faltan_campos b2 = false →
  lee_ranura m b1 fv hv → lee_ranura m b2 fv hv →
  ¬ ocupada fv hv t →
  let c1 := fila_nueva di e1 b1 (Some fv) (Some hv) (siguiente_id t) in
  let c2 := fila_nueva di e2 b2 (Some fv) (Some hv) (siguiente_id t + 1) in
  dos_a_la_vez m di e1 b1 e2 b2 (Mundo t [])
  = (Bien (Responder 201 (UnaFila c1), Responder 201 (UnaFila c2)),
     Mundo (Tabla ((filas t ++ [c1]) ++ [c2]) (siguiente_id t + 1 + 1)) []).
Proof.
  intros Hb1 Hb2 [Hf1 Hh1] [Hf2 Hh2] Hlibre c1 c2.
  apply (not_iff_compat (hay_existente fv hv t)) in Hlibre.
  apply not_true_is_false in Hlibre.
  unfold fecha_leida, hora_leida in *.
  unfold dos_a_la_vez, hasta_la_consulta, desde_la_consulta, consulta_existente,
    insertar, a_columna, elevar, intentar, ligar, ret, leer, escribir.
  rewrite Hb1, Hb2. cbn [Efecto.tabla consola].
  rewrite Hf1, Hh1, Hf2, Hh2. cbn [Efecto.tabla consola].
  rewrite Hlibre. cbn [Efecto.tabla consola filas siguiente_id]. done.
Qed.

End Citas_ranuras.

(** X7.  When requests are served one at a time: if no two rows of the
    table hold the same slot (same date and time, status set and not
    cancelled), then this is still so after any run of requests that
    contains no PUT; POST inserts only into a free slot, DELETE only
    cancels, and the other routes change nothing.  It is not so when
    requests overlap: the handler of POST awaits its SELECT and then its
    INSERT, and of two requests for one free slot whose SELECTs both run
    before either INSERT, both are answered 201 and both rows hold the
    slot. *)
Theorem X7_una_cita_por_ranura
    (m : Sql.motor) (di : Z → option Z) (ps : list (Citas.entorno * Citas.peticion))
    (t : Citas.tabla) :
  (Citas_inv.sin_doble_reserva t →
   Forall (λ ep, Citas.metodo ep.2 ≠ Ruteo.PUT) ps →
   Citas_inv.sin_doble_reserva (Citas.correr m di ps t))
  ∧ (∀ e b w,
       Citas.crear_cita m di e b w
       = (sea x := Citas.hasta_la_consulta m b en Citas.desde_la_consulta m di e b x) w)
  ∧ (∀ e1 b1 e2 b2 fv hv,
       Citas.faltan_campos b1 = false → Citas.faltan_campos b2 = false →
       Citas_voc.lee_ranura m b1 fv hv → Citas_voc.lee_ranura m b2 fv hv →
       ¬ Citas_voc.ocupada fv hv t →
       ∃ c1 c2 t',
         Citas.dos_a_la_vez m di e1 b1 e2 b2 (Mundo t [])
         = (Bien (Citas.Responder 201 (Citas.UnaFila c1),
                  Citas.Responder 201 (Citas.UnaFila c2)), Mundo t' [])
         ∧ Citas.filas t' = (Citas.filas t ++ [c1; c2])%list
         ∧ Citas.Fila.id c1 ≠ Citas.Fila.id c2
         ∧ Citas_inv.ranura c1 = Some (fv, hv)
         ∧ Citas_inv.ranura c2 = Some (fv, hv)
         ∧ ¬ Citas_inv.sin_doble_reserva t').
Proof.
  split; [apply sin_doble_reserva_correr|].
  split; [apply crear_cita_en_dos_tiempos|].
  intros e1 b1 e2 b2 fv hv Hb1 Hb2 Hl1 Hl2 Hlibre.
  do 3 eexists.
  split; [by apply (dos_a_la_vez_en_ranura_libre m di e1 b1 e2 b2 fv hv t)|].
  cbn [Citas.filas]. split; [by rewrite <- app_assoc|].
  split; [simpl; lia|]. split; [done|]. split; [done|].
  intros Hinv.
  apply (Hinv (length (Citas.filas t)) (S (length (Citas.filas t)))
           (Citas.fila_nueva di e1 b1 (Some fv) (Some hv) (Citas.siguiente_id t))
           (Citas.fila_nueva di e2 b2 (Some fv) (Some hv) (Citas.siguiente_id t + 1))
           (fv, hv)); cbn [Citas.filas].
  - lia.
  - rewrite <- app_assoc. by apply list_lookup_middle.
  - rewrite lookup_app_r by (rewrite length_app; simpl; lia).
    rewrite length_app. cbn [length].
    by replace (S (length (Citas.filas t)) - (length (Citas.filas t) + 1))%nat with 0%nat by lia.
  - done.
  - done.
Qed.

Lemma X7_una_cita_por_ranura_witness :
  Citas_inv.sin_doble_reserva
    (Citas.correr Ejemplos.motor Ejemplos.por_defecto
       [(Ejemplos.manana, Citas.POST_citas Ejemplos.ana);
        (Ejemplos.tarde, Citas.POST_citas Ejemplos.luis);
        (Ejemplos.tarde, Citas.DELETE_cita "1");
        (Ejemplos.noche, Citas.POST_citas Ejemplos.luis)]
       Ejemplos.vacia)
  ∧ ∃ c1 c2 t',
      Citas.dos_a_la_vez Ejemplos.motor Ejemplos.por_defecto
        Ejemplos.manana Ejemplos.ana Ejemplos.manana Ejemplos.luis (Mundo Ejemplos.vacia [])
      = (Bien (Citas.Responder 201 (Citas.UnaFila c1),
               Citas.Responder 201 (Citas.UnaFila c2)), Mundo t' [])
      ∧ ¬ Citas_inv.sin_doble_reserva t'.
Proof.
  split.
  - apply (proj1 (X7_una_cita_por_ranura Ejemplos.motor Ejemplos.por_defecto _
                    Ejemplos.vacia)).
    + intros i j r1 r2 x _ H1. change ([] !! i = Some r1) in H1.
      by rewrite lookup_nil in H1.
    + repeat constructor; discriminate.
  - destruct (proj2 (proj2 (X7_una_cita_por_ranura Ejemplos.motor Ejemplos.por_defecto []
                              Ejemplos.vacia))
                Ejemplos.manana Ejemplos.ana Ejemplos.manana Ejemplos.luis 20250601 36000
                eq_refl eq_refl (conj eq_refl eq_refl) (conj eq_refl eq_refl))
      as (c1 & c2 & t' & E & _ & _ & _ & _ & Hno).
    + intros (c & s & Hc & _). by apply not_elem_of_nil in Hc.
    + exists c1, c2, t'. by split.
Defined.

(** ** X8: PUT does not look at the other appointments *)

Lemma con_clave_presente n (l : list Citas.Fila.t) :
  (∃ r, r ∈ l ∧ Citas.Fila.id r = n) →
  ∃ r l', Citas.con_clave n l = r :: l' ∧ r ∈ l ∧ Citas.Fila.id r = n.
Proof.
  intros (r & Hr & Hn).
  assert (r ∈ Citas.con_clave n l) as Hin by (by apply list_elem_of_filter).
  destruct (Citas.con_clave n l) as [|r' l'] eqn:E; [by apply not_elem_of_nil in Hin|].
  assert (r' ∈ Citas.con_clave n l) as Hin' by (rewrite E; apply list_elem_of_here).
  apply list_elem_of_filter in Hin' as [? ?]. eauto.
Qed.

(** X8.  PUT /api/citas/:id runs no conflict check: when the body carries
    the date and time of a slot that another appointment holds, and a
    status other than cancelled, the update of an existing appointment is
    answered 200 and afterwards two rows hold the same slot. *)
Theorem X8_PUT_puede_duplicar_la_ranura
    (m : Sql.motor) (di : Z → option Z) (e : Citas.entorno) (id : string) (n : Z)
    (b : Citas.Cuerpo.t) (t : Citas.tabla) (r1 r2 : Citas.Fila.t) (f h : Z) (s : string) :
  Sql.entero_de_texto m id = Bien n →
  r1 ∈ Citas.filas t → Citas.Fila.id r1 = n →
  r2 ∈ Citas.filas t → Citas.Fila.id r2 ≠ n →
  Citas_inv.ranura r2 = Some (f, h) →
  Citas_voc.lee_ranura m b f h →
  Sql.parametro (Citas.Cuerpo.estado b) = Some s → s ≠ Citas.cancelada →
  Citas.status (Citas.servir m di e (Citas.PUT_cita id b) t).1 = 200
  ∧ ¬ Citas_inv.sin_doble_reserva (Citas.servir m di e (Citas.PUT_cita id b) t).2.
Proof.
  intros Hid H1 Hn1 H2 Hn2 Hr2 [Hf Hh] Hs Hne.
  rewrite servir_PUT, Hf, Hh, Hid. cbn [fst snd].
  destruct (con_clave_presente n (Citas.filas t)) as (r & l' & -> & _ & _); [by eauto|].
  split; [done|]. intros Hinv.
  apply list_elem_of_lookup in H1 as [i Hi]. apply list_elem_of_lookup in H2 as [j Hj].
  assert (i ≠ j) as Hij by (intros ->; congruence).
  apply (Hinv i j (Citas.reemplazar e b (Some f) (Some h) r1) r2 (f, h) Hij);
    cbn [Citas.filas].
  - unfold Citas.poner_en_clave. rewrite list_lookup_fmap, Hi. simpl.
    by rewrite decide_True.
  - unfold Citas.poner_en_clave. rewrite list_lookup_fmap, Hj. simpl.
    by rewrite decide_False.
  - apply ranura_Some. simpl. rewrite Hs. eauto.
  - done.
Qed.

Lemma X8_PUT_puede_duplicar_la_ranura_witness :
  let t := Citas.correr Ejemplos.motor Ejemplos.por_defecto
             [(Ejemplos.manana, Citas.POST_citas Ejemplos.ana);
              (Ejemplos.tarde, Citas.DELETE_cita "1");
              (Ejemplos.tarde, Citas.POST_citas Ejemplos.luis)]
             Ejemplos.vacia in
  Citas_inv.sin_doble_reserva t
  ∧ Citas.status
      (Citas.servir Ejemplos.motor Ejemplos.por_defecto Ejemplos.noche
         (Citas.PUT_cita "1" Ejemplos.ana_confirmada) t).1 = 200
  ∧ ¬ Citas_inv.sin_doble_reserva
        (Citas.servir Ejemplos.motor Ejemplos.por_defecto Ejemplos.noche
           (Citas.PUT_cita "1" Ejemplos.ana_confirmada) t).2.
Proof.
  intros t. split.
  - subst t. cbn [Citas.correr].
    do 3 (apply sin_doble_reserva_servir; [discriminate|]).
    intros i j r1 r2 x _ H1. change ([] !! i = Some r1) in H1.
    by rewrite lookup_nil in H1.
  - eapply (X8_PUT_puede_duplicar_la_ranura Ejemplos.motor Ejemplos.por_defecto
              Ejemplos.noche "1" 1
              Ejemplos.ana_confirmada t _ _ 20250601 36000 "confirmada").
    + reflexivity.
    + apply list_elem_of_here.
    + reflexivity.
    + apply list_elem_of_further, list_elem_of_here.
    + discriminate.
    + reflexivity.
    + split; reflexivity.
    + reflexivity.
    + discriminate.
Defined.

(** ** X9: the same request twice *)

Lemma poner_en_clave_ext n f g (l : list Citas.Fila.t) :
  (∀ r, f r = g r) → Citas.poner_en_clave n f l = Citas.poner_en_clave n g l.
Proof.
  intros H. unfold Citas.poner_en_clave. apply list_fmap_ext.
  intros i r _. simpl. destruct (decide _); [apply H|done].
Qed.

(** X9.  Cancelling an appointment that an earlier DELETE already
    cancelled gives the response and the table that the later request alone
    would have given: a second DELETE is answered 200 again.  So does
    updating an appointment that an earlier PUT already updated, when the
    engine reads the date and the time of the later body: of two such PUTs
    on one id the last one wins in every column.  When the engine rejects
    the date or the time of the later body, the later PUT is answered 500
    and the table stays as the earlier request left it. *)
Theorem X9_la_ultima_escritura_gana
    (m : Sql.motor) (di : Z → option Z) (e1 e2 : Citas.entorno) (id : string)
    (b1 b2 : Citas.Cuerpo.t) (t : Citas.tabla) :
  Citas.servir m di e2 (Citas.DELETE_cita id)
    (Citas.servir m di e1 (Citas.DELETE_cita id) t).2
  = Citas.servir m di e2 (Citas.DELETE_cita id) t
  ∧ (∀ fv hv, Citas_inv.lee_columnas m b2 fv hv →
       Citas.servir m di e2 (Citas.PUT_cita id b2)
         (Citas.servir m di e1 (Citas.PUT_cita id b1) t).2
       = Citas.servir m di e2 (Citas.PUT_cita id b2) t)
  ∧ (Citas_voc.rechaza_ranura m b2 →
       Citas.servir m di e2 (Citas.PUT_cita id b2)
         (Citas.servir m di e1 (Citas.PUT_cita id b1) t).2
       = (Citas.Responder 500 (Citas.Error "Error al actualizar la cita"),
          (Citas.servir m di e1 (Citas.PUT_cita id b1) t).2)).
Proof.
  split; [|split].
  - rewrite !servir_DELETE. destruct (Sql.entero_de_texto m id) as [n|]; [|done].
    cbn [snd Citas.filas Citas.siguiente_id].
    rewrite con_clave_poner_en_clave, poner_en_clave_dos by done.
    rewrite (poner_en_clave_ext n (Citas.cancelar e2 ∘ Citas.cancelar e1)
               (Citas.cancelar e2)) by done.
    by destruct (Citas.con_clave n (Citas.filas t)).
  - intros fv hv [Hf Hh]. rewrite !servir_PUT, Hf, Hh.
    destruct (Sql.entero_de_texto m id) as [n|].
    2:{ by destruct (Citas_voc.fecha_leida m b1), (Citas_voc.hora_leida m b1). }
    destruct (Citas_voc.fecha_leida m b1) as [fv1|]; [|done].
    destruct (Citas_voc.hora_leida m b1) as [hv1|]; [|done].
    cbn [snd Citas.filas Citas.siguiente_id].
    rewrite con_clave_poner_en_clave, poner_en_clave_dos by done.
    rewrite (poner_en_clave_ext n
               (Citas.reemplazar e2 b2 fv hv ∘ Citas.reemplazar e1 b1 fv1 hv1)
               (Citas.reemplazar e2 b2 fv hv)) by done.
    by destruct (Citas.con_clave n (Citas.filas t)).
  - intros [[msg Hr]|[msg Hr]]; rewrite (servir_PUT m di e2), Hr; [done|].
    by destruct (Citas_voc.fecha_leida m b2).
Qed.

(** ** X10: an update is read back *)

(** X10.  PUT /api/citas/:id on an existing id, with a body whose date
    and time the engine reads, answers 200 with the row made of that id,
    the date and the time as the engine read them, the other values of the
    body (absent fields as NULL, the status included) and the current
    timestamp; GET /api/citas/:id then answers 200 with the same row; every
    row of that id is that row afterwards, and the rows of other ids are
    kept. *)
Theorem X10_actualizada_y_leida
    (m : Sql.motor) (di : Z → option Z) (e e2 : Citas.entorno) (id : string) (n : Z)
    (b : Citas.Cuerpo.t) (fv hv : option Z) (t : Citas.tabla) :
  Sql.entero_de_texto m id = Bien n →
  Citas_inv.lee_columnas m b fv hv →
  (∃ r, r ∈ Citas.filas t ∧ Citas.Fila.id r = n) →
  let res := Citas.servir m di e (Citas.PUT_cita id b) t in
  res.1 = Citas.Responder 200 (Citas.UnaFila (Citas_inv.fila_de_cuerpo e b fv hv n))
  ∧ Citas.servir m di e2 (Citas.GET_cita id) res.2
    = (Citas.Responder 200 (Citas.UnaFila (Citas_inv.fila_de_cuerpo e b fv hv n)), res.2)
  ∧ (∀ c, c ∈ Citas.filas res.2 → Citas.Fila.id c = n →
          c = Citas_inv.fila_de_cuerpo e b fv hv n)
  ∧ (∀ c, c ∈ Citas.filas t → Citas.Fila.id c ≠ n → c ∈ Citas.filas res.2).
Proof.
  intros Hid [Hf Hh] Hex res. subst res.
  rewrite servir_GET_cita, servir_PUT, Hf, Hh, Hid.
  cbn [fst snd Citas.filas].
  rewrite con_clave_poner_en_clave by done.
  destruct (con_clave_presente n _ Hex) as (r & l' & -> & Hr & Hn).
  assert (Citas.reemplazar e b fv hv r = Citas_inv.fila_de_cuerpo e b fv hv n) as Hfila.
  { unfold Citas.reemplazar, Citas_inv.fila_de_cuerpo. by rewrite Hn. }
  rewrite fmap_cons, !Hfila.
  split; [done|]. split; [done|]. split.
  - intros c (r' & Hr' & ->)%elem_of_poner_en_clave Hc.
    destruct (decide (Citas.Fila.id r' = n)) as [E|E]; [|done].
    unfold Citas.reemplazar, Citas_inv.fila_de_cuerpo. by rewrite E.
  - intros c Hc Hne. apply elem_of_poner_en_clave. exists c.
    by rewrite decide_False.
Qed.

Lemma X10_actualizada_y_leida_witness :
  Citas.servir Ejemplos.motor Ejemplos.por_defecto Ejemplos.noche (Citas.GET_cita "1")
    (Citas.servir Ejemplos.motor Ejemplos.por_defecto Ejemplos.tarde
       (Citas.PUT_cita "1" Ejemplos.luis) Ejemplos.con_ana).2
  = (Citas.Responder 200
       (Citas.UnaFila
          (Citas_inv.fila_de_cuerpo Ejemplos.tarde Ejemplos.luis
             (Some 20250601) (Some 36000) 1)),
     (Citas.servir Ejemplos.motor Ejemplos.por_defecto Ejemplos.tarde
        (Citas.PUT_cita "1" Ejemplos.luis) Ejemplos.con_ana).2)
  ∧ Citas.Fila.estado
      (Citas_inv.fila_de_cuerpo Ejemplos.tarde Ejemplos.luis
         (Some 20250601) (Some 36000) 1) = None.
Proof.
  assert (∃ r, r ∈ Citas.filas Ejemplos.con_ana ∧ Citas.Fila.id r = 1) as Hex.
  { eexists. split; [apply list_elem_of_here|reflexivity]. }
  destruct (X10_actualizada_y_leida Ejemplos.motor Ejemplos.por_defecto Ejemplos.tarde
              Ejemplos.noche "1" 1 Ejemplos.luis (Some 20250601) (Some 36000)
              Ejemplos.con_ana eq_refl (conj eq_refl eq_refl) Hex) as (_ & H & _).
  split; [exact H|reflexivity].
Defined.

(** ** X11: the handler of the pending list, taken alone *)

(** X11.  The handler registered for GET /api/citas/pendientes, when it is
    run, answers 200 with exactly the rows whose status is confirmed and
    whose date is today or later, each as often as it is in the table,
    ordered by date and then time; rows that are cancelled, of NULL status,
    of NULL date or dated before today are left out, and the table is not
    changed. *)
Theorem X11_pendientes_confirmadas_desde_hoy
    (e : Citas.entorno) (t : Citas.tabla) (consola : list linea) :
  ∃ rows,
    Citas.citas_pendientes e (Mundo t consola)
      = (Bien (Citas.Responder 200 (Citas.Filas rows)), Mundo t consola)
    ∧ rows ≡ₚ filter (λ c, Citas.pendiente e c) (Citas.filas t)
    ∧ StronglySorted Citas.por_fecha_hora rows
    ∧ (∀ c, c ∈ rows ↔
            c ∈ Citas.filas t
            ∧ Citas.Fila.estado c = Some Citas.confirmada
            ∧ ∃ f, Citas.Fila.fecha c = Some f ∧ (Citas.hoy e ≤ f)%Z)
    ∧ (∀ c, c ∈ rows → Citas.Fila.estado c ≠ Some Citas.cancelada).
Proof.
  eexists. split; [reflexivity|].
  split; [apply merge_sort_Permutation|].
  split; [apply (StronglySorted_merge_sort _)|].
  assert (∀ c, c ∈ merge_sort Citas.por_fecha_hora
                     (filter (λ c, Citas.pendiente e c) (Citas.filas t))
               ↔ c ∈ Citas.filas t
                 ∧ Citas.Fila.estado c = Some Citas.confirmada
                 ∧ ∃ f, Citas.Fila.fecha c = Some f ∧ (Citas.hoy e ≤ f)%Z) as Hin.
  { intros c. rewrite merge_sort_Permutation, list_elem_of_filter, pendiente_true. tauto. }
  split; [done|].
  intros c (_ & Hc & _)%Hin. rewrite Hc. discriminate.
Qed.

(** ** Simplified variant: rows of a key *)

Section Gratuitas_claves.
Import Gratuitas Gratuitas_voc Gratuitas_inv.

Lemma g_con_clave_ausente n (l : list Fila.t) :
  (∀ c, c ∈ l → Fila.id c ≠ n) → con_clave n l = [].
Proof.
  intros H. induction l as [|c l IH]; [done|].
  unfold con_clave in *. rewrite filter_cons.
  destruct (decide (Fila.id c = n)) as [E|_].
  - exfalso. by apply (H c); [apply list_elem_of_here|].
  - apply IH. intros c' Hc'. apply H. by apply list_elem_of_further.
Qed.

Lemma g_poner_en_clave_ausente n f (l : list Fila.t) :
  (∀ c, c ∈ l → Fila.id c ≠ n) → poner_en_clave n f l = l.
Proof.
  intros H. induction l as [|c l IH]; [done|].
  unfold poner_en_clave in *. rewrite fmap_cons.
  rewrite IH by (intros c' Hc'; apply H; by apply list_elem_of_further).
  rewrite decide_False; [done|]. apply H, list_elem_of_here.
Qed.

Lemma g_borrar_ausente n (l : list Fila.t) :
  (∀ c, c ∈ l → Fila.id c ≠ n) → filter (λ r, Fila.id r ≠ n) l = l.
Proof.
  intros H. induction l as [|c l IH]; [done|].
  rewrite filter_cons, decide_True by apply H, list_elem_of_here.
  f_equal. apply IH. intros c' Hc'. apply H. by apply list_elem_of_further.
Qed.

Lemma g_con_clave_poner_en_clave n f (l : list Fila.t) :
  (∀ r, Fila.id (f r) = Fila.id r) →
  con_clave n (poner_en_clave n f l) = f <$> con_clave n l.
Proof.
  intros Hf. induction l as [|c l IH]; [done|].
  unfold con_clave, poner_en_clave in *. rewrite fmap_cons, !filter_cons.
  destruct (decide (Fila.id c = n)) as [E|E].
  - rewrite decide_True by (by rewrite Hf). by rewrite fmap_cons, IH.
  - by rewrite decide_False.
Qed.

(** Rewriting the rows of two keys, in either order. *)
Lemma g_poner_en_clave_conmuta n1 n2 f1 f2 (l : list Fila.t) :
  (∀ r, Fila.id (f1 r) = Fila.id r) → (∀ r, Fila.id (f2 r) = Fila.id r) →
  (∀ r, f1 (f2 r) = f2 (f1 r)) →
  poner_en_clave n1 f1 (poner_en_clave n2 f2 l)
  = poner_en_clave n2 f2 (poner_en_clave n1 f1 l).
Proof.
  intros H1 H2 H12. unfold poner_en_clave. rewrite <- !list_fmap_compose.
  apply list_fmap_ext. intros i r _. simpl.
  destruct (decide (Fila.id r = n1)) as [E1|E1],
           (decide (Fila.id r = n2)) as [E2|E2];
    repeat (rewrite decide_True by (by rewrite ?H1, ?H2));
    repeat (rewrite decide_False by (by rewrite ?H1, ?H2));
    done.
Qed.

Lemma g_poner_en_clave_idem n f (l : list Fila.t) :
  (∀ r, Fila.id (f r) = Fila.id r) → (∀ r, f (f r) = f r) →
  poner_en_clave n f (poner_en_clave n f l) = poner_en_clave n f l.
Proof.
  intros Hid Hf. unfold poner_en_clave. rewrite <- list_fmap_compose.
  apply list_fmap_ext. intros i r _. simpl.
  destruct (decide (Fila.id r = n)) as [E|E].
  - rewrite decide_True by (by rewrite Hid). apply Hf.
  - by rewrite decide_False.
Qed.

Lemma marcar_conmuta c1 c2 r : marcar c1 (marcar c2 r) = marcar c2 (marcar c1 r).
Proof. by destruct c1, c2. Qed.

Lemma marcar_idem c r : marcar c (marcar c r) = marcar c r.
Proof. by destruct c. Qed.

Lemma es_cadena_true (v : JS.valor) (lit : string) :
  JS.es_cadena v lit = true ↔ v = JS.Cadena lit.
Proof.
  unfold JS.es_cadena. destruct v as [| | | |s]; try (split; discriminate).
  rewrite bool_decide_eq_true. split; congruence.
Qed.

(** The guard of the flag route, by cases. *)
Lemma guarda_marcar (v : JS.valor) :
  JS.no v || negb (tipo_reconocido v) = false
  ↔ v = JS.Cadena "24h" ∨ v = JS.Cadena "2h" ∨ v = JS.Cadena "post".
Proof.
  split.
  - intros [_ G]%orb_false_iff. apply negb_false_iff in G.
    unfold tipo_reconocido in G. rewrite !orb_true_iff, !es_cadena_true in G. tauto.
  - intros [->|[->| ->]]; reflexivity.
Qed.

Lemma servir_marcar_invalido m id b t :
  Cuerpo.tipo b ≠ JS.Cadena "24h" → Cuerpo.tipo b ≠ JS.Cadena "2h" →
  Cuerpo.tipo b ≠ JS.Cadena "post" →
  servir (marcar_recordatorio m id b) t
  = (Responder 400 false
       (Some "Tipo de recordatorio inválido. Debe ser: 24h, 2h o post") SinDatos None, t).
Proof.
  intros H1 H2 H3. unfold marcar_recordatorio.
  destruct (JS.no (Cuerpo.tipo b) || negb (tipo_reconocido (Cuerpo.tipo b))) eqn:G.
  - by destruct t.
  - apply guarda_marcar in G as [?|[?|?]]; done.
Qed.

Lemma servir_eliminar_todas t :
  servir eliminar_todas t
  = (Responder 200 true
       (Some (pretty (length (filas t)) ++ " citas eliminadas exitosamente")) SinDatos None,
     Tabla [] (siguiente_id t)).
Proof. by destruct t. Qed.

End Gratuitas_claves.

(** ** X12: a deleted appointment is gone *)

(** X12.  DELETE /api/citas/:id of the simplified server, on an id that
    the engine reads as a key: when a row has the key, the answer is 200
    with a row of that key taken from the table; when none has, it is 404
    and the table is unchanged.  In both cases the table afterwards holds
    exactly the rows of other keys, in their order, and from then on
    deleting the id again, resetting its flags and marking a reminder on it
    are each answered 404 and change nothing.  On an id that the engine
    rejects the answer is 500 with the message of the engine, and the table
    is unchanged. *)
Theorem X12_eliminada_para_siempre
    (m : Sql.motor) (e e' : Gratuitas.entorno) (id : string) (b : Gratuitas.Cuerpo.t)
    (t : Gratuitas.tabla) :
  let res := Gratuitas.servir (Gratuitas.eliminar_cita m e id) t in
  let no_encontrada :=
    Gratuitas.Responder 404 false (Some "Cita no encontrada") Gratuitas.SinDatos None in
  (∀ n, Sql.entero_de_texto m id = Bien n →
     ((∃ r, r ∈ Gratuitas.filas t ∧ Gratuitas.Fila.id r = n) →
      ∃ c, res.1 = Gratuitas.Responder 200 true (Some "Cita eliminada exitosamente")
                     (Gratuitas.Dato c) None
           ∧ c ∈ Gratuitas.filas t ∧ Gratuitas.Fila.id c = n)
     ∧ ((∀ c, c ∈ Gratuitas.filas t → Gratuitas.Fila.id c ≠ n) →
        res = (no_encontrada, t))
     ∧ Gratuitas.filas res.2 = filter (λ r, Gratuitas.Fila.id r ≠ n) (Gratuitas.filas t)
     ∧ Gratuitas.servir (Gratuitas.eliminar_cita m e' id) res.2 = (no_encontrada, res.2)
     ∧ Gratuitas.servir (Gratuitas.reset_flags m id) res.2 = (no_encontrada, res.2)
     ∧ (Gratuitas.tipo_reconocido (Gratuitas.Cuerpo.tipo b) = true →
        Gratuitas.servir (Gratuitas.marcar_recordatorio m id b) res.2
        = (no_encontrada, res.2)))
  ∧ (∀ msg, Sql.entero_de_texto m id = Lanza msg →
       res = (Gratuitas.Responder 500 false (Some "Error al eliminar la cita")
                Gratuitas.SinDatos (Some msg), t)).
Proof.
  intros res no_encontrada. subst res no_encontrada. split.
  2:{ intros msg Hid. by rewrite servir_eliminar, Hid. }
  intros n Hid.
  rewrite servir_eliminar, Hid. cbn [fst snd Gratuitas.filas].
  assert (∀ c, c ∈ filter (λ r, Gratuitas.Fila.id r ≠ n) (Gratuitas.filas t) →
               Gratuitas.Fila.id c ≠ n) as Hfuera.
  { by intros c [? _]%list_elem_of_filter. }
  split; [|split; [|split; [done|split; [|split]]]].
  - intros Hex. destruct (con_clave_no_vacia n _ Hex) as (r & l' & -> & Hr & Hn). eauto.
  - intros Hno. rewrite (g_con_clave_ausente n _ Hno), (g_borrar_ausente n _ Hno).
    by destruct t.
  - rewrite servir_eliminar, Hid. cbn [Gratuitas.filas Gratuitas.siguiente_id].
    by rewrite (g_con_clave_ausente n _ Hfuera), (g_borrar_ausente n _ Hfuera).
  - rewrite servir_reset_flags, Hid. cbn [Gratuitas.filas Gratuitas.siguiente_id].
    by rewrite (g_con_clave_ausente n _ Hfuera), (g_poner_en_clave_ausente n _ _ Hfuera).
  - intros Hrec. rewrite (servir_marcar_recordatorio m id b _ Hrec), Hid.
    cbn [Gratuitas.filas Gratuitas.siguiente_id].
    by rewrite (g_con_clave_ausente n _ Hfuera), (g_poner_en_clave_ausente n _ _ Hfuera).
Qed.

Lemma X12_eliminada_para_siempre_witness :
  Gratuitas.Fila.id <$>
    Gratuitas.filas
      (Gratuitas.servir (Gratuitas.eliminar_cita Ejemplos.motor Ejemplos.sin_red " 1")
         Ejemplos.dos_citas).2 = [2]
  ∧ Gratuitas.status
      (Gratuitas.servir (Gratuitas.reset_flags Ejemplos.motor " 1")
         (Gratuitas.servir (Gratuitas.eliminar_cita Ejemplos.motor Ejemplos.sin_red " 1")
            Ejemplos.dos_citas).2).1 = 404
  ∧ Gratuitas.servir
      (Gratuitas.eliminar_cita Ejemplos.motor Ejemplos.sin_red "99999999999999999999")
      Ejemplos.dos_citas
    = (Gratuitas.Responder 500 false (Some "Error al eliminar la cita") Gratuitas.SinDatos
         (Some "value out of range for type integer"), Ejemplos.dos_citas).
Proof.
  destruct (X12_eliminada_para_siempre Ejemplos.motor Ejemplos.sin_red Ejemplos.con_webhook
              " 1" (Ejemplos.marca "2h") Ejemplos.dos_citas) as [H _].
  destruct (H 1 eq_refl) as (_ & _ & Hf & _ & Hr & _).
  destruct (X12_eliminada_para_siempre Ejemplos.motor Ejemplos.sin_red Ejemplos.con_webhook
              "99999999999999999999" (Ejemplos.marca "2h") Ejemplos.dos_citas) as [_ H500].
  split; [by rewrite Hf|]. split; [by rewrite Hr|]. apply (H500 _ eq_refl).
Defined.

(** ** X13: deleting everything *)

(** X13.  DELETE /api/citas of the simplified server answers 200 with a
    message that counts the rows there were and leaves the table empty,
    whatever it held, and the id sequence where it was.  Afterwards the
    listing is empty, the bulk reset answers with no rows, a deletion by an
    id that the engine reads as a key is answered 404 and one by an id that
    the engine rejects 500; and a creation then gets an id that no row of
    the table had, when the ids of the table were drawn from the
    sequence. *)
Theorem X13_eliminar_todas_vacia_la_tabla
    (m : Sql.motor) (di : Z → option Z) (e : Gratuitas.entorno) (id : string)
    (b : Gratuitas.Cuerpo.t) (t : Gratuitas.tabla) :
  let res := Gratuitas.servir Gratuitas.eliminar_todas t in
  res.1 = Gratuitas.Responder 200 true
            (Some (pretty (length (Gratuitas.filas t)) ++ " citas eliminadas exitosamente"))
            Gratuitas.SinDatos None
  ∧ Gratuitas.filas res.2 = []
  ∧ Gratuitas.siguiente_id res.2 = Gratuitas.siguiente_id t
  ∧ Gratuitas.servir Gratuitas.obtener_citas res.2
    = (Gratuitas.Responder 200 true None (Gratuitas.Datos []) None, res.2)
  ∧ Gratuitas.servir Gratuitas.reset_flags_all res.2
    = (Gratuitas.Responder 200 true (Some "Flags reseteados para 0 citas")
         (Gratuitas.Datos []) None, res.2)
  ∧ (∀ n, Sql.entero_de_texto m id = Bien n →
       Gratuitas.servir (Gratuitas.eliminar_cita m e id) res.2
       = (Gratuitas.Responder 404 false (Some "Cita no encontrada") Gratuitas.SinDatos None,
          res.2))
  ∧ (∀ msg, Sql.entero_de_texto m id = Lanza msg →
       Gratuitas.servir (Gratuitas.eliminar_cita m e id) res.2
       = (Gratuitas.Responder 500 false (Some "Error al eliminar la cita")
            Gratuitas.SinDatos (Some msg), res.2))
  ∧ (Gratuitas_inv.ids_de_la_secuencia t →
     ∀ c, Gratuitas.data (Gratuitas.servir (Gratuitas.crear_cita di e b) res.2).1
          = Gratuitas.Dato c →
          Gratuitas.filas (Gratuitas.servir (Gratuitas.crear_cita di e b) res.2).2 = [c]
          ∧ ∀ r, r ∈ Gratuitas.filas t → Gratuitas.Fila.id r ≠ Gratuitas.Fila.id c).
Proof.
  intros res. subst res. rewrite servir_eliminar_todas. cbn [fst snd Gratuitas.filas].
  split; [done|]. split; [done|]. split; [done|]. split; [done|]. split; [done|].
  split; [|split].
  - intros n Hid. by rewrite servir_eliminar, Hid.
  - intros msg Hid. by rewrite servir_eliminar, Hid.
  - intros Hids c. rewrite servir_crear.
    destruct (_ || _); [discriminate|].
    destruct (Gratuitas.calcular_fecha e _) as [fc|]; [|discriminate].
    cbv zeta. cbn [fst snd Gratuitas.data Gratuitas.filas Gratuitas.siguiente_id].
    intros [= <-]. split; [done|]. intros r Hr. cbn [Gratuitas.fila_nueva Gratuitas.Fila.id].
    unfold Gratuitas_inv.ids_de_la_secuencia in Hids.
    rewrite Forall_forall in Hids. specialize (Hids r Hr). lia.
Qed.

(** ** X14: resetting the flags of one appointment *)

(** X14.  PATCH /api/citas/:id/reset-flags on an existing id answers 200
    with a row of that id whose three flags are false, whatever they were;
    every row of that id has its three flags false afterwards and its other
    columns as before, and every other row is unchanged. *)
Theorem X14_reset_de_una_cita
    (m : Sql.motor) (id : string) (n : Z) (t : Gratuitas.tabla) :
  Sql.entero_de_texto m id = Bien n →
  (∃ r, r ∈ Gratuitas.filas t ∧ Gratuitas.Fila.id r = n) →
  let res := Gratuitas.servir (Gratuitas.reset_flags m id) t in
  (∃ r', res.1 = Gratuitas.Responder 200 true (Some "Flags reseteados exitosamente")
                   (Gratuitas.Dato r') None
         ∧ r' ∈ Gratuitas.filas res.2 ∧ Gratuitas.Fila.id r' = n
         ∧ Gratuitas_voc.flags r' = (false, false, false))
  ∧ length (Gratuitas.filas res.2) = length (Gratuitas.filas t)
  ∧ ∀ i r, Gratuitas.filas t !! i = Some r →
      ∃ r', Gratuitas.filas res.2 !! i = Some r'
        ∧ (Gratuitas.Fila.id r ≠ n → r' = r)
        ∧ (Gratuitas.Fila.id r = n →
           Gratuitas_voc.mismos_datos r r'
           ∧ Gratuitas_voc.flags r' = (false, false, false)).
Proof.
  intros Hid Hex res. subst res. rewrite servir_reset_flags, Hid.
  destruct (con_clave_no_vacia n _ Hex) as (r0 & l' & -> & Hr0 & Hn0).
  cbn [fst snd Gratuitas.filas].
  split; [|split; [apply length_fmap|]].
  - eexists. split; [reflexivity|]. split; [|done].
    apply list_elem_of_fmap. exists r0. by rewrite decide_True.
  - intros i r Hi. rewrite lookup_poner_en_clave, Hi. simpl.
    eexists. split; [reflexivity|].
    destruct (decide (Gratuitas.Fila.id r = n)) as [Hr|Hr]; split; done.
Qed.

Lemma X14_reset_de_una_cita_witness :
  Gratuitas_voc.flags <$>
    Gratuitas.filas
      (Gratuitas.servir (Gratuitas.reset_flags Ejemplos.motor "2") Ejemplos.dos_citas).2
  = [(false, false, false); (false, false, false)]
  ∧ length (Gratuitas.filas
              (Gratuitas.servir (Gratuitas.reset_flags Ejemplos.motor "2")
                 Ejemplos.dos_citas).2) = 2%nat.
Proof.
  assert (∃ r, r ∈ Gratuitas.filas Ejemplos.dos_citas ∧ Gratuitas.Fila.id r = 2) as Hex.
  { eexists. split; [apply list_elem_of_further, list_elem_of_here|reflexivity]. }
  destruct (X14_reset_de_una_cita Ejemplos.motor "2" 2 Ejemplos.dos_citas eq_refl Hex)
    as (_ & Hl & _).
  split; [reflexivity|exact Hl].
Defined.

(** ** X15: marking in any order, marking twice *)

Section Gratuitas_marcas.
Import Gratuitas Gratuitas_voc Gratuitas_inv.

(** The table after the flag route, whatever the request. *)
Lemma tabla_tras_marcar m id b :
  (∀ t, (servir (marcar_recordatorio m id b) t).2 = t)
  ∨ ∃ n, Sql.entero_de_texto m id = Bien n
         ∧ tipo_reconocido (Cuerpo.tipo b) = true
         ∧ ∀ t, (servir (marcar_recordatorio m id b) t).2
                = Tabla (poner_en_clave n (marcar (columna_de (Cuerpo.tipo b))) (filas t))
                        (siguiente_id t).
Proof.
  destruct (tipo_reconocido (Cuerpo.tipo b)) eqn:Hrec.
  - destruct (Sql.entero_de_texto m id) as [n|] eqn:Hid.
    + right. exists n. split; [done|]. split; [done|]. intros t.
      by rewrite (servir_marcar_recordatorio m id b t Hrec), Hid.
    + left. intros t. by rewrite (servir_marcar_recordatorio m id b t Hrec), Hid.
  - left. intros t. unfold marcar_recordatorio. rewrite Hrec, orb_true_r. by destruct t.
Qed.

Lemma marcar_id c r : Fila.id (marcar c r) = Fila.id r.
Proof. done. Qed.

End Gratuitas_marcas.

(** X15.  Marking a reminder twice gives the response and the table of
    marking it once; and two marking requests, on the same appointment or
    on two, with the same reminder or with two, leave the same table in
    either order. *)
Theorem X15_marcar_idempotente_y_conmutativo
    (m : Sql.motor) (id1 id2 : string) (b1 b2 : Gratuitas.Cuerpo.t) (t : Gratuitas.tabla) :
  Gratuitas.servir (Gratuitas.marcar_recordatorio m id1 b1)
    (Gratuitas.servir (Gratuitas.marcar_recordatorio m id1 b1) t).2
  = Gratuitas.servir (Gratuitas.marcar_recordatorio m id1 b1) t
  ∧ (Gratuitas.servir (Gratuitas.marcar_recordatorio m id2 b2)
       (Gratuitas.servir (Gratuitas.marcar_recordatorio m id1 b1) t).2).2
    = (Gratuitas.servir (Gratuitas.marcar_recordatorio m id1 b1)
         (Gratuitas.servir (Gratuitas.marcar_recordatorio m id2 b2) t).2).2.
Proof.
  split.
  - destruct (Gratuitas.tipo_reconocido (Gratuitas.Cuerpo.tipo b1)) eqn:Hrec.
    + rewrite !(servir_marcar_recordatorio m id1 b1 _ Hrec).
      destruct (Sql.entero_de_texto m id1) as [n|]; [|done].
      cbn [snd Gratuitas.filas Gratuitas.siguiente_id].
      rewrite g_con_clave_poner_en_clave by done.
      rewrite g_poner_en_clave_idem by (done || apply marcar_idem).
      destruct (Gratuitas.con_clave n (Gratuitas.filas t)) as [|r l]; [done|].
      by rewrite fmap_cons, marcar_idem.
    + unfold Gratuitas.marcar_recordatorio. rewrite Hrec, orb_true_r. by destruct t.
  - destruct (tabla_tras_marcar m id1 b1) as [E1|(n1 & _ & _ & E1)];
      destruct (tabla_tras_marcar m id2 b2) as [E2|(n2 & _ & _ & E2)];
      rewrite !E1, !E2; try done.
    cbn [Gratuitas.filas Gratuitas.siguiente_id]. f_equal.
    apply g_poner_en_clave_conmuta; try done. intros r. apply marcar_conmuta.
Qed.

(** ** X16: what the flag routes keep *)

Section Gratuitas_corridas.
Import Gratuitas Gratuitas_voc Gratuitas_inv.

Lemma mismos_datos_trans r1 r2 r3 :
  mismos_datos r1 r2 → mismos_datos r2 r3 → mismos_datos r1 r3.
Proof. unfold mismos_datos. intuition congruence. Qed.

Lemma flags_incluidos_trans r1 r2 r3 :
  flags_incluidos r1 r2 → flags_incluidos r2 r3 → flags_incluidos r1 r3.
Proof. unfold flags_incluidos. intuition. Qed.

(** One request of the reminder API rewrites every row by one function
    that keeps the other columns, and that only adds flags when the request
    is a marking. *)
Lemma paso_de_flags m o t :
  ∃ g, filas (servir (manejador_de m o) t).2 = g <$> filas t
       ∧ ∀ r, mismos_datos r (g r) ∧ (solo_marcar o → flags_incluidos r (g r)).
Proof.
  destruct o as [id b|id|]; cbn [manejador_de].
  - destruct (tabla_tras_marcar m id b) as [E|(n & _ & _ & E)]; rewrite E.
    + exists (λ r, r). split; [by rewrite list_fmap_id|].
      intros r. split; [apply mismos_datos_refl|]. by intros _.
    + eexists. split; [reflexivity|]. intros r. simpl.
      destruct (decide (Fila.id r = n)).
      * split; [by repeat split|]. intros _.
        unfold flags_incluidos. by destruct (columna_de _).
      * split; [apply mismos_datos_refl|]. by intros _.
  - rewrite servir_reset_flags. destruct (Sql.entero_de_texto m id) as [n|].
    + eexists. split; [reflexivity|]. intros r. simpl.
      destruct (decide (Fila.id r = n)); split; try done; by repeat split.
    + exists (λ r, r). split; [by rewrite list_fmap_id|].
      intros r. split; [apply mismos_datos_refl|done].
  - rewrite servir_reset_flags_all. exists sin_flags. split; [done|].
    intros r. split; [by repeat split|done].
Qed.

End Gratuitas_corridas.

(** X16.  Along any run of reminder requests (marking, resetting one,
    resetting all) the table keeps its rows: as many, in the same places,
    each with the columns other than the flags as before.  Along a run of
    marking requests only, no flag that was true becomes false. *)
Theorem X16_los_flags_no_tocan_lo_demas
    (m : Sql.motor) (os : list Gratuitas_inv.operacion) (t : Gratuitas.tabla) :
  length (Gratuitas.filas (Gratuitas_inv.correr m os t)) = length (Gratuitas.filas t)
  ∧ ∀ i r, Gratuitas.filas t !! i = Some r →
      ∃ r', Gratuitas.filas (Gratuitas_inv.correr m os t) !! i = Some r'
        ∧ Gratuitas_voc.mismos_datos r r'
        ∧ (Forall Gratuitas_inv.solo_marcar os → Gratuitas_inv.flags_incluidos r r').
Proof.
  revert t. induction os as [|o os IH]; intros t.
  { split; [done|]. intros i r Hi. exists r.
    split; [done|]. split; [apply mismos_datos_refl|]. by intros _. }
  simpl. destruct (paso_de_flags m o t) as (g & Hg & Hprop).
  destruct (IH (Gratuitas.servir (Gratuitas_inv.manejador_de m o) t).2) as [Hlen Hfilas].
  split; [by rewrite Hlen, Hg, length_fmap|].
  intros i r Hi.
  destruct (Hfilas i (g r)) as (r' & Hr' & Hd & Hf).
  { by rewrite Hg, list_lookup_fmap, Hi. }
  exists r'. split; [done|]. destruct (Hprop r) as [Hd0 Hf0].
  split; [by eapply mismos_datos_trans|].
  intros [Ho Hos]%Forall_cons. eapply flags_incluidos_trans; eauto.
Qed.

Lemma X16_los_flags_no_tocan_lo_demas_witness :
  ∃ r',
    Gratuitas.filas
      (Gratuitas_inv.correr Ejemplos.motor
         [Gratuitas_inv.Marcar "2" (Ejemplos.marca "2h");
          Gratuitas_inv.Marcar "9" (Ejemplos.marca "post");
          Gratuitas_inv.Marcar "2" (Ejemplos.marca "otro")]
         Ejemplos.dos_citas) !! 1%nat = Some r'
    ∧ Gratuitas.Fila.recordatorio_24h_enviado r' = true
    ∧ Gratuitas.Fila.recordatorio_post_enviado r' = true.
Proof.
  destruct (X16_los_flags_no_tocan_lo_demas Ejemplos.motor
              [Gratuitas_inv.Marcar "2" (Ejemplos.marca "2h");
               Gratuitas_inv.Marcar "9" (Ejemplos.marca "post");
               Gratuitas_inv.Marcar "2" (Ejemplos.marca "otro")]
              Ejemplos.dos_citas) as [_ H].
  destruct (H 1%nat _ eq_refl) as (r' & Hr' & _ & Hf).
  exists r'. split; [done|].
  destruct Hf as (H24 & _ & Hpost); [by repeat constructor|].
  split; [by apply H24|by apply Hpost].
Defined.

(** ** X17: a reminder type that is not one of the three *)

(** X17.  PATCH /api/citas/:id/marcar-recordatorio answers 400 exactly when
    tipo is not one of the strings 24h, 2h, post (absent, null, a number,
    any other text), and then it runs no query: the table is unchanged,
    whatever the id, integer or not, existing or not. *)
Theorem X17_tipo_de_recordatorio_invalido
    (m : Sql.motor) (id : string) (b : Gratuitas.Cuerpo.t) (t : Gratuitas.tabla) :
  (Gratuitas.status (Gratuitas.servir (Gratuitas.marcar_recordatorio m id b) t).1 = 400
     ↔ ¬ (Gratuitas.Cuerpo.tipo b = JS.Cadena "24h"
          ∨ Gratuitas.Cuerpo.tipo b = JS.Cadena "2h"
          ∨ Gratuitas.Cuerpo.tipo b = JS.Cadena "post"))
  ∧ (Gratuitas.status (Gratuitas.servir (Gratuitas.marcar_recordatorio m id b) t).1 = 400 →
     Gratuitas.servir (Gratuitas.marcar_recordatorio m id b) t
     = (Gratuitas.Responder 400 false
          (Some "Tipo de recordatorio inválido. Debe ser: 24h, 2h o post")
          Gratuitas.SinDatos None, t)).
Proof.
  destruct (Gratuitas.tipo_reconocido (Gratuitas.Cuerpo.tipo b)) eqn:Hrec.
  - assert (Gratuitas.Cuerpo.tipo b = JS.Cadena "24h"
            ∨ Gratuitas.Cuerpo.tipo b = JS.Cadena "2h"
            ∨ Gratuitas.Cuerpo.tipo b = JS.Cadena "post") as Htipo.
    { unfold Gratuitas.tipo_reconocido in Hrec.
      rewrite !orb_true_iff, !es_cadena_true in Hrec. tauto. }
    assert (Gratuitas.status
              (Gratuitas.servir (Gratuitas.marcar_recordatorio m id b) t).1 ≠ 400) as Hst.
    { rewrite (servir_marcar_recordatorio m id b t Hrec).
      destruct (Sql.entero_de_texto m id); [|done].
      by destruct (Gratuitas.con_clave _ _). }
    split; [split; [done|tauto]|done].
  - assert (Gratuitas.servir (Gratuitas.marcar_recordatorio m id b) t
            = (Gratuitas.Responder 400 false
                 (Some "Tipo de recordatorio inválido. Debe ser: 24h, 2h o post")
                 Gratuitas.SinDatos None, t)) as E.
    { unfold Gratuitas.marcar_recordatorio. rewrite Hrec, orb_true_r. by destruct t. }
    rewrite E. split; [|done]. split; [|done]. intros _ Htipo.
    assert (Gratuitas.tipo_reconocido (Gratuitas.Cuerpo.tipo b) = true); [|congruence].
    destruct Htipo as [->|[->| ->]]; reflexivity.
Qed.

(** ** X18: the listing of the simplified server *)

(** X18.  GET /api/citas of the simplified server answers 200 with every
    row of the table, each as often as it is there, the latest appointment
    time first, and leaves the table as it was. *)
Theorem X18_listado_por_fecha_descendente (t : Gratuitas.tabla) :
  ∃ rows,
    Gratuitas.servir Gratuitas.obtener_citas t
      = (Gratuitas.Responder 200 true None (Gratuitas.Datos rows) None, t)
    ∧ rows ≡ₚ Gratuitas.filas t
    ∧ ∀ rows1 a rows2 b rows3, rows = (rows1 ++ a :: rows2 ++ b :: rows3)%list →
        (Gratuitas.Fila.fecha_cita b ≤ Gratuitas.Fila.fecha_cita a)%Z.
Proof.
  destruct (servir_obtener_citas t) as (rows & E & Hp & Hs).
  exists rows. split; [done|]. split; [done|].
  intros rows1 a rows2 b rows3 ->.
  apply StronglySorted_app in Hs as (_ & _ & Hs).
  apply StronglySorted_inv in Hs as [_ Hab].
  rewrite Forall_forall in Hab. apply Hab.
  apply elem_of_app. right. apply list_elem_of_here.
Qed.

(** ** X19: the routes of the simplified server *)

(** X19.  In the simplified server no route hides another: creation,
    deletion by id, reset by id, marking by id, the bulk reset and the bulk
    deletion each reach the handler written for them, for every id; the
    path of the bulk reset is not taken for an id. *)
Theorem X19_rutas_de_la_variante_simple (id : string) :
  Ruteo.resolver Gratuitas.rutas Ruteo.POST ["api"; "citas"]
    = Some (Gratuitas.HCrearCita, [])
  ∧ Ruteo.resolver Gratuitas.rutas Ruteo.GET ["api"; "citas"]
    = Some (Gratuitas.HObtenerCitas, [])
  ∧ Ruteo.resolver Gratuitas.rutas Ruteo.DELETE ["api"; "citas"; id]
    = Some (Gratuitas.HEliminarCita, [("id", id)])
  ∧ Ruteo.resolver Gratuitas.rutas Ruteo.PATCH ["api"; "citas"; id; "reset-flags"]
    = Some (Gratuitas.HResetFlags, [("id", id)])
  ∧ Ruteo.resolver Gratuitas.rutas Ruteo.PATCH ["api"; "citas"; id; "marcar-recordatorio"]
    = Some (Gratuitas.HMarcarRecordatorio, [("id", id)])
  ∧ Ruteo.resolver Gratuitas.rutas Ruteo.PATCH ["api"; "citas"; "reset-flags"; "all"]
    = Some (Gratuitas.HResetFlagsAll, [])
  ∧ Ruteo.resolver Gratuitas.rutas Ruteo.DELETE ["api"; "citas"]
    = Some (Gratuitas.HEliminarTodas, [])
  ∧ ∀ m r ps, Ruteo.resolver Gratuitas.rutas m r = Some (Gratuitas.HResetFlagsAll, ps) →
      m = Ruteo.PATCH ∧ r = ["api"; "citas"; "reset-flags"; "all"] ∧ ps = [].
Proof.
  repeat split; try reflexivity.
  all: revert H; unfold Gratuitas.rutas; destruct m; simpl; intros H;
    repeat (case_match; try discriminate); try done;
    repeat match goal with
           | E : bool_decide _ = true |- _ => apply bool_decide_eq_true_1 in E
           | E : Some _ = Some _ |- _ => injection E as E
           | E : (_, _) = (_, _) |- _ => injection E as E
           end;
    by subst.
Qed.

(** ** X20: what the simplified POST answers *)

(** X20.  POST /api/citas of the simplified server answers 201 exactly when
    nombre, email and telefono are present and tipoFecha is one of 24h, 2h,
    1h_pasado, and 400 otherwise, whatever the table holds: it checks no
    slot.  On 400 the table is unchanged; on 201 exactly one row is
    appended, the row of the response, with the values of the body and the
    three flags false. *)
Theorem X20_respuestas_del_POST_simple
    (di : Z → option Z) (e : Gratuitas.entorno) (b : Gratuitas.Cuerpo.t)
    (t : Gratuitas.tabla) :
  let res := Gratuitas.servir (Gratuitas.crear_cita di e b) t in
  (Gratuitas.status res.1 = 201 ∨ Gratuitas.status res.1 = 400)
  ∧ (Gratuitas.status res.1 = 201 ↔
     JS.truthy (Gratuitas.Cuerpo.nombre b) = true
     ∧ JS.truthy (Gratuitas.Cuerpo.email b) = true
     ∧ JS.truthy (Gratuitas.Cuerpo.telefono b) = true
     ∧ (Gratuitas.Cuerpo.tipoFecha b = JS.Cadena "24h"
        ∨ Gratuitas.Cuerpo.tipoFecha b = JS.Cadena "2h"
        ∨ Gratuitas.Cuerpo.tipoFecha b = JS.Cadena "1h_pasado"))
  ∧ (Gratuitas.status res.1 = 400 → res.2 = t)
  ∧ (Gratuitas.status res.1 = 201 →
     ∃ c, Gratuitas.data res.1 = Gratuitas.Dato c
          ∧ Gratuitas.filas res.2 = (Gratuitas.filas t ++ [c])%list
          ∧ Gratuitas.Fila.nombre c = Sql.parametro (Gratuitas.Cuerpo.nombre b)
          ∧ Gratuitas.Fila.email c = Sql.parametro (Gratuitas.Cuerpo.email b)
          ∧ Gratuitas.Fila.telefono c = Sql.parametro (Gratuitas.Cuerpo.telefono b)
          ∧ Gratuitas_voc.flags c = (false, false, false)).
Proof.
  intros res. subst res. rewrite servir_crear. unfold JS.no.
  destruct (JS.truthy (Gratuitas.Cuerpo.nombre b)) eqn:Hn;
    [|simpl; repeat split; try done; auto; try discriminate; by intros (? & _)].
  destruct (JS.truthy (Gratuitas.Cuerpo.email b)) eqn:He;
    [|simpl; repeat split; try done; auto; try discriminate; by intros (_ & ? & _)].
  destruct (JS.truthy (Gratuitas.Cuerpo.telefono b)) eqn:Ht;
    [|simpl; repeat split; try done; auto; try discriminate; by intros (_ & _ & ? & _)].
  cbn [negb orb].
  destruct (decide (Gratuitas.Cuerpo.tipoFecha b = JS.Cadena "24h"
                    ∨ Gratuitas.Cuerpo.tipoFecha b = JS.Cadena "2h"
                    ∨ Gratuitas.Cuerpo.tipoFecha b = JS.Cadena "1h_pasado")) as [Hc|Hc].
  - assert (∃ fc, Gratuitas.calcular_fecha e (Gratuitas.Cuerpo.tipoFecha b) = Some fc
                  ∧ JS.truthy (Gratuitas.Cuerpo.tipoFecha b) = true) as (fc & -> & ->).
    { destruct (calcular_fecha_codigos e) as (H24 & H2 & H1).
      destruct Hc as [->|[->| ->]]; eauto. }
    cbn [negb fst snd Gratuitas.status Gratuitas.data Gratuitas.filas].
    split; [by left|]. split; [done|]. split; [discriminate|].
    intros _. eexists. split; [reflexivity|]. by repeat split.
  - assert (Gratuitas.calcular_fecha e (Gratuitas.Cuerpo.tipoFecha b) = None) as ->.
    { apply calcular_fecha_otro; intros E; apply Hc; auto. }
    assert ((if negb (JS.truthy (Gratuitas.Cuerpo.tipoFecha b))
             then (Gratuitas.Responder 400 false (Some "Faltan campos requeridos")
                     Gratuitas.SinDatos None, t)
             else (Gratuitas.Responder 400 false (Some "Tipo de fecha inválido")
                     Gratuitas.SinDatos None, t)).2 = t
            ∧ Gratuitas.status
                (if negb (JS.truthy (Gratuitas.Cuerpo.tipoFecha b))
                 then (Gratuitas.Responder 400 false (Some "Faltan campos requeridos")
                         Gratuitas.SinDatos None, t)
                 else (Gratuitas.Responder 400 false (Some "Tipo de fecha inválido")
                         Gratuitas.SinDatos None, t)).1 = 400) as [Ht' Hs'].
    { by destruct (negb _). }
    rewrite Hs'. split; [by right|]. split; [split; [discriminate|tauto]|].
    split; [done|discriminate].
Qed.

(** ** X21: the webhook helper *)

(** X21.  [enviarWebhookN8n] always returns normally, never touches the
    table and only adds lines to the console: one line, on the standard
    output, when N8N_WEBHOOK_URL is unset or empty, and then the outcome of
    the call plays no part; two lines otherwise, the first of which, on the
    standard output, announces the event.  A line goes to the error output
    exactly when the webhook is configured and its call fails, by a
    rejection, which the helper catches, or by a response that is not ok.
    A creation that runs the helper is answered 201 all the same, and the
    failure shows on the console only. *)
Theorem X21_webhook_solo_escribe_en_consola
    (di : Z → option Z) (e : Gratuitas.entorno) (evento : string)
    (datos : Gratuitas.Fila.t) (w : mundo Gratuitas.tabla) (b : Gratuitas.Cuerpo.t) :
  (∃ lineas,
     Gratuitas.enviarWebhookN8n e evento datos w
     = (Bien tt, Mundo (Efecto.tabla w) (consola w ++ lineas))
     ∧ (JS.truthy_env (Gratuitas.N8N_WEBHOOK_URL e) = false →
        length lineas = 1%nat
        ∧ ∀ red', Gratuitas.enviarWebhookN8n
                    (Gratuitas.Entorno (Gratuitas.ahora e) (Gratuitas.zona e)
                       (Gratuitas.N8N_WEBHOOK_URL e) red') evento datos w
                  = Gratuitas.enviarWebhookN8n e evento datos w)
     ∧ (JS.truthy_env (Gratuitas.N8N_WEBHOOK_URL e) = true →
        ∃ ultima,
          lineas = [Linea Log [Texto ("📤 Enviando webhook a n8n: " ++ evento)]; ultima])
     ∧ (Exists (λ l, flujo_de l = Err) lineas ↔ Gratuitas_inv.entrega_fallida e))
  ∧ ∀ r w', Gratuitas.crear_cita di e b w = (r, w') →
      (∃ resp, r = Bien resp)
      ∧ (∀ resp, r = Bien resp → Gratuitas.status resp = 201 →
           ∃ lineas, consola w' = (consola w ++ lineas)%list
                     ∧ (Exists (λ l, flujo_de l = Err) lineas
                        ↔ Gratuitas_inv.entrega_fallida e)).
Proof.
  assert (∀ ev d w0, ∃ lineas,
            Gratuitas.enviarWebhookN8n e ev d w0
            = (Bien tt, Mundo (Efecto.tabla w0) (consola w0 ++ lineas))
            ∧ (JS.truthy_env (Gratuitas.N8N_WEBHOOK_URL e) = false → length lineas = 1%nat)
            ∧ (JS.truthy_env (Gratuitas.N8N_WEBHOOK_URL e) = true →
               ∃ ultima,
                 lineas = [Linea Log [Texto ("📤 Enviando webhook a n8n: " ++ ev)]; ultima])
            ∧ (Exists (λ l, flujo_de l = Err) lineas ↔ Gratuitas_inv.entrega_fallida e))
    as Hweb.
  { intros ev d w0. unfold Gratuitas.enviarWebhookN8n, Gratuitas_inv.entrega_fallida.
    destruct (JS.truthy_env (Gratuitas.N8N_WEBHOOK_URL e)); simpl.
    - unfold intentar, ligar, console_log, console_error, registrar, Gratuitas.fetch,
        ret, lanzar. simpl.
      destruct (Gratuitas.red e) as [msg|[] st txt]; simpl; rewrite <- app_assoc;
        (eexists; split; [reflexivity|]); (split; [discriminate|]);
        (split; [intros _; eexists; reflexivity|]); simpl.
      + split; [done|]. intros _. apply Exists_cons_tl, Exists_cons_hd. done.
      + split; [|by intros [_ ?]].
        intros H. apply Exists_cons in H as [H|H]; [discriminate|].
        apply Exists_cons in H as [H|H]; [discriminate|]. by apply Exists_nil in H.
      + split; [done|]. intros _. apply Exists_cons_tl, Exists_cons_hd. done.
    - unfold console_log, registrar. eexists. split; [reflexivity|].
      split; [done|]. split; [discriminate|].
      split; [|by intros [? _]].
      intros H. apply Exists_cons in H as [H|H]; [discriminate|]. by apply Exists_nil in H. }
  split.
  - destruct (Hweb evento datos w) as (lineas & E & H1 & H2 & H3).
    exists lineas. split; [done|]. split; [|split; [done|done]].
    intros Hurl. split; [by apply H1|].
    intros red'. unfold Gratuitas.enviarWebhookN8n. cbn [Gratuitas.N8N_WEBHOOK_URL].
    by rewrite Hurl.
  - intros r w'. unfold Gratuitas.crear_cita.
    destruct (_ || _).
    { intros [= <- <-]. split; [eauto|]. intros resp [= <-]. discriminate. }
    destruct (Gratuitas.calcular_fecha e _) as [fc|].
    2:{ intros [= <- <-]. split; [eauto|]. intros resp [= <-]. discriminate. }
    unfold intentar, ligar, Gratuitas.insertar, leer, escribir, ret. simpl.
    match goal with
    | |- context [Gratuitas.enviarWebhookN8n e ?ev ?d ?w0] =>
        destruct (Hweb ev d w0) as (lineas & -> & _ & _ & H3)
    end.
    simpl. intros [= <- <-]. split; [eauto|].
    intros resp [= <-] _. exists lineas. by split.
Qed.

(** ** X22: created, then deleted *)

(** X22.  On a table whose ids were drawn from the sequence, when the
    simplified POST answers 201 with a row, DELETE /api/citas/:id with the
    id of that row answers 200 with exactly that row, and the table holds
    the rows it held before the creation. *)
Theorem X22_creada_y_eliminada
    (m : Sql.motor) (di : Z → option Z) (e1 e2 : Gratuitas.entorno)
    (b : Gratuitas.Cuerpo.t) (t : Gratuitas.tabla) (c : Gratuitas.Fila.t) (id : string) :
  Gratuitas_inv.ids_de_la_secuencia t →
  (Gratuitas.servir (Gratuitas.crear_cita di e1 b) t).1
    = Gratuitas.Responder 201 true (Some "Cita creada exitosamente") (Gratuitas.Dato c) None →
  Sql.entero_de_texto m id = Bien (Gratuitas.Fila.id c) →
  let res := Gratuitas.servir (Gratuitas.eliminar_cita m e2 id)
               (Gratuitas.servir (Gratuitas.crear_cita di e1 b) t).2 in
  res.1 = Gratuitas.Responder 200 true (Some "Cita eliminada exitosamente")
            (Gratuitas.Dato c) None
  ∧ Gratuitas.filas res.2 = Gratuitas.filas t.
Proof.
  intros Hids H Hid res. subst res. rewrite servir_crear in *.
  destruct (_ || _); [discriminate|].
  destruct (Gratuitas.calcular_fecha e1 _) as [fc|]; [|discriminate].
  cbv zeta in *. cbn [fst snd] in *. injection H as <-.
  rewrite servir_eliminar, Hid.
  cbn [fst snd Gratuitas.filas Gratuitas.fila_nueva Gratuitas.Fila.id].
  assert (∀ c', c' ∈ Gratuitas.filas t → Gratuitas.Fila.id c' ≠ Gratuitas.siguiente_id t)
    as Hno.
  { intros c' Hc'. unfold Gratuitas_inv.ids_de_la_secuencia in Hids.
    rewrite Forall_forall in Hids. specialize (Hids c' Hc'). lia. }
  unfold Gratuitas.con_clave. rewrite !filter_app.
  fold (Gratuitas.con_clave (Gratuitas.siguiente_id t) (Gratuitas.filas t)).
  rewrite (g_con_clave_ausente _ _ Hno), (g_borrar_ausente _ _ Hno).
  rewrite !filter_cons, decide_True, decide_False by (simpl; tauto || done).
  by rewrite app_nil_r.
Qed.

Lemma X22_creada_y_eliminada_witness :
  Gratuitas.filas
    (Gratuitas.servir (Gratuitas.eliminar_cita Ejemplos.motor Ejemplos.con_webhook "3")
       (Gratuitas.servir
          (Gratuitas.crear_cita Ejemplos.por_defecto Ejemplos.sin_red (Ejemplos.eva "24h"))
          Ejemplos.dos_citas).2).2
  = Gratuitas.filas Ejemplos.dos_citas.
Proof.
  refine (proj2 (X22_creada_y_eliminada Ejemplos.motor Ejemplos.por_defecto Ejemplos.sin_red
                   Ejemplos.con_webhook (Ejemplos.eva "24h") Ejemplos.dos_citas _ "3"
                   _ _ _)).
  - repeat constructor.
  - reflexivity.
  - reflexivity.
Defined.
